(** * Order lifecycle and incentive ledger of the storefront backend

    A shallow embedding of the ledger-relevant request handlers of
    [src/server/index.js]: order creation, payment confirmation with its
    reward helpers ([updateUserLevel], [processReferralPayment]), promo
    validation and redemption, manual cashback adjustment, the withdrawal
    workflow, review bonus, and the on-chain transaction verifier.

    Conventions of the embedding.
    - The SQLite store is a record of tables; a table is the list of its rows
      in insertion (rowid) order.  [SELECT ... get] is "first matching row",
      [UPDATE ... WHERE] maps over the rows, [INSERT] appends.
    - JavaScript numbers that carry money are exact rationals ([Qc]); the
      rounding of IEEE doubles is not modelled.  SQL [NULL] / JS [null] is
      [None].
    - Handlers are computations in a state monad over the store and return
      the HTTP response they send.  Messages pushed through the chat bot are
      fire-and-forget and live outside the store; they are not recorded.
    - Free-text columns of [orders] that no handler below reads back
      (service, niche, formats, description, refs, media, items, comment)
      are left out of the row type. *)

From Stdlib Require Import List String Ascii Bool ZArith NArith QArith Qcanon.
From Stdlib Require Import Lia Lqa DecimalString.
Import ListNotations.

Local Open Scope string_scope.
Local Open Scope Z_scope.
Local Open Scope Qc_scope.

(** ** Numbers *)

Module Num.

(** An integer literal as a JS number. *)
Definition ofZ (z : Z) : Qc := Q2Qc (inject_Z z).

(** A decimal literal [n / d], as in [0.05] = [frac 5 100]. *)
Definition frac (n : Z) (d : positive) : Qc := Q2Qc (n # d).

Definition eqb (x y : Qc) : bool := Qeq_bool x y.
Definition ltb (x y : Qc) : bool := negb (Qle_bool y x).
Definition leb (x y : Qc) : bool := Qle_bool x y.

(** [Math.max] and [Math.abs]. *)
Definition max (x y : Qc) : Qc := if leb x y then y else x.
Definition abs (x : Qc) : Qc := if ltb x 0 then - x else x.

(** JS truthiness of a nullable number: [null] and [0] are falsy. *)
Definition truthy (x : option Qc) : bool :=
  match x with
  | None => false
  | Some q => negb (eqb q 0)
  end.

(** [a || b] on nullable numbers. *)
Definition or (a b : option Qc) : option Qc := if truthy a then a else b.

(** Numeric coercion of a nullable number in arithmetic: [null * k] is [0]. *)
Definition coerce (x : option Qc) : Qc :=
  match x with
  | None => 0
  | Some q => q
  end.

End Num.

(** Brings a goal about canonical rationals down to [Q], where [lra]
    decides linear arithmetic. *)
Ltac qc_arith :=
  unfold Qcle, Qclt, Qcminus, Qcopp, Qcplus, Qcmult, Num.frac, Num.ofZ in *;
  cbn [this Q2Qc] in *;
  repeat match goal with
         | H : context [Qred _] |- _ => rewrite Qred_correct in H
         | |- context [Qred _] => rewrite Qred_correct
         end;
  unfold inject_Z in *;
  lra.

(** Closed equations between canonical rationals are decided by computing
    both sides. *)
Ltac qc_compute := apply Qc_is_canon; vm_compute; reflexivity.

(** ** Text helpers *)

Module Text.

Definition lower_ascii (c : ascii) : ascii :=
  let n := nat_of_ascii c in
  if andb (Nat.leb 65 n) (Nat.leb n 90) then ascii_of_nat (n + 32) else c.

Definition upper_ascii (c : ascii) : ascii :=
  let n := nat_of_ascii c in
  if andb (Nat.leb 97 n) (Nat.leb n 122) then ascii_of_nat (n - 32) else c.

Fixpoint map_string (f : ascii -> ascii) (s : string) : string :=
  match s with
  | EmptyString => EmptyString
  | String c r => String (f c) (map_string f r)
  end.

(** [String.prototype.toLowerCase] / [toUpperCase] on the ASCII range
    (wallet addresses and promo codes). *)
Definition toLowerCase : string -> string := map_string lower_ascii.
Definition toUpperCase : string -> string := map_string upper_ascii.

(** Truthiness of a nullable string: [null] and the empty string are
    falsy. *)
Definition truthy (s : option string) : bool :=
  match s with
  | Some (String _ _) => true
  | _ => false
  end.

Definition or (a b : option string) : option string :=
  if truthy a then a else b.

(** Decimal rendering of a non-negative integer, as in ['ORD' + Date.now()]. *)
Definition of_N (n : N) : string := NilEmpty.string_of_uint (N.to_uint n).

(** Decimal rendering of a row id. *)
Definition of_Z (z : Z) : string := NilEmpty.string_of_int (Z.to_int z).

(** A template literal before rendering: fixed text and interpolated
    numbers ([Fixed2] is [x.toFixed(2)]). *)
Inductive frag :=
| Txt (s : string)
| Num (q : Qc)
| Fixed2 (q : Qc).

Definition template := list frag.

End Text.

(** ** The store *)

Inductive level := none | bronze | silver | gold | platinum.

Definition level_eqb (a b : level) : bool :=
  match a, b with
  | none, none | bronze, bronze | silver, silver
  | gold, gold | platinum, platinum => true
  | _, _ => false
  end.

Definition timestamp := N.

Record user := mkUser {
  u_id : Z;
  u_telegram_id : string;
  u_name : string;
  u_username : string;
  u_level : level;
  u_total_spent : Qc;
  u_cashback : Qc;
  u_referral_code : string;
  u_referred_by : option Z;
  u_referral_earnings : Qc;
  u_trc20_wallet : option string
}.

Record order := mkOrder {
  o_id : string;
  o_user_id : Z;
  o_base_price : option Qc;
  o_discount : option Qc;
  o_cashback_used : option Qc;
  o_total : option Qc;
  o_cashback_earned : option Qc;
  o_status : string;
  o_tx_hash : option string;
  o_payment_method : option string;
  o_reviewed : bool;
  o_created_at : timestamp;
  o_promo_code : option string;
  o_discount_amount : option Qc;
  o_subtotal : option Qc
}.

Record cashback_entry := mkEntry {
  ch_user_id : Z;
  ch_amount : Qc;
  ch_description : string;
  ch_created_at : timestamp
}.

Record referral := mkReferral {
  r_referrer_id : Z;
  r_referred_id : Z;
  r_earnings : Qc
}.

Record notification := mkNotification {
  n_user_id : Z;
  n_title : string;
  n_message : Text.template
}.

Record promo_code := mkPromo {
  p_id : Z;
  p_code : string;
  p_discount_percent : Z;
  p_max_uses : option Z;
  p_current_uses : Z;
  p_expires_at : option timestamp;
  p_is_active : bool
}.

Record promo_use := mkPromoUse {
  pu_promo_id : Z;
  pu_user_id : Z;
  pu_order_id : string
}.

Record invoice := mkInvoice {
  i_id : string;
  i_order_id : string;
  i_user_id : Z;
  i_amount : Qc;
  i_promo_code : option string;
  i_discount_amount : Qc;
  i_final_amount : Qc;
  i_payment_address : string;
  i_tx_hash : option string;
  i_status : string;
  i_paid_at : option timestamp
}.

Record withdrawal := mkWithdrawal {
  w_id : Z;
  w_user_id : Z;
  w_amount : Qc;
  w_wallet_address : string;
  w_type : string;
  w_status : string;
  w_tx_hash : option string;
  w_processed_at : option timestamp
}.

Record store := mkStore {
  users : list user;
  orders : list order;
  cashback_history : list cashback_entry;
  referrals : list referral;
  notifications : list notification;
  promo_codes : list promo_code;
  promo_uses : list promo_use;
  invoices : list invoice;
  withdrawals : list withdrawal
}.

(** Column updates ([UPDATE t SET c = ...] rewrites one field of a row). *)

Definition set_u_level (l : level) (u : user) : user :=
  mkUser (u_id u) (u_telegram_id u) (u_name u) (u_username u) l
         (u_total_spent u) (u_cashback u) (u_referral_code u)
         (u_referred_by u) (u_referral_earnings u) (u_trc20_wallet u).

Definition set_u_total_spent (q : Qc) (u : user) : user :=
  mkUser (u_id u) (u_telegram_id u) (u_name u) (u_username u) (u_level u)
         q (u_cashback u) (u_referral_code u)
         (u_referred_by u) (u_referral_earnings u) (u_trc20_wallet u).

Definition set_u_cashback (q : Qc) (u : user) : user :=
  mkUser (u_id u) (u_telegram_id u) (u_name u) (u_username u) (u_level u)
         (u_total_spent u) q (u_referral_code u)
         (u_referred_by u) (u_referral_earnings u) (u_trc20_wallet u).

Definition set_u_referral_earnings (q : Qc) (u : user) : user :=
  mkUser (u_id u) (u_telegram_id u) (u_name u) (u_username u) (u_level u)
         (u_total_spent u) (u_cashback u) (u_referral_code u)
         (u_referred_by u) q (u_trc20_wallet u).

Definition set_o_status_tx (st : string) (tx : option string) (o : order) : order :=
  mkOrder (o_id o) (o_user_id o) (o_base_price o) (o_discount o)
          (o_cashback_used o) (o_total o) (o_cashback_earned o) st tx
          (o_payment_method o) (o_reviewed o) (o_created_at o)
          (o_promo_code o) (o_discount_amount o) (o_subtotal o).

Definition set_o_reviewed (b : bool) (o : order) : order :=
  mkOrder (o_id o) (o_user_id o) (o_base_price o) (o_discount o)
          (o_cashback_used o) (o_total o) (o_cashback_earned o) (o_status o)
          (o_tx_hash o) (o_payment_method o) b (o_created_at o)
          (o_promo_code o) (o_discount_amount o) (o_subtotal o).

Definition set_r_earnings (q : Qc) (r : referral) : referral :=
  mkReferral (r_referrer_id r) (r_referred_id r) q.

Definition set_p_current_uses (n : Z) (p : promo_code) : promo_code :=
  mkPromo (p_id p) (p_code p) (p_discount_percent p) (p_max_uses p) n
          (p_expires_at p) (p_is_active p).

Definition set_i_paid (st : string) (t : timestamp) (i : invoice) : invoice :=
  mkInvoice (i_id i) (i_order_id i) (i_user_id i) (i_amount i) (i_promo_code i)
            (i_discount_amount i) (i_final_amount i) (i_payment_address i)
            (i_tx_hash i) st (Some t).

Definition set_w_completed (tx : option string) (t : timestamp) (w : withdrawal)
  : withdrawal :=
  mkWithdrawal (w_id w) (w_user_id w) (w_amount w) (w_wallet_address w)
               (w_type w) "completed" tx (Some t).

Definition with_users (f : list user -> list user) (s : store) : store :=
  mkStore (f (users s)) (orders s) (cashback_history s) (referrals s)
          (notifications s) (promo_codes s) (promo_uses s) (invoices s)
          (withdrawals s).

Definition with_orders (f : list order -> list order) (s : store) : store :=
  mkStore (users s) (f (orders s)) (cashback_history s) (referrals s)
          (notifications s) (promo_codes s) (promo_uses s) (invoices s)
          (withdrawals s).

Definition with_cashback_history
  (f : list cashback_entry -> list cashback_entry) (s : store) : store :=
  mkStore (users s) (orders s) (f (cashback_history s)) (referrals s)
          (notifications s) (promo_codes s) (promo_uses s) (invoices s)
          (withdrawals s).

Definition with_referrals (f : list referral -> list referral) (s : store) : store :=
  mkStore (users s) (orders s) (cashback_history s) (f (referrals s))
          (notifications s) (promo_codes s) (promo_uses s) (invoices s)
          (withdrawals s).

Definition with_notifications
  (f : list notification -> list notification) (s : store) : store :=
  mkStore (users s) (orders s) (cashback_history s) (referrals s)
          (f (notifications s)) (promo_codes s) (promo_uses s) (invoices s)
          (withdrawals s).

Definition with_promo_codes (f : list promo_code -> list promo_code) (s : store)
  : store :=
  mkStore (users s) (orders s) (cashback_history s) (referrals s)
          (notifications s) (f (promo_codes s)) (promo_uses s) (invoices s)
          (withdrawals s).

Definition with_promo_uses (f : list promo_use -> list promo_use) (s : store)
  : store :=
  mkStore (users s) (orders s) (cashback_history s) (referrals s)
          (notifications s) (promo_codes s) (f (promo_uses s)) (invoices s)
          (withdrawals s).

Definition with_invoices (f : list invoice -> list invoice) (s : store) : store :=
  mkStore (users s) (orders s) (cashback_history s) (referrals s)
          (notifications s) (promo_codes s) (promo_uses s) (f (invoices s))
          (withdrawals s).

Definition with_withdrawals (f : list withdrawal -> list withdrawal) (s : store)
  : store :=
  mkStore (users s) (orders s) (cashback_history s) (referrals s)
          (notifications s) (promo_codes s) (promo_uses s) (invoices s)
          (f (withdrawals s)).

(** ** Handler monad: store passing with exceptions

    A statement either completes or throws; a throw keeps the writes made
    so far (no handler opens a transaction). *)

Inductive outcome (A : Type) :=
| Done (a : A)
| Thrown.
Arguments Done {A} a.
Arguments Thrown {A}.

Definition M (A : Type) : Type := store -> outcome A * store.

Definition ret {A} (a : A) : M A := fun s => (Done a, s).

Definition bind {A B} (m : M A) (f : A -> M B) : M B :=
  fun s =>
    match m s with
    | (Done a, s') => f a s'
    | (Thrown, s') => (Thrown, s')
    end.

Definition throw {A} : M A := fun s => (Thrown, s).

(** [try { m } catch { h }]. *)
Definition try_catch {A} (m h : M A) : M A :=
  fun s =>
    match m s with
    | (Done a, s') => (Done a, s')
    | (Thrown, s') => h s'
    end.

Definition query {A} (f : store -> A) : M A := fun s => (Done (f s), s).
Definition exec (f : store -> store) : M unit := fun s => (Done tt, f s).

Declare Scope handler_scope.
Delimit Scope handler_scope with handler.
Notation "x <- c ;; k" := (bind c (fun x => k))
  (at level 61, c at next level, right associativity) : handler_scope.
Notation "c ;; k" := (bind c (fun _ => k))
  (at level 61, right associativity) : handler_scope.
Local Open Scope handler_scope.

(** The store a handler leaves behind and the value it produced. *)
Definition run {A} (m : M A) (s : store) : store := snd (m s).
Definition result {A} (m : M A) (s : store) : outcome A := fst (m s).

(** ** Statements *)

Module Sql.

Definition update {A} (p : A -> bool) (f : A -> A) (rows : list A) : list A :=
  map (fun r => if p r then f r else r) rows.

Definition insert {A} (r : A) (rows : list A) : list A := (rows ++ [r])%list.

(** [ORDER BY key LIMIT 1]: the earliest row, the first such in rowid
    order. *)
Fixpoint first_by {A} (key : A -> N) (rows : list A) : option A :=
  match rows with
  | [] => None
  | r :: rest =>
      match first_by key rest with
      | None => Some r
      | Some r' => if (key r <=? key r')%N then Some r else Some r'
      end
  end.

End Sql.

Definition user_by_id (id : Z) (s : store) : option user :=
  find (fun u => (u_id u =? id)%Z) (users s).

Definition user_by_telegram_id (tg : string) (s : store) : option user :=
  find (fun u => String.eqb (u_telegram_id u) tg) (users s).

Definition order_by_id (id : string) (s : store) : option order :=
  find (fun o => String.eqb (o_id o) id) (orders s).

Definition invoice_by_id (id : string) (s : store) : option invoice :=
  find (fun i => String.eqb (i_id i) id) (invoices s).

Definition withdrawal_by_id (id : Z) (s : store) : option withdrawal :=
  find (fun w => (w_id w =? id)%Z) (withdrawals s).

Definition active_promo_by_code (code : string) (s : store) : option promo_code :=
  find (fun p => String.eqb (p_code p) code && p_is_active p) (promo_codes s).

Definition update_user (id : Z) (f : user -> user) : M unit :=
  exec (with_users (Sql.update (fun u => (u_id u =? id)%Z) f)).

Definition insert_cashback_history (uid : Z) (amount : Qc) (descr : string)
  (now : timestamp) : M unit :=
  exec (with_cashback_history (Sql.insert (mkEntry uid amount descr now))).

Definition insert_notification (uid : Z) (title : string) (msg : Text.template)
  : M unit :=
  exec (with_notifications (Sql.insert (mkNotification uid title msg))).

(** ** Responses *)

Inductive body :=
| Success                                   (* { success: true } *)
| SuccessOrder (orderId : string)           (* { success: true, orderId } *)
| SuccessBonus (bonus : Qc)                 (* { success: true, bonus } *)
| SuccessWithdrawal (withdrawalId : Z)      (* { success: true, withdrawalId } *)
| SuccessDiscount (discount : Z)            (* { success: true, discount } *)
| Failure (error : string)                  (* { success: false, error } *)
| Error (error : string)                    (* { error } *)
| ErrorMessage (error message : string)     (* { error, message } *)
| PromoValid (code : string) (discount : Z) (* { valid: true, code, discount } *)
| PromoInvalid (error : string).            (* { valid: false, error } *)

Record response := Json { http_status : N; payload : body }.

(** ** Reward helpers *)

(** The threshold ladder of [updateUserLevel]. *)
Definition level_of_spent (spent : Qc) : level :=
  if Num.leb (Num.ofZ 10000) spent then platinum
  else if Num.leb (Num.ofZ 1000) spent then gold
  else if Num.leb (Num.ofZ 500) spent then silver
  else if Num.leb (Num.ofZ 100) spent then bronze
  else none.

Definition level_name (l : level) : string :=
  match l with
  | none => "none"
  | bronze => "bronze"
  | silver => "silver"
  | gold => "gold"
  | platinum => "platinum"
  end.

(** [discounts[newLevel]]; the table has no entry for ['none']. *)
Definition discounts (l : level) : option Z :=
  match l with
  | none => None
  | bronze => Some 5%Z
  | silver => Some 10%Z
  | gold => Some 15%Z
  | platinum => Some 20%Z
  end.

Definition updateUserLevel (userId : Z) : M unit :=
  try_catch
    (user <- query (user_by_id userId) ;;
     match user with
     | None => ret tt
     | Some user =>
         let spent := u_total_spent user in
         let newLevel := level_of_spent spent in
         if negb (level_eqb newLevel (u_level user))
            && negb (level_eqb newLevel none)
         then
           update_user userId (set_u_level newLevel) ;;
           insert_notification userId "🎉 Новый уровень!"
             [Text.Txt ("Теперь вы " ++ level_name newLevel ++ ". Скидка ");
              Text.Num (Num.ofZ (match discounts newLevel with
                                 | Some d => d
                                 | None => 0%Z
                                 end));
              Text.Txt "%"]
         else ret tt
     end)
    (ret tt).

Definition orders_of (userId : Z) (s : store) : list order :=
  filter (fun o => (o_user_id o =? userId)%Z) (orders s).

(** [firstOrder.subtotal || firstOrder.base_price || firstOrder.total] *)
Definition baseAmount (firstOrder : order) : option Qc :=
  Num.or (Num.or (o_subtotal firstOrder) (o_base_price firstOrder))
         (o_total firstOrder).

Definition processReferralPayment (userId : Z) : M unit :=
  try_catch
    (user <- query (user_by_id userId) ;;
     match user with
     | None => ret tt
     | Some user =>
         match u_referred_by user with
         | None => ret tt
         | Some referred_by =>
             ordersCount <- query (fun s => List.length (orders_of userId s)) ;;
             if negb (Nat.eqb ordersCount 1) then ret tt else
             firstOrder <- query (fun s =>
                             Sql.first_by o_created_at (orders_of userId s)) ;;
             match firstOrder with
             | None => ret tt
             | Some firstOrder =>
                 let referralAmount :=
                   Num.coerce (baseAmount firstOrder) * Num.frac 25 100 in
                 update_user referred_by
                   (fun u => set_u_referral_earnings
                               (u_referral_earnings u + referralAmount) u) ;;
                 exec (with_referrals
                         (Sql.update
                            (fun r => (r_referrer_id r =? referred_by)%Z
                                      && (r_referred_id r =? userId)%Z)
                            (set_r_earnings referralAmount))) ;;
                 referrer <- query (user_by_id referred_by) ;;
                 match referrer with
                 | None => ret tt
                 | Some referrer =>
                     insert_notification (u_id referrer) "💰 Реферальный бонус!"
                       [Text.Txt "+$"; Text.Fixed2 referralAmount;
                        Text.Txt (" за приглашённого " ++ u_name user)]
                 end
             end
         end
     end)
    (ret tt).

(** ** Order creation: [POST /api/orders] *)

Record order_request := mkOrderRequest {
  req_id : option string;
  req_basePrice : option Qc;
  req_discount : option Qc;
  req_cashbackUsed : option Qc;
  req_total : option Qc;
  req_cashbackEarned : option Qc;
  req_txHash : option string;
  req_paymentMethod : option string;
  req_promoCode : option string;
  req_promoDiscount : option Qc;
  req_referralDiscount : option Qc
}.

(** [x || null] on strings: the empty string becomes [NULL]. *)
Definition or_null (x : option string) : option string :=
  if Text.truthy x then x else None.

(** [INSERT INTO orders]: the primary key rejects a second row with the
    same id. *)
Definition insert_order (o : order) : M unit :=
  fun s =>
    if existsb (fun o' => String.eqb (o_id o') (o_id o)) (orders s)
    then (Thrown, s)
    else (Done tt, with_orders (Sql.insert o) s).

(** [order.id || ('ORD' + Date.now())] *)
Definition orderId_of (order : order_request) (now : timestamp) : string :=
  match req_id order with
  | Some (String c r) => String c r
  | _ => "ORD" ++ Text.of_N now
  end.

Definition create_order (telegram_id : string) (order : order_request)
  (now : timestamp) : M response :=
  try_catch
    (user <- query (user_by_telegram_id telegram_id) ;;
     match user with
     | None => ret (Json 404 (Error "User not found"))
     | Some user =>
         let orderId := orderId_of order now in
         insert_order
           (mkOrder orderId (u_id user)
              (req_basePrice order)
              (req_discount order)
              (Num.or (req_cashbackUsed order) (Some 0))
              (req_total order)
              (req_cashbackEarned order)
              "pending"
              (or_null (req_txHash order))
              (or_null (req_paymentMethod order))
              false
              now
              (or_null (req_promoCode order))
              (Some (Num.coerce (Num.or (req_promoDiscount order) (Some 0))
                     + Num.coerce (Num.or (req_referralDiscount order) (Some 0))))
              (req_basePrice order)) ;;
         match req_cashbackUsed order with
         | Some cashbackUsed =>
             if Num.ltb 0 cashbackUsed then
               update_user (u_id user)
                 (fun u => set_u_cashback (u_cashback u - cashbackUsed) u) ;;
               insert_cashback_history (u_id user) (- cashbackUsed)
                 ("Оплата заказа #" ++ orderId) now
             else ret tt
         | None => ret tt
         end ;;
         insert_notification (u_id user) "📦 Заказ создан"
           [Text.Txt ("Заказ #" ++ orderId ++ " принят в обработку")] ;;
         ret (Json 200 (SuccessOrder orderId))
     end)
    (ret (Json 500 (Error "Server error"))).

(** ** Payment confirmation: [POST /api/invoices/:id/confirm] *)

Definition confirm_invoice (id : string) (now : timestamp) : M response :=
  try_catch
    (invoice <- query (invoice_by_id id) ;;
     match invoice with
     | None => ret (Json 404 (Error "Invoice not found"))
     | Some invoice =>
         exec (with_invoices
                 (Sql.update (fun i => String.eqb (i_id i) id)
                             (set_i_paid "paid" now))) ;;
         exec (with_orders
                 (Sql.update (fun o => String.eqb (o_id o) (i_order_id invoice))
                             (set_o_status_tx "working" (i_tx_hash invoice)))) ;;
         order <- query (order_by_id (i_order_id invoice)) ;;
         let cashbackAmount := i_amount invoice * Num.frac 5 100 in
         update_user (i_user_id invoice)
           (fun u => set_u_total_spent (u_total_spent u + i_amount invoice)
                       (set_u_cashback (u_cashback u + cashbackAmount) u)) ;;
         insert_cashback_history (i_user_id invoice) cashbackAmount
           ("Кешбэк за заказ #" ++ i_order_id invoice) now ;;
         updateUserLevel (i_user_id invoice) ;;
         processReferralPayment (i_user_id invoice) ;;
         insert_notification (i_user_id invoice) "✅ Оплата подтверждена"
           [Text.Txt ("Счет #" ++ id ++ " оплачен. Заказ принят в работу!")] ;;
         ret (Json 200 Success)
     end)
    (ret (Json 500 (Error "Failed to confirm invoice"))).

(** ** Review bonus: [POST /api/reviews] *)

Definition reviewBonus : Qc := Num.ofZ 2.

Definition submit_review (telegram_id : string) (orderId : string)
  (now : timestamp) : M response :=
  try_catch
    (user <- query (user_by_telegram_id telegram_id) ;;
     match user with
     | None => ret (Json 404 (Error "User not found"))
     | Some user =>
         exec (with_orders
                 (Sql.update (fun o => String.eqb (o_id o) orderId
                                       && (o_user_id o =? u_id user)%Z)
                             (set_o_reviewed true))) ;;
         update_user (u_id user)
           (fun u => set_u_cashback (u_cashback u + reviewBonus) u) ;;
         insert_cashback_history (u_id user) reviewBonus "Бонус за отзыв" now ;;
         ret (Json 200 (SuccessBonus reviewBonus))
     end)
    (ret (Json 500 (Error "Server error"))).

(** ** Promo codes *)

(** [promo.max_uses && promo.current_uses >= promo.max_uses] *)
Definition exhausted (promo : promo_code) : bool :=
  match p_max_uses promo with
  | Some max_uses => negb (max_uses =? 0)%Z && (max_uses <=? p_current_uses promo)%Z
  | None => false
  end.

(** [promo.expires_at && new Date(promo.expires_at) < new Date()] *)
Definition expired (promo : promo_code) (now : timestamp) : bool :=
  match p_expires_at promo with
  | Some t => (t <? now)%N
  | None => false
  end.

(** [GET /api/promo/:code] *)
Definition check_promo (code : string) (now : timestamp) : M response :=
  try_catch
    (let code := Text.toUpperCase code in
     promo <- query (active_promo_by_code code) ;;
     match promo with
     | None => ret (Json 200 (PromoInvalid "Промокод не найден"))
     | Some promo =>
         if expired promo now
         then ret (Json 200 (PromoInvalid "Промокод истёк"))
         else if exhausted promo
         then ret (Json 200 (PromoInvalid "Промокод исчерпан"))
         else ret (Json 200 (PromoValid (p_code promo) (p_discount_percent promo)))
     end)
    (ret (Json 500 (Error "Failed to check promo code"))).

(** [POST /api/promo/apply] *)
Definition apply_promo (code : string) (user_id : Z) (order_id : string)
  : M response :=
  try_catch
    (let codeUpper := Text.toUpperCase code in
     promo <- query (active_promo_by_code codeUpper) ;;
     match promo with
     | None => ret (Json 200 (Failure "Промокод не найден"))
     | Some promo =>
         exec (with_promo_codes
                 (Sql.update (fun p => (p_id p =? p_id promo)%Z)
                    (fun p => set_p_current_uses (p_current_uses p + 1)%Z p))) ;;
         exec (with_promo_uses
                 (Sql.insert (mkPromoUse (p_id promo) user_id order_id))) ;;
         ret (Json 200 (SuccessDiscount (p_discount_percent promo)))
     end)
    (ret (Json 500 (Error "Failed to apply promo code"))).

(** ** Manual cashback adjustment: [POST /api/admin/users/:id/cashback] *)

Definition admin_cashback (userId : Z) (amount : option Qc) : M response :=
  try_catch
    (match amount with
     | None => ret (Json 400 (Error "Amount is required"))
     | Some amount =>
         update_user userId
           (fun u => set_u_cashback (u_cashback u + amount) u) ;;
         ret (Json 200 Success)
     end)
    (ret (Json 500 (Error "Failed to update cashback"))).

(** ** Withdrawals *)

(** The rowid an [AUTOINCREMENT] table hands out next. *)
Definition next_withdrawal_id (s : store) : Z :=
  (1 + fold_right Z.max 0 (map w_id (withdrawals s)))%Z.

(** [POST /api/withdrawal-request] *)
Definition request_withdrawal (telegram_id : string) (type : string)
  (amount : option Qc) : M response :=
  try_catch
    (user <- query (user_by_telegram_id telegram_id) ;;
     match user with
     | None => ret (Json 404 (Error "User not found"))
     | Some user =>
         match u_trc20_wallet user with
         | Some (String c r) =>
             let wallet := String c r in
             match amount with
             | Some amount =>
                 if Num.eqb amount 0 || Num.leb amount 0
                 then ret (Json 400 (ErrorMessage "invalid_amount" "Неверная сумма"))
                 else
                   let insufficient :=
                     if String.eqb type "cashback"
                     then Some (Num.ltb (u_cashback user) amount,
                                "Недостаточно средств на балансе кешбэка")
                     else if String.eqb type "referral"
                     then Some (Num.ltb (u_referral_earnings user) amount,
                                "Недостаточно реферальных средств")
                     else None in
                   match insufficient with
                   | None =>
                       ret (Json 400 (ErrorMessage "invalid_type"
                                        "Неверный тип выплаты"))
                   | Some (true, msg) =>
                       ret (Json 400 (ErrorMessage "insufficient_balance" msg))
                   | Some (false, _) =>
                       withdrawalId <- query next_withdrawal_id ;;
                       exec (with_withdrawals
                               (Sql.insert
                                  (mkWithdrawal withdrawalId (u_id user) amount
                                     wallet type "pending" None None))) ;;
                       insert_notification (u_id user) "💸 Запрос на выплату"
                         [Text.Txt "Запрос на выплату $"; Text.Num amount;
                          Text.Txt " передан в обработку"] ;;
                       ret (Json 200 (SuccessWithdrawal withdrawalId))
                   end
             | None =>
                 ret (Json 400 (ErrorMessage "invalid_amount" "Неверная сумма"))
             end
         | _ =>
             ret (Json 400 (ErrorMessage "no_wallet"
               "Пожалуйста, добавьте TRC20 кошелек в настройках профиля"))
         end
     end)
    (ret (Json 500 (Error "Server error"))).

(** [POST /api/admin/withdrawals/:id/process].  A withdrawal whose user row
    is gone makes [user.cashback] / [user.id] throw, after the withdrawal
    was already marked completed. *)
Definition process_withdrawal (id : Z) (tx_hash : option string)
  (now : timestamp) : M response :=
  try_catch
    (withdrawal <- query (withdrawal_by_id id) ;;
     match withdrawal with
     | None => ret (Json 404 (Error "Withdrawal not found"))
     | Some withdrawal =>
         if negb (String.eqb (w_status withdrawal) "pending")
         then ret (Json 400 (Error "Withdrawal already processed"))
         else
           exec (with_withdrawals
                   (Sql.update (fun w => (w_id w =? id)%Z)
                               (set_w_completed (or_null tx_hash) now))) ;;
           user <- query (user_by_id (w_user_id withdrawal)) ;;
           match user with
           | None => throw
           | Some user =>
               (if String.eqb (w_type withdrawal) "cashback" then
                  let newCashback :=
                    Num.max 0 (u_cashback user - w_amount withdrawal) in
                  update_user (u_id user) (set_u_cashback newCashback) ;;
                  insert_cashback_history (u_id user) (- w_amount withdrawal)
                    ("Выплата #" ++ Text.of_Z id) now
                else if String.eqb (w_type withdrawal) "referral" then
                  let newEarnings :=
                    Num.max 0 (u_referral_earnings user - w_amount withdrawal) in
                  update_user (u_id user) (set_u_referral_earnings newEarnings)
                else ret tt) ;;
               insert_notification (u_id user) "✅ Выплата выполнена"
                 [Text.Txt "Выплата $"; Text.Num (w_amount withdrawal);
                  Text.Txt " успешно отправлена на ваш кошелек"] ;;
               ret (Json 200 Success)
           end
     end)
    (ret (Json 500 (Error "Failed to process withdrawal"))).

(** ** On-chain verification: [POST /api/verify-tronscan] *)

Module Tronscan.

(** A JS number that may be [NaN] ([parseInt] of a non-numeric string). *)
Inductive jsnum :=
| NaN
| Fin (q : Qc).

(** [x / 1000000] *)
Definition per_million (x : jsnum) : jsnum :=
  match x with
  | NaN => NaN
  | Fin q => Fin (q * Num.frac 1 1000000)
  end.

(** [x > 0]; false on [NaN]. *)
Definition positive (x : jsnum) : bool :=
  match x with
  | NaN => false
  | Fin q => Num.ltb 0 q
  end.

(** The indexer's JSON payload, restricted to the fields the handler
    reads. *)
Record contract_data := mkContractData {
  amount : option Qc;
  to_address : option string
}.

Record parameter := mkParameter {
  _value : option string;
  _to : option string
}.

Record trigger := mkTrigger {
  parameter_of : option parameter
}.

Record tx_data := mkTxData {
  code : option string;
  confirmed : bool;
  contractData : option contract_data;
  toAddress : option string;
  trigger_info : option trigger;
  timestamp_of : option N
}.

(** What [fetch] and [response.json()] produce: a rejected promise, a
    non-2xx answer, or the parsed body ([None] is JSON [null]). *)
Inductive fetched :=
| NetworkFailure
| HttpError (status : N)
| HttpOk (txData : option tx_data).

Record request := mkRequest {
  txHash : option string;
  expectedAmount : option Qc;
  recipientAddress : option string
}.

Inductive reason :=
| NotOnTronscan
| NotFound
| NotConfirmed
| AmountMismatch (expected found : Qc)
| RecipientUnknown
| RecipientMismatch (expected got : string)
| Exception.


Inductive verdict :=
| BadRequest (error : string)                 (* 400 { error } *)
| Rejected (status : N) (why : reason)        (* { verified: false, error } *)
| Verified (amount : jsnum) (recipient : string) (confirmed : bool)
           (timestamp : option N).            (* { verified: true, ... } *)


Section Verify.

(** The builtin [parseInt]; [None] is [NaN]. *)
Variable parseInt : string -> option Z.

Definition parsed (s : string) : jsnum :=
  match parseInt s with
  | Some z => Fin (Num.ofZ z)
  | None => NaN
  end.

(** [txData.contractData && txData.contractData.amount] *)
Definition contract_with_amount (txData : tx_data) : option contract_data :=
  match contractData txData with
  | Some cd => if Num.truthy (amount cd) then Some cd else None
  | None => None
  end.

(** [txData.trigger_info && txData.trigger_info.parameter] *)
Definition trigger_parameter (txData : tx_data) : option parameter :=
  match trigger_info txData with
  | Some ti => parameter_of ti
  | None => None
  end.

(** The block that starts from [transferAmount = 0], [transferTo = '']
    and reads amount and recipient off the payload. *)
Definition extract (txData : tx_data) : jsnum * option string :=
  match contract_with_amount txData with
  | Some cd =>
      (per_million (Fin (Num.coerce (amount cd))),
       Text.or (to_address cd) (toAddress txData))
  | None =>
      match trigger_parameter txData with
      | Some param =>
          (match _value param with
           | Some (String c r) => per_million (parsed (String c r))
           | _ => Fin 0
           end,
           if Text.truthy (_to param) then _to param else Some "")
      | None => (Fin 0, Some "")
      end
  end.

(** The block guarded by [expectedAmount && transferAmount > 0]: the
    pair (expected, found) when the tolerance test rejects the amount. *)
Definition amount_rejected (expectedAmount : option Qc)
  (transferAmount : jsnum) : option (Qc * Qc) :=
  if Num.truthy expectedAmount && positive transferAmount then
    match expectedAmount, transferAmount with
    | Some expected, Fin found =>
        let tolerance := expected * Num.frac 1 100 in
        if Num.ltb tolerance (Num.abs (found - expected))
        then Some (expected, found)
        else None
    | _, _ => None
    end
  else None.

Definition verify (req : request) (answer : fetched) : verdict :=
  if negb (Text.truthy (txHash req))
  then BadRequest "Transaction hash required"
  else
    match recipientAddress req with
    | Some (String c r) =>
        let recipient := String c r in
        match answer with
        | NetworkFailure => Rejected 500 Exception
        | HttpError _ => Rejected 400 NotOnTronscan
        | HttpOk None => Rejected 200 NotFound
        | HttpOk (Some txData) =>
            if match code txData with
               | Some c => String.eqb c "NOT_FOUND"
               | None => false
               end
            then Rejected 200 NotFound
            else if negb (confirmed txData)
            then Rejected 200 NotConfirmed
            else
              let (transferAmount, transferTo) := extract txData in
              match amount_rejected (expectedAmount req) transferAmount with
              | Some (expected, found) =>
                  Rejected 200 (AmountMismatch expected found)
              | None =>
                  match transferTo with
                  | Some (String c' r') =>
                      let to := String c' r' in
                      if negb (String.eqb (Text.toLowerCase to)
                                          (Text.toLowerCase recipient))
                      then Rejected 200 (RecipientMismatch recipient to)
                      else Verified transferAmount to (confirmed txData)
                                    (timestamp_of txData)
                  | _ => Rejected 200 RecipientUnknown
                  end
              end
        end
    | _ => BadRequest "Recipient address required"
    end.

End Verify.

End Tronscan.

(** ** Derived notions used to state the facts *)

(** The level a user row carries once [updateUserLevel] has looked at it. *)
Definition level_after (u : user) : level :=
  let newLevel := level_of_spent (u_total_spent u) in
  if negb (level_eqb newLevel (u_level u)) && negb (level_eqb newLevel none)
  then newLevel else u_level u.

(** The commission [processReferralPayment] computes from a first order. *)
Definition referralAmount (firstOrder : order) : Qc :=
  Num.coerce (baseAmount firstOrder) * Num.frac 25 100.

(** What the confirmation handler adds to the paying user's row. *)
Definition credit (invoice : invoice) (u : user) : user :=
  set_u_total_spent (u_total_spent u + i_amount invoice)
    (set_u_cashback (u_cashback u + i_amount invoice * Num.frac 5 100) u).

(** The store after the confirmation handler's own writes, before the level
    check and the referral evaluation. *)
Definition credited (id : string) (now : timestamp) (invoice : invoice)
  (s : store) : store :=
  with_cashback_history
    (Sql.insert (mkEntry (i_user_id invoice) (i_amount invoice * Num.frac 5 100)
                   ("Кешбэк за заказ #" ++ i_order_id invoice) now))
    (with_users
       (Sql.update (fun u => (u_id u =? i_user_id invoice)%Z) (credit invoice))
       (with_orders
          (Sql.update (fun o => String.eqb (o_id o) (i_order_id invoice))
             (set_o_status_tx "working" (i_tx_hash invoice)))
          (with_invoices
             (Sql.update (fun i => String.eqb (i_id i) id) (set_i_paid "paid" now))
             s))).

Definition confirmed_notice (id : string) (invoice : invoice) : notification :=
  mkNotification (i_user_id invoice) "✅ Оплата подтверждена"
    [Text.Txt ("Счет #" ++ id ++ " оплачен. Заказ принят в работу!")].

(** Balances of a user as plain fractions: cashback, total spent, referral
    earnings. *)
Definition balances (id : Z) (s : store) : option (Q * Q * Q) :=
  option_map (fun u => (this (u_cashback u), this (u_total_spent u),
                        this (u_referral_earnings u)))
             (user_by_id id s).

(** The running total of a user's cashback-history rows. *)
Definition history_total (id : Z) (s : store) : Qc :=
  fold_right Qcplus 0
    (map ch_amount
       (filter (fun e => (ch_user_id e =? id)%Z) (cashback_history s))).

(** ** An earlier revision of the commission

    [src/unnamed/part_001] is an older copy of the server.  Its
    [processReferralPayment] differs from the current one in a single line:
    the commission is [firstOrder.total * 0.25]. *)

Module Legacy.

Definition referralAmount (firstOrder : order) : Qc :=
  Num.coerce (o_total firstOrder) * Num.frac 25 100.

End Legacy.

(** ** Concrete stores and requests *)

Module Scenario.

Definition alice : user :=
  mkUser 1 "1001" "Alice" "alice" none 0 0 "ALICQ7ZK" None 0 None.

(** Bob was referred by Alice and holds 20 of cashback. *)
Definition bob : user :=
  mkUser 2 "1002" "Bob" "bob" none 0 (Num.ofZ 20) "BOBXM4TD" (Some 1%Z) 0
         (Some "TBobWalletAddress").

Definition plain_order (id : string) (uid : Z) (subtotal discount total : Z)
  (created : timestamp) : order :=
  mkOrder id uid (Some (Num.ofZ subtotal)) (Some 0) (Some 0)
          (Some (Num.ofZ total)) (Some 0) "awaiting_payment" None None false
          created None (Some (Num.ofZ discount)) (Some (Num.ofZ subtotal)).

Definition open_invoice (id order_id : string) (uid : Z)
  (amount discount : Z) : invoice :=
  mkInvoice id order_id uid (Num.ofZ amount) None (Num.ofZ discount)
            (Num.ofZ (amount - discount)) "TAXtuQh2zJHks5yZQ2zzVdEFExs7ktoYuV"
            (Some "txhash") "awaiting_payment" None.

(** Alice, nothing spent so far, owes 150 on her order. *)
Definition alice_owes_150 : store :=
  mkStore [alice] [plain_order "ORD150" 1 150 0 150 10%N] [] [] [] [] []
          [open_invoice "INV150" "ORD150" 1 150 0] [].

(** Bob's first order: subtotal 200, promo discount 30, total 170. *)
Definition bob_first_order : store :=
  mkStore [alice; bob] [plain_order "ORD200" 2 200 30 170 10%N] []
          [mkReferral 1 2 0] [] [] []
          [open_invoice "INV200" "ORD200" 2 200 30] [].

(** Bob's first order is paid; he has placed a second one of 80. *)
Definition bob_second_order : store :=
  let paid := run (confirm_invoice "INV200" 20%N) bob_first_order in
  with_invoices (Sql.insert (open_invoice "INV080" "ORD080" 2 80 0))
    (with_orders (Sql.insert (plain_order "ORD080" 2 80 0 80 30%N)) paid).

(** An order request that redeems [used] of cashback. *)
Definition redeeming (id : string) (price used : Z) : order_request :=
  mkOrderRequest (Some id) (Some (Num.ofZ price)) (Some 0)
                 (Some (Num.ofZ used)) (Some (Num.ofZ (price - used)))
                 (Some 0) None None None None None.

(** The promo code [SAVE10], limited to a single use and not yet used. *)
Definition save10 : store :=
  mkStore [alice; bob] [] [] [] []
          [mkPromo 1 "SAVE10" 10 (Some 1%Z) 0 None true] [] [] [].

(** [parseInt] on plain digit strings, enough to feed the verifier with
    concrete payloads. *)
Fixpoint digits (s : string) (acc : Z) : option Z :=
  match s with
  | EmptyString => Some acc
  | String c r =>
      let n := nat_of_ascii c in
      if andb (Nat.leb 48 n) (Nat.leb n 57)
      then digits r (10 * acc + Z.of_nat (n - 48))%Z
      else Some acc
  end.

Definition parseInt (s : string) : option Z :=
  match s with
  | EmptyString => None
  | String c _ =>
      let n := nat_of_ascii c in
      if andb (Nat.leb 48 n) (Nat.leb n 57) then digits s 0 else None
  end.

Definition wallet : string := "TAXtuQh2zJHks5yZQ2zzVdEFExs7ktoYuV".

Definition ask (expected : Z) : Tronscan.request :=
  Tronscan.mkRequest (Some "9f2c41d0") (Some (Num.ofZ expected)) (Some wallet).


(** A confirmed transaction whose payload names the recipient in
    [trigger_info.parameter._to] and carries no amount at all. *)
Definition amountless (to : string) : Tronscan.tx_data :=
  Tronscan.mkTxData None true None None
    (Some (Tronscan.mkTrigger (Some (Tronscan.mkParameter None (Some to)))))
    (Some 1700000000000%N).

End Scenario.

(** * Further handlers

    Referral linking, withdrawal cancellation, invoice issuing and hash
    submission, the order status endpoint, cart orders, promo
    administration, and the first contact of a user (the bot's [/start]
    and the opening of [GET /api/user]).

    The [FOREIGN KEY] clauses of the schema are not part of the model: an
    insert succeeds whether or not the row it points to exists.  The facts
    about these handlers assume the referenced user and order rows where
    an insert names them. *)

(** ** Referral linking: [POST /api/referral/apply] *)

Definition set_u_referred_by (r : option Z) (u : user) : user :=
  mkUser (u_id u) (u_telegram_id u) (u_name u) (u_username u) (u_level u)
         (u_total_spent u) (u_cashback u) (u_referral_code u)
         r (u_referral_earnings u) (u_trc20_wallet u).

Definition user_by_referral_code (code : string) (s : store) : option user :=
  find (fun u => String.eqb (u_referral_code u) code) (users s).

(** [INSERT INTO referrals (referrer_id, referred_id)]; [earnings] takes its
    default 0. *)
Definition insert_referral (referrer_id referred_id : Z) : M unit :=
  exec (with_referrals (Sql.insert (mkReferral referrer_id referred_id 0))).

Definition apply_referral (telegram_id code : string) : M response :=
  try_catch
    (referrer <- query (user_by_referral_code code) ;;
     match referrer with
     | None => ret (Json 400 (Error "Invalid code"))
     | Some referrer =>
         user <- query (user_by_telegram_id telegram_id) ;;
         match user with
         | None => ret (Json 404 (Error "User not found"))
         | Some user =>
             match u_referred_by user with
             | Some _ => ret (Json 400 (Error "Already referred"))
             | None =>
                 if String.eqb (u_telegram_id referrer) (u_telegram_id user)
                 then ret (Json 400 (Error "Cannot refer yourself"))
                 else
                   update_user (u_id user)
                     (set_u_referred_by (Some (u_id referrer))) ;;
                   insert_referral (u_id referrer) (u_id user) ;;
                   ret (Json 200 (SuccessDiscount 15))
             end
         end
     end)
    (ret (Json 500 (Error "Server error"))).

(** ** Withdrawal cancellation: [POST /api/admin/withdrawals/:id/cancel] *)

Definition set_w_cancelled (t : timestamp) (w : withdrawal) : withdrawal :=
  mkWithdrawal (w_id w) (w_user_id w) (w_amount w) (w_wallet_address w)
               (w_type w) "cancelled" (w_tx_hash w) (Some t).

(** As in the completion handler, a withdrawal whose user row is gone makes
    [user.id] throw after the status was already written. *)
Definition cancel_withdrawal (id : Z) (reason : option string)
  (now : timestamp) : M response :=
  try_catch
    (withdrawal <- query (withdrawal_by_id id) ;;
     match withdrawal with
     | None => ret (Json 404 (Error "Withdrawal not found"))
     | Some withdrawal =>
         if negb (String.eqb (w_status withdrawal) "pending")
         then ret (Json 400 (Error "Withdrawal already processed"))
         else
           exec (with_withdrawals
                   (Sql.update (fun w => (w_id w =? id)%Z)
                               (set_w_cancelled now))) ;;
           user <- query (user_by_id (w_user_id withdrawal)) ;;
           match user with
           | None => throw
           | Some user =>
               insert_notification (u_id user) "❌ Выплата отменена"
                 [Text.Txt "Выплата $"; Text.Num (w_amount withdrawal);
                  Text.Txt (" отменена. "
                            ++ match reason with
                               | Some (String c r) => String c r
                               | _ => "Обратитесь к менеджеру"
                               end)] ;;
               ret (Json 200 Success)
           end
     end)
    (ret (Json 500 (Error "Failed to cancel withdrawal"))).

(** ** Invoices *)

Record invoice_request := mkInvoiceRequest {
  ireq_order_id : string;
  ireq_user_id : Z;
  ireq_amount : option Qc;
  ireq_promo_code : option string;
  ireq_discount_amount : option Qc
}.

Inductive invoice_reply :=
| InvoiceRow (row : option invoice)            (* the row, as JSON *)
| InvoiceSubmitted (row : invoice)             (* { success: true, invoice } *)
| InvoiceError (status : N) (error : string).  (* { error } *)

(** ['INV' + Date.now()] *)
Definition invoiceId_of (now : timestamp) : string := "INV" ++ Text.of_N now.

(** [process.env.PAYMENT_ADDRESS || 'TAXtuQh2zJHks5yZQ2zzVdEFExs7ktoYuV'] *)
Definition paymentAddress_of (env_PAYMENT_ADDRESS : option string) : string :=
  match env_PAYMENT_ADDRESS with
  | Some (String c r) => String c r
  | _ => "TAXtuQh2zJHks5yZQ2zzVdEFExs7ktoYuV"
  end.

(** [INSERT INTO invoices]: [id] is the primary key and [order_id] is
    declared [UNIQUE]. *)
Definition insert_invoice (i : invoice) : M unit :=
  fun s =>
    if existsb (fun i' => String.eqb (i_id i') (i_id i)
                          || String.eqb (i_order_id i') (i_order_id i))
               (invoices s)
    then (Thrown, s)
    else (Done tt, with_invoices (Sql.insert i) s).

Definition set_o_status (st : string) (o : order) : order :=
  set_o_status_tx st (o_tx_hash o) o.

(** [POST /api/admin/invoices].  [amount] is [NOT NULL]: a request without
    it fails on the insert.  The chat message is assembled only for a user
    with a [telegram_id], and [discount_amount.toFixed(2)] in it throws when
    a promo code comes without a discount amount; by then the rows are
    written. *)
Definition create_invoice (req : invoice_request)
  (env_PAYMENT_ADDRESS : option string) (now : timestamp) : M invoice_reply :=
  try_catch
    (let invoiceId := invoiceId_of now in
     let finalAmount :=
       Num.coerce (ireq_amount req)
       - Num.coerce (Num.or (ireq_discount_amount req) (Some 0)) in
     let paymentAddress := paymentAddress_of env_PAYMENT_ADDRESS in
     match ireq_amount req with
     | None => throw
     | Some amount =>
         insert_invoice
           (mkInvoice invoiceId (ireq_order_id req) (ireq_user_id req) amount
              (or_null (ireq_promo_code req))
              (Num.coerce (Num.or (ireq_discount_amount req) (Some 0)))
              finalAmount paymentAddress None "awaiting_payment" None) ;;
         exec (with_orders
                 (Sql.update (fun o => String.eqb (o_id o) (ireq_order_id req))
                             (set_o_status "awaiting_payment"))) ;;
         user <- query (user_by_id (ireq_user_id req)) ;;
         match user with
         | None => ret (InvoiceError 404 "User not found")
         | Some user =>
             insert_notification (ireq_user_id req) "💳 Счет выставлен"
               [Text.Txt ("Счет #" ++ invoiceId ++ " на сумму $");
                Text.Fixed2 finalAmount;
                Text.Txt ". Перейдите в приложение для оплаты."] ;;
             (if Text.truthy (Some (u_telegram_id user))
                 && Text.truthy (ireq_promo_code req)
              then match ireq_discount_amount req with
                   | None => throw
                   | Some _ => ret tt
                   end
              else ret tt) ;;
             invoice <- query (invoice_by_id invoiceId) ;;
             ret (InvoiceRow invoice)
         end
     end)
    (ret (InvoiceError 500 "Failed to create invoice")).

Definition set_i_tx_hash (tx : option string) (i : invoice) : invoice :=
  mkInvoice (i_id i) (i_order_id i) (i_user_id i) (i_amount i) (i_promo_code i)
            (i_discount_amount i) (i_final_amount i) (i_payment_address i)
            tx (i_status i) (i_paid_at i).

(** [POST /api/invoices/:id/verify]: records the transaction hash the
    client submits. *)
Definition submit_tx_hash (id : string) (tx_hash : option string)
  : M invoice_reply :=
  try_catch
    (invoice <- query (invoice_by_id id) ;;
     match invoice with
     | None => ret (InvoiceError 404 "Invoice not found")
     | Some invoice =>
         exec (with_invoices
                 (Sql.update (fun i => String.eqb (i_id i) id)
                             (set_i_tx_hash tx_hash))) ;;
         ret (InvoiceSubmitted (set_i_tx_hash tx_hash invoice))
     end)
    (ret (InvoiceError 500 "Failed to verify invoice")).

(** ** Order status: [notifyOrderStatus] and the admin status endpoint *)

(** Names every JS object inherits from [Object.prototype]; [statuses[k]]
    is truthy for them although [statuses] has no such entry. *)
Definition object_prototype_keys : list string :=
  ["constructor"; "__defineGetter__"; "__defineSetter__"; "hasOwnProperty";
   "__lookupGetter__"; "__lookupSetter__"; "isPrototypeOf";
   "propertyIsEnumerable"; "toString"; "valueOf"; "__proto__";
   "toLocaleString"].

(** [`${statusInfo.emoji} ${statusInfo.text}`] with
    [statusInfo = statuses[status] || { emoji: '📦', text: ... }]. *)
Definition status_title (status : string) : string :=
  if String.eqb status "pending" then "⏳ Заказ ожидает обработки"
  else if String.eqb status "working" then "🎨 Ваш заказ в работе!"
  else if String.eqb status "completed" then "✅ Ваш заказ готов!"
  else if String.eqb status "cancelled" then "❌ Заказ отменён"
  else if existsb (String.eqb status) object_prototype_keys
  then "undefined undefined"
  else "📦 Статус заказа обновлён".

(** The part of [notifyOrderStatus] that runs before its first [await]:
    the row in [notifications]. *)
Definition notifyOrderStatus (userId : Z) (orderId status : string) : M unit :=
  try_catch
    (user <- query (user_by_id userId) ;;
     match user with
     | None => ret tt
     | Some user =>
         insert_notification userId (status_title status)
           [Text.Txt ("Заказ #" ++ orderId)]
     end)
    (ret tt).

(** [POST /api/admin/orders/:orderId/status] *)
Definition update_order_status (orderId status : string) : M response :=
  try_catch
    (order <- query (order_by_id orderId) ;;
     match order with
     | None => ret (Json 404 (Error "Order not found"))
     | Some order =>
         exec (with_orders
                 (Sql.update (fun o => String.eqb (o_id o) orderId)
                             (set_o_status status))) ;;
         notifyOrderStatus (o_user_id order) orderId status ;;
         ret (Json 200 Success)
     end)
    (ret (Json 500 (Error "Server error"))).

(** ** Cart orders: [POST /api/cart-orders] *)

Record cart_item := mkCartItem {
  item_name : string;
  item_quantity : Z;
  item_total : Qc
}.

Record cart_request := mkCartRequest {
  cart_id : option string;
  cart_items : option (list cart_item);
  cart_comment : option string;
  cart_promo_code : option string;
  cart_discount_amount : option Qc;
  cart_subtotal : option Qc;
  cart_total : option Qc
}.

Definition cart_orderId_of (orderData : cart_request) (now : timestamp)
  : string :=
  match cart_id orderData with
  | Some (String c r) => String c r
  | _ => "ORD" ++ Text.of_N now
  end.

(** The row is written with [subtotal || total] as subtotal and with the
    columns the statement does not name left [NULL].  The admin message is
    built from [orderData.items.map(...)], which throws when the request has
    no item list; order row and notification are written by then. *)
Definition create_cart_order (telegram_id : string) (orderData : cart_request)
  (now : timestamp) : M response :=
  try_catch
    (user <- query (user_by_telegram_id telegram_id) ;;
     match user with
     | None => ret (Json 404 (Error "User not found"))
     | Some user =>
         let orderId := cart_orderId_of orderData now in
         insert_order
           (mkOrder orderId (u_id user) None None None (cart_total orderData)
              None "awaiting_manager" None None false now
              (or_null (cart_promo_code orderData))
              (Num.or (cart_discount_amount orderData) (Some 0))
              (Num.or (cart_subtotal orderData) (cart_total orderData))) ;;
         insert_notification (u_id user) "📤 Заказ отправлен"
           [Text.Txt ("Заказ #" ++ orderId
                      ++ " отправлен менеджеру. Ожидайте ответа.")] ;;
         match cart_items orderData with
         | None => throw
         | Some _ => ret (Json 200 (SuccessOrder orderId))
         end
     end)
    (ret (Json 500 (Error "Server error"))).

(** ** Promo administration *)

Record promo_request := mkPromoRequest {
  preq_code : option string;
  preq_discount_percent : option Z;
  preq_max_uses : option Z;
  preq_expires_at : option timestamp
}.

Inductive promo_reply :=
| PromoCreated (id : Z) (code : string)       (* { success: true, id, code } *)
| PromoError (status : N) (error : string).   (* { error } *)

(** [x || null] on a nullable integer. *)
Definition or_nullZ (x : option Z) : option Z :=
  match x with
  | Some 0%Z => None
  | _ => x
  end.

(** [POST /api/admin/promos].  [rowid] is the id the [AUTOINCREMENT] table
    hands out for the new row.  [code] is declared [UNIQUE]; the handler
    turns that constraint failure into a 400. *)
Definition create_promo (req : promo_request) (rowid : Z) : M promo_reply :=
  match preq_code req, preq_discount_percent req with
  | Some (String c r), Some discount_percent =>
      if (discount_percent =? 0)%Z
      then ret (PromoError 400 "Code and discount are required")
      else if (discount_percent <? 1)%Z || (100 <? discount_percent)%Z
      then ret (PromoError 400 "Discount must be between 1-100%")
      else
        let code := Text.toUpperCase (String c r) in
        fun s =>
          if existsb (fun p => String.eqb (p_code p) code) (promo_codes s)
          then (Done (PromoError 400 "Promo code already exists"), s)
          else (Done (PromoCreated rowid code),
                with_promo_codes
                  (Sql.insert (mkPromo rowid code discount_percent
                                 (or_nullZ (preq_max_uses req)) 0
                                 (preq_expires_at req) true))
                  s)
  | _, _ => ret (PromoError 400 "Code and discount are required")
  end.

(** [DELETE /api/admin/promos/:id] *)
Definition delete_promo (id : Z) : M response :=
  try_catch
    (exec (with_promo_codes (filter (fun p => negb (p_id p =? id)%Z))) ;;
     ret (Json 200 Success))
    (ret (Json 500 (Error "Failed to delete promo code"))).

(** ** Levels as an order *)

Definition level_rank (l : level) : nat :=
  match l with
  | none => 0
  | bronze => 1
  | silver => 2
  | gold => 3
  | platinum => 4
  end.

(** ** First login and pending referrals

    The table [pending_referrals] sits beside the store: only the bot's
    [/start] command and the first [GET /api/user] of a user touch it. *)








(** ** Requests against the store *)

Inductive request :=
| CreateOrder (telegram_id : string) (order : order_request) (now : timestamp)
| CreateCartOrder (telegram_id : string) (orderData : cart_request)
                  (now : timestamp)
| UpdateOrderStatus (orderId status : string)
| SubmitReview (telegram_id orderId : string) (now : timestamp)
| ApplyReferral (telegram_id code : string)
| CreateInvoice (req : invoice_request) (env_PAYMENT_ADDRESS : option string)
                (now : timestamp)
| SubmitTxHash (id : string) (tx_hash : option string)
| ConfirmInvoice (id : string) (now : timestamp)
| CheckPromo (code : string) (now : timestamp)
| ApplyPromo (code : string) (user_id : Z) (order_id : string)
| CreatePromo (req : promo_request) (rowid : Z)
| DeletePromo (id : Z)
| AdminCashback (userId : Z) (amount : option Qc)
| RequestWithdrawal (telegram_id type : string) (amount : option Qc)
| ProcessWithdrawal (id : Z) (tx_hash : option string) (now : timestamp)
| CancelWithdrawal (id : Z) (reason : option string) (now : timestamp).

(** The store a request leaves behind. *)
Definition handle (r : request) (s : store) : store :=
  match r with
  | CreateOrder tg order now => run (create_order tg order now) s
  | CreateCartOrder tg orderData now => run (create_cart_order tg orderData now) s
  | UpdateOrderStatus orderId status => run (update_order_status orderId status) s
  | SubmitReview tg orderId now => run (submit_review tg orderId now) s
  | ApplyReferral tg code => run (apply_referral tg code) s
  | CreateInvoice req env now => run (create_invoice req env now) s
  | SubmitTxHash id tx => run (submit_tx_hash id tx) s
  | ConfirmInvoice id now => run (confirm_invoice id now) s
  | CheckPromo code now => run (check_promo code now) s
  | ApplyPromo code uid oid => run (apply_promo code uid oid) s
  | CreatePromo req rowid => run (create_promo req rowid) s
  | DeletePromo id => run (delete_promo id) s
  | AdminCashback uid amount => run (admin_cashback uid amount) s
  | RequestWithdrawal tg type amount => run (request_withdrawal tg type amount) s
  | ProcessWithdrawal id tx now => run (process_withdrawal id tx now) s
  | CancelWithdrawal id reason now => run (cancel_withdrawal id reason now) s
  end.

Definition handle_all (rs : list request) (s : store) : store :=
  fold_left (fun s r => handle r s) rs s.

(** Requests that write the cashback balance together with its history:
    all but the manual adjustment and the clamped withdrawal debit. *)
Definition books_cashback (r : request) : bool :=
  match r with
  | AdminCashback _ _ | ProcessWithdrawal _ _ _ => false
  | _ => true
  end.

Definition is_confirmation (r : request) : bool :=
  match r with
  | ConfirmInvoice _ _ => true
  | _ => false
  end.

(** The invoice issued for an order, if any. *)
Definition invoice_of_order (order_id : string) (s : store) : option invoice :=
  find (fun i => String.eqb (i_order_id i) order_id) (invoices s).

(** The invoice row a request yields. *)
Definition issued (req : invoice_request) (amount : Qc)
  (env_PAYMENT_ADDRESS : option string) (now : timestamp) : invoice :=
  mkInvoice (invoiceId_of now) (ireq_order_id req) (ireq_user_id req) amount
    (or_null (ireq_promo_code req))
    (Num.coerce (Num.or (ireq_discount_amount req) (Some 0)))
    (amount - Num.coerce (Num.or (ireq_discount_amount req) (Some 0)))
    (paymentAddress_of env_PAYMENT_ADDRESS) None "awaiting_payment" None.

(** ** Proof automation for handlers *)

(** Unfolds a handler down to the store it returns, splitting on every
    test the handler makes. *)
Ltac unfold_handlers :=
  unfold handle, run, result,
    create_order, create_cart_order, update_order_status, notifyOrderStatus,
    submit_review, apply_referral, create_invoice, submit_tx_hash,
    check_promo, apply_promo, create_promo, delete_promo, admin_cashback,
    request_withdrawal, process_withdrawal, cancel_withdrawal,
    insert_order, insert_invoice, insert_referral, update_user,
    insert_cashback_history, insert_notification,
    throw, try_catch, bind, exec, query, ret.

Ltac split_tests :=
  repeat (cbv beta iota zeta; cbn [fst snd];
          match goal with
          | |- context [match ?x with _ => _ end] =>
              lazymatch x with
              | context [match _ with _ => _ end] => fail
              | _ => destruct x eqn:?
              end
          end);
  cbv beta iota zeta; cbn [fst snd].

Ltac store_fields :=
  cbn [users orders cashback_history referrals notifications promo_codes
       promo_uses invoices withdrawals
       with_users with_orders with_cashback_history with_referrals
       with_notifications with_promo_codes with_promo_uses with_invoices
       with_withdrawals].

(** ** More concrete stores *)

Module Sample.

(** Bob has asked for 15 of his 20 cashback. *)
Definition bob_awaits_15 : store :=
  run (request_withdrawal "1002" "cashback" (Some (Num.ofZ 15)))
      Scenario.bob_first_order.

(** Alice has placed an order of 150 that has no invoice yet. *)
Definition alice_ordered_150 : store :=
  mkStore [Scenario.alice]
          [mkOrder "ORD150" 1 None None None (Some (Num.ofZ 150)) None
                   "awaiting_manager" None None false 10%N None (Some 0)
                   (Some (Num.ofZ 150))]
          [] [] [] [] [] [] [].

Definition invoice_for_150 : invoice_request :=
  mkInvoiceRequest "ORD150" 1 (Some (Num.ofZ 150)) None None.

(** Dana was referred by Alice. *)
Definition dana : user :=
  mkUser 3 "1003" "Dana" "dana" none 0 0 "DANAK2PW" (Some 1%Z) 0 None.

(** Dana's only order, of 300 without discount, and its open invoice. *)
Definition dana_first_order : store :=
  mkStore [Scenario.alice; dana]
          [Scenario.plain_order "ORD300" 3 300 0 300 10%N] []
          [mkReferral 1 3 0] [] [] []
          [Scenario.open_invoice "INV300" "ORD300" 3 300 0] [].

(** The referral bonus notices a user has received. *)
Definition bonus_notices (uid : Z) (s : store) : list notification :=
  filter (fun n => (n_user_id n =? uid)%Z
                   && String.eqb (n_title n) "💰 Реферальный бонус!")
         (notifications s).

End Sample.

(** * Facts *)

(** ** Arithmetic of the number model *)

Module NumFacts.

Import Num.

Lemma eqb_eq (x y : Qc) : eqb x y = true <-> x = y.
Proof.
  unfold eqb. rewrite Qeq_bool_iff. split.
  - apply Qc_is_canon.
  - intros ->. reflexivity.
Qed.

Lemma eqb_neq (x y : Qc) : eqb x y = false <-> x <> y.
Proof.
  rewrite <- eqb_eq. destruct (eqb x y); split; congruence.
Qed.

Lemma leb_le (x y : Qc) : leb x y = true <-> x <= y.
Proof. unfold leb, Qcle. apply Qle_bool_iff. Qed.

Lemma ltb_lt (x y : Qc) : ltb x y = true <-> x < y.
Proof.
  unfold ltb, Qclt. rewrite negb_true_iff.
  destruct (Qle_bool y x) eqn:E.
  - apply Qle_bool_iff in E. split; [discriminate | intros H].
    exfalso. apply (Qlt_not_le _ _ H E).
  - split; [intros _ | reflexivity].
    apply Qnot_le_lt. intros H. apply Qle_bool_iff in H. congruence.
Qed.

Lemma ltb_ge (x y : Qc) : ltb x y = false <-> y <= x.
Proof.
  unfold ltb. rewrite negb_false_iff. apply leb_le.
Qed.

Lemma leb_gt (x y : Qc) : leb x y = false <-> y < x.
Proof.
  rewrite <- ltb_lt. unfold ltb, leb.
  destruct (Qle_bool x y); simpl; split; congruence.
Qed.

Lemma max_lower (x y : Qc) : x <= Num.max x y.
Proof.
  unfold Num.max. destruct (Num.leb x y) eqn:E.
  - now apply leb_le.
  - apply Qcle_refl.
Qed.

Lemma truthy_some (q : Qc) : q <> 0 -> truthy (Some q) = true.
Proof.
  intros H. simpl. apply negb_true_iff. now apply eqb_neq.
Qed.

Lemma truthy_zero : truthy (Some 0) = false.
Proof. reflexivity. Qed.

End NumFacts.

Lemma level_eqb_eq (a b : level) : level_eqb a b = true <-> a = b.
Proof. destruct a, b; simpl; split; congruence. Qed.

(** ** Statements on tables *)

Section Tables.

Context {A : Type}.
Variable key : A -> Z.
Variable f : A -> A.
Hypothesis f_key : forall a, key (f a) = key a.

Lemma find_update_same (id : Z) (rows : list A) :
  find (fun a => (key a =? id)%Z) (Sql.update (fun a => (key a =? id)%Z) f rows)
  = option_map f (find (fun a => (key a =? id)%Z) rows).
Proof.
  induction rows as [|a rows IH]; simpl; [reflexivity|].
  destruct (key a =? id)%Z eqn:E; simpl.
  - rewrite f_key, E. reflexivity.
  - rewrite E. exact IH.
Qed.

Lemma find_update_other (id id' : Z) (rows : list A) :
  id <> id' ->
  find (fun a => (key a =? id)%Z) (Sql.update (fun a => (key a =? id')%Z) f rows)
  = find (fun a => (key a =? id)%Z) rows.
Proof.
  intros Hne.
  induction rows as [|a rows IH]; simpl; [reflexivity|].
  destruct (key a =? id')%Z eqn:E'; simpl.
  - rewrite f_key. apply Z.eqb_eq in E'.
    destruct (key a =? id)%Z eqn:E; [|exact IH].
    apply Z.eqb_eq in E. congruence.
  - destruct (key a =? id)%Z; [reflexivity | exact IH].
Qed.

End Tables.

Lemma filter_update {A} (p q : A -> bool) (f : A -> A) (rows : list A) :
  (forall a, p (f a) = p a) ->
  filter p (Sql.update q f rows) = Sql.update q f (filter p rows).
Proof.
  intros Hp. unfold Sql.update.
  induction rows as [|a rows IH]; simpl; [reflexivity|].
  destruct (q a) eqn:Eq.
  - rewrite Hp. destruct (p a); simpl; rewrite ?Eq, IH; reflexivity.
  - destruct (p a); simpl; rewrite ?Eq, IH; reflexivity.
Qed.

Lemma update_length {A} (q : A -> bool) (f : A -> A) (rows : list A) :
  List.length (Sql.update q f rows) = List.length rows.
Proof. apply length_map. Qed.

(** ** Level promotion *)

Lemma set_u_level_key l u : u_id (set_u_level l u) = u_id u.
Proof. reflexivity. Qed.

Lemma set_u_level_same u : set_u_level (u_level u) u = u.
Proof. destruct u; reflexivity. Qed.

Lemma updateUserLevel_done uid s : result (updateUserLevel uid) s = Done tt.
Proof.
  unfold result, updateUserLevel, try_catch, bind, query, ret.
  destruct (user_by_id uid s) as [u|]; [|reflexivity].
  destruct (negb _ && negb _); reflexivity.
Qed.

Lemma updateUserLevel_self uid s u :
  user_by_id uid s = Some u ->
  user_by_id uid (run (updateUserLevel uid) s)
  = Some (set_u_level (level_after u) u).
Proof.
  intros Hu.
  unfold run, updateUserLevel, try_catch, bind, query, ret, level_after.
  rewrite Hu.
  destruct (negb _ && negb _); simpl.
  - unfold user_by_id in *. simpl.
    rewrite (find_update_same u_id _ (set_u_level_key _)), Hu. reflexivity.
  - rewrite set_u_level_same. exact Hu.
Qed.

Lemma updateUserLevel_other uid id s :
  id <> uid ->
  user_by_id id (run (updateUserLevel uid) s) = user_by_id id s.
Proof.
  intros Hne.
  unfold run, updateUserLevel, try_catch, bind, query, ret.
  destruct (user_by_id uid s) as [u|]; [|reflexivity].
  destruct (negb _ && negb _); simpl; [|reflexivity].
  unfold user_by_id. simpl.
  apply (find_update_other u_id _ (set_u_level_key _)). exact Hne.
Qed.

Lemma updateUserLevel_absent uid s :
  user_by_id uid s = None -> run (updateUserLevel uid) s = s.
Proof.
  intros Hu. unfold run, updateUserLevel, try_catch, bind, query, ret.
  rewrite Hu. reflexivity.
Qed.

(** Tables that [updateUserLevel] never writes. *)
Lemma updateUserLevel_frame uid s :
  let s' := run (updateUserLevel uid) s in
  orders s' = orders s /\ cashback_history s' = cashback_history s
  /\ referrals s' = referrals s /\ invoices s' = invoices s.
Proof.
  unfold run, updateUserLevel, try_catch, bind, query, ret.
  destruct (user_by_id uid s) as [u|]; [|simpl; auto].
  destruct (negb _ && negb _); simpl; auto.
Qed.

(** Only the [level] column of a user row can change. *)
Lemma updateUserLevel_money uid id s :
  option_map u_referral_earnings (user_by_id id (run (updateUserLevel uid) s))
  = option_map u_referral_earnings (user_by_id id s)
  /\ option_map u_referred_by (user_by_id id (run (updateUserLevel uid) s))
     = option_map u_referred_by (user_by_id id s).
Proof.
  destruct (Z.eq_dec id uid) as [->|Hne].
  - destruct (user_by_id uid s) as [u|] eqn:Hu.
    + rewrite (updateUserLevel_self _ _ _ Hu). split; reflexivity.
    + rewrite (updateUserLevel_absent _ _ Hu), Hu. split; reflexivity.
  - rewrite (updateUserLevel_other _ _ _ Hne). split; reflexivity.
Qed.


(** ** Referral commission *)

Lemma processReferralPayment_done uid s :
  result (processReferralPayment uid) s = Done tt.
Proof.
  unfold result, processReferralPayment, try_catch, bind, query, ret.
  destruct (user_by_id uid s) as [u|]; [|reflexivity].
  destruct (u_referred_by u) as [rid|]; [|reflexivity].
  destruct (negb _); [reflexivity|].
  destruct (Sql.first_by _ _) as [o|]; [|reflexivity].
  unfold update_user, exec. simpl.
  destruct (user_by_id rid _); reflexivity.
Qed.

Lemma processReferralPayment_skip uid s :
  List.length (orders_of uid s) <> 1%nat
  \/ (forall u, user_by_id uid s = Some u -> u_referred_by u = None) ->
  run (processReferralPayment uid) s = s.
Proof.
  intros H.
  unfold run, processReferralPayment, try_catch, bind, query, ret.
  destruct (user_by_id uid s) as [u|]; [|reflexivity].
  destruct (u_referred_by u) as [rid|] eqn:Hr; [|reflexivity].
  destruct H as [H|H].
  - apply Nat.eqb_neq in H. rewrite H. reflexivity.
  - specialize (H u eq_refl). congruence.
Qed.

Lemma processReferralPayment_pays uid s u rid o :
  user_by_id uid s = Some u ->
  u_referred_by u = Some rid ->
  orders_of uid s = [o] ->
  let s' := run (processReferralPayment uid) s in
  users s' = Sql.update (fun x => (u_id x =? rid)%Z)
               (fun x => set_u_referral_earnings
                           (u_referral_earnings x + referralAmount o) x)
               (users s)
  /\ referrals s' = Sql.update
                      (fun r => (r_referrer_id r =? rid)%Z
                                && (r_referred_id r =? uid)%Z)
                      (set_r_earnings (referralAmount o)) (referrals s)
  /\ orders s' = orders s
  /\ cashback_history s' = cashback_history s
  /\ invoices s' = invoices s.
Proof.
  intros Hu Hr Ho.
  unfold run, processReferralPayment, try_catch, bind, query, ret.
  rewrite Hu, Hr, Ho. simpl.
  unfold update_user, exec, orders_of. simpl.
  unfold orders_of in Ho. rewrite Ho. simpl.
  fold (referralAmount o).
  destruct (user_by_id rid _); simpl; auto.
Qed.


(** ** Payment confirmation, step by step *)

Lemma run_result {A} (m : M A) (s : store) : m s = (result m s, run m s).
Proof. unfold result, run. destruct (m s); reflexivity. Qed.

Lemma find_update_any {A} (key : A -> Z) (p : A -> bool) (f : A -> A)
  (id : Z) (rows : list A) :
  (forall a, key (f a) = key a) ->
  find (fun a => (key a =? id)%Z) (Sql.update p f rows)
  = option_map (fun a => if p a then f a else a)
      (find (fun a => (key a =? id)%Z) rows).
Proof.
  intros Hk. induction rows as [|a rows IH]; simpl; [reflexivity|].
  destruct (p a) eqn:Ep.
  - rewrite Hk. destruct (key a =? id)%Z; simpl; [rewrite Ep; reflexivity | exact IH].
  - destruct (key a =? id)%Z; simpl; [rewrite Ep; reflexivity | exact IH].
Qed.

Lemma confirm_invoice_found id now s inv :
  invoice_by_id id s = Some inv ->
  confirm_invoice id now s
  = (Done (Json 200 Success),
     with_notifications (Sql.insert (confirmed_notice id inv))
       (run (processReferralPayment (i_user_id inv))
          (run (updateUserLevel (i_user_id inv)) (credited id now inv s)))).
Proof.
  intros Hi.
  unfold confirm_invoice, update_user, insert_cashback_history,
    insert_notification, try_catch, bind, exec, query, ret.
  rewrite Hi. cbv beta iota.
  fold (credit inv). fold (credited id now inv s).
  rewrite (run_result (updateUserLevel (i_user_id inv))), updateUserLevel_done.
  rewrite (run_result (processReferralPayment (i_user_id inv))),
    processReferralPayment_done.
  reflexivity.
Qed.

Lemma confirm_invoice_missing id now s :
  invoice_by_id id s = None ->
  confirm_invoice id now s = (Done (Json 404 (Error "Invoice not found")), s).
Proof.
  intros Hi. unfold confirm_invoice, try_catch, bind, query. rewrite Hi.
  reflexivity.
Qed.

Lemma credit_key inv u : u_id (credit inv u) = u_id u.
Proof. reflexivity. Qed.

Lemma credited_user id now inv s uid :
  user_by_id uid (credited id now inv s)
  = option_map (fun u => if (u_id u =? i_user_id inv)%Z then credit inv u else u)
      (user_by_id uid s).
Proof.
  unfold user_by_id, credited. simpl.
  apply (find_update_any u_id). apply credit_key.
Qed.

Lemma credited_orders_of id now inv s uid :
  orders_of uid (credited id now inv s)
  = Sql.update (fun o => String.eqb (o_id o) (i_order_id inv))
      (set_o_status_tx "working" (i_tx_hash inv)) (orders_of uid s).
Proof.
  unfold orders_of, credited. simpl.
  apply filter_update. reflexivity.
Qed.


Lemma user_by_id_key id s u : user_by_id id s = Some u -> u_id u = id.
Proof.
  unfold user_by_id. intros H. apply find_some in H.
  destruct H as [_ H]. now apply Z.eqb_eq in H.
Qed.

(** [processReferralPayment] touches nothing of a user row but
    [referral_earnings]. *)
Lemma processReferralPayment_user uid s :
  exists g : user -> user,
    (forall x, u_id (g x) = u_id x /\ u_level (g x) = u_level x
               /\ u_total_spent (g x) = u_total_spent x
               /\ u_cashback (g x) = u_cashback x)
    /\ (forall id, user_by_id id (run (processReferralPayment uid) s)
                   = option_map g (user_by_id id s))
    /\ cashback_history (run (processReferralPayment uid) s) = cashback_history s.
Proof.
  destruct (user_by_id uid s) as [u|] eqn:Hu.
  2:{ exists (fun x => x). rewrite processReferralPayment_skip.
      - repeat split. intros id. now destruct (user_by_id id s).
      - right. intros u H. congruence. }
  destruct (u_referred_by u) as [rid|] eqn:Hr.
  2:{ exists (fun x => x). rewrite processReferralPayment_skip.
      - repeat split. intros id. now destruct (user_by_id id s).
      - right. intros u' H. congruence. }
  destruct (orders_of uid s) as [|o [|o2 rest]] eqn:Ho.
  1,3: exists (fun x => x); rewrite processReferralPayment_skip;
       [ repeat split; intros id; now destruct (user_by_id id s)
       | left; rewrite Ho; simpl; lia ].
  destruct (processReferralPayment_pays uid s u rid o Hu Hr Ho)
    as (Husers & _ & _ & Hhist & _).
  exists (fun x => if (u_id x =? rid)%Z
                   then set_u_referral_earnings
                          (u_referral_earnings x + referralAmount o) x
                   else x).
  split; [|split].
  - intros x. destruct (u_id x =? rid)%Z; repeat split.
  - intros id. unfold user_by_id at 1. rewrite Husers.
    apply (find_update_any u_id). reflexivity.
  - exact Hhist.
Qed.

(** The threshold ladder, rung by rung. *)
Lemma level_of_spent_thresholds (spent : Qc) :
  (Num.ofZ 10000 <= spent -> level_of_spent spent = platinum)
  /\ (Num.ofZ 1000 <= spent -> spent < Num.ofZ 10000 ->
      level_of_spent spent = gold)
  /\ (Num.ofZ 500 <= spent -> spent < Num.ofZ 1000 ->
      level_of_spent spent = silver)
  /\ (Num.ofZ 100 <= spent -> spent < Num.ofZ 500 ->
      level_of_spent spent = bronze)
  /\ (spent < Num.ofZ 100 -> level_of_spent spent = none).
Proof.
  unfold level_of_spent.
  destruct (Num.leb (Num.ofZ 10000) spent) eqn:E4;
  destruct (Num.leb (Num.ofZ 1000) spent) eqn:E3;
  destruct (Num.leb (Num.ofZ 500) spent) eqn:E2;
  destruct (Num.leb (Num.ofZ 100) spent) eqn:E1;
  repeat match goal with
         | H : Num.leb _ _ = true |- _ => apply NumFacts.leb_le in H
         | H : Num.leb _ _ = false |- _ => apply NumFacts.leb_gt in H
         end;
  repeat split; intros; try reflexivity; exfalso; qc_arith.
Qed.


Lemma level_of_spent_none (spent : Qc) :
  level_of_spent spent = none -> spent < Num.ofZ 100.
Proof.
  unfold level_of_spent.
  destruct (Num.leb (Num.ofZ 10000) spent); [discriminate|].
  destruct (Num.leb (Num.ofZ 1000) spent); [discriminate|].
  destruct (Num.leb (Num.ofZ 500) spent); [discriminate|].
  destruct (Num.leb (Num.ofZ 100) spent) eqn:E; [discriminate|].
  intros _. now apply NumFacts.leb_gt.
Qed.

(** A user whose stored level agrees with the ladder keeps agreeing after
    a positive amount is added to [total_spent]: the "never write 'none'"
    branch cannot hide a demotion. *)
Lemma level_after_credit inv u :
  0 < i_amount inv ->
  u_level u = level_of_spent (u_total_spent u) ->
  level_after (credit inv u) = level_of_spent (u_total_spent u + i_amount inv).
Proof.
  intros Ha Hl. unfold level_after. simpl.
  set (l := level_of_spent (u_total_spent u + i_amount inv)).
  destruct (level_eqb l (u_level u)) eqn:E1; simpl.
  - now apply level_eqb_eq in E1.
  - destruct (level_eqb l none) eqn:E2; simpl; [|reflexivity].
    apply level_eqb_eq in E2. rewrite Hl, E2.
    apply (proj2 (proj2 (proj2 (proj2 (level_of_spent_thresholds _))))).
    subst l. apply level_of_spent_none in E2. qc_arith.
Qed.

Lemma user_by_id_notified id f s :
  user_by_id id (with_notifications f s) = user_by_id id s.
Proof. reflexivity. Qed.

(** C6: confirming an invoice of positive amount [a] for an existing user
    whose level agrees with the ladder answers success, adds [a] to
    [total_spent], adds [0.05 * a] to the cashback balance, sets the level
    to the ladder's value at the new [total_spent], and appends exactly one
    cashback-history row of the (positive) amount [0.05 * a]; the ladder is
    platinum from 10000, gold from 1000, silver from 500, bronze from 100,
    none below. *)
Theorem confirm_credits_spent_cashback_and_level id now s inv u :
  invoice_by_id id s = Some inv ->
  user_by_id (i_user_id inv) s = Some u ->
  0 < i_amount inv ->
  u_level u = level_of_spent (u_total_spent u) ->
  let a := i_amount inv in
  let s' := run (confirm_invoice id now) s in
  result (confirm_invoice id now) s = Done (Json 200 Success)
  /\ (exists u', user_by_id (i_user_id inv) s' = Some u'
        /\ u_total_spent u' = u_total_spent u + a
        /\ u_cashback u' = u_cashback u + a * Num.frac 5 100
        /\ u_level u' = level_of_spent (u_total_spent u + a))
  /\ cashback_history s'
     = (cashback_history s
        ++ [mkEntry (i_user_id inv) (a * Num.frac 5 100)
              ("Кешбэк за заказ #" ++ i_order_id inv) now])%list
  /\ 0 < a * Num.frac 5 100
  /\ (forall spent,
        (Num.ofZ 10000 <= spent -> level_of_spent spent = platinum)
        /\ (Num.ofZ 1000 <= spent -> spent < Num.ofZ 10000 ->
            level_of_spent spent = gold)
        /\ (Num.ofZ 500 <= spent -> spent < Num.ofZ 1000 ->
            level_of_spent spent = silver)
        /\ (Num.ofZ 100 <= spent -> spent < Num.ofZ 500 ->
            level_of_spent spent = bronze)
        /\ (spent < Num.ofZ 100 -> level_of_spent spent = none)).
Proof.
  intros Hi Hu Ha Hl a s'.
  unfold s', run, result. rewrite (confirm_invoice_found _ _ _ _ Hi).
  cbn [fst snd].
  split; [reflexivity|].
  pose (uid := i_user_id inv).
  set (s1 := credited id now inv s).
  set (s2 := run (updateUserLevel uid) s1).
  assert (H1 : user_by_id uid s1 = Some (credit inv u)).
  { unfold s1, uid. rewrite credited_user, Hu. simpl.
    rewrite (user_by_id_key _ _ _ Hu), Z.eqb_refl. reflexivity. }
  assert (H2 : user_by_id uid s2
               = Some (set_u_level (level_after (credit inv u)) (credit inv u))).
  { unfold s2. now apply updateUserLevel_self. }
  destruct (processReferralPayment_user uid s2) as (g & Hg & Hlook & Hhist).
  split; [|split; [|split]].
  - exists (g (set_u_level (level_after (credit inv u)) (credit inv u))).
    split.
    + rewrite user_by_id_notified. fold uid s1 s2.
      rewrite Hlook, H2. reflexivity.
    + destruct (Hg (set_u_level (level_after (credit inv u)) (credit inv u)))
        as (_ & Hlv & Hts & Hcb).
      rewrite Hlv, Hts, Hcb. simpl.
      repeat split. now apply level_after_credit.
  - change (cashback_history (with_notifications ?f ?x))
      with (cashback_history x).
    fold uid s1 s2. rewrite Hhist. unfold s2.
    destruct (updateUserLevel_frame uid s1) as (_ & Hh & _).
    rewrite Hh. reflexivity.
  - subst a. qc_arith.
  - apply level_of_spent_thresholds.
Qed.


(** ** The referral gate *)

Lemma credited_referred_by id now inv s uid :
  option_map u_referred_by (user_by_id uid (credited id now inv s))
  = option_map u_referred_by (user_by_id uid s)
  /\ option_map u_referral_earnings (user_by_id uid (credited id now inv s))
     = option_map u_referral_earnings (user_by_id uid s).
Proof.
  rewrite credited_user.
  destruct (user_by_id uid s) as [u|]; simpl; [|auto].
  destruct (u_id u =? i_user_id inv)%Z; auto.
Qed.

(** The store on which the referral evaluation runs sees the same referrer
    links, referral balances, referral rows and per-user order counts as
    the store the request started from. *)
Lemma before_referral_view id now inv s :
  let s2 := run (updateUserLevel (i_user_id inv)) (credited id now inv s) in
  (forall uid, option_map u_referred_by (user_by_id uid s2)
               = option_map u_referred_by (user_by_id uid s))
  /\ (forall uid, option_map u_referral_earnings (user_by_id uid s2)
                  = option_map u_referral_earnings (user_by_id uid s))
  /\ referrals s2 = referrals s
  /\ (forall uid, orders_of uid s2
                  = Sql.update (fun o => String.eqb (o_id o) (i_order_id inv))
                      (set_o_status_tx "working" (i_tx_hash inv))
                      (orders_of uid s)).
Proof.
  intros s2. unfold s2.
  destruct (updateUserLevel_frame (i_user_id inv) (credited id now inv s))
    as (Ho & _ & Hr & _).
  repeat split.
  - intros uid.
    rewrite (proj2 (updateUserLevel_money _ _ _)).
    apply credited_referred_by.
  - intros uid.
    rewrite (proj1 (updateUserLevel_money _ _ _)).
    apply credited_referred_by.
  - rewrite Hr. reflexivity.
  - intros uid. unfold orders_of at 1. rewrite Ho.
    apply credited_orders_of.
Qed.

(** The commission is gated on "exactly one order on record and a
    referrer".  When the paying user does not have exactly one order (for
    instance a second order exists) or has no referrer, confirming a payment
    leaves every user's referral earnings and every referral row as they
    were. *)
Theorem confirm_pays_no_commission_outside_first_order id now s inv :
  invoice_by_id id s = Some inv ->
  (List.length (orders_of (i_user_id inv) s) <> 1%nat
   \/ (forall u, user_by_id (i_user_id inv) s = Some u ->
                 u_referred_by u = None)) ->
  let s' := run (confirm_invoice id now) s in
  (forall rid, option_map u_referral_earnings (user_by_id rid s')
               = option_map u_referral_earnings (user_by_id rid s))
  /\ referrals s' = referrals s.
Proof.
  intros Hi Hgate s'.
  unfold s', run. rewrite (confirm_invoice_found _ _ _ _ Hi). cbn [snd].
  destruct (before_referral_view id now inv s) as (Hby & Hearn & Href & Hord).
  set (s2 := run (updateUserLevel (i_user_id inv)) (credited id now inv s)) in *.
  assert (Hskip : run (processReferralPayment (i_user_id inv)) s2 = s2).
  { apply processReferralPayment_skip.
    destruct Hgate as [Hn|Hn].
    - left. rewrite Hord, update_length. exact Hn.
    - right. intros u2 Hu2.
      specialize (Hby (i_user_id inv)). rewrite Hu2 in Hby.
      destruct (user_by_id (i_user_id inv) s) as [u|] eqn:Hu; [|discriminate].
      simpl in Hby. rewrite (Hn u eq_refl) in Hby. congruence. }
  rewrite Hskip. split.
  - intros rid. rewrite user_by_id_notified. apply Hearn.
  - exact Href.
Qed.

(** ** The commission of a first order *)

Lemma baseAmount_subtotal o sub :
  o_subtotal o = Some sub -> sub <> 0 -> baseAmount o = Some sub.
Proof.
  intros Hs Hne. unfold baseAmount, Num.or. rewrite Hs.
  rewrite (NumFacts.truthy_some _ Hne). cbv iota.
  rewrite (NumFacts.truthy_some _ Hne). reflexivity.
Qed.

(** A free order (subtotal 0, no other price on the row) earns nothing. *)
Lemma referralAmount_free_order o :
  o_subtotal o = Some 0 ->
  Num.truthy (o_base_price o) = false ->
  Num.truthy (o_total o) = false ->
  referralAmount o = 0.
Proof.
  intros Hs Hb Ht. unfold referralAmount, baseAmount, Num.or.
  rewrite Hs, NumFacts.truthy_zero, Hb.
  destruct (o_total o) as [t|]; [|apply Qcmult_0_l].
  cbn [Num.truthy] in Ht. apply negb_false_iff, NumFacts.eqb_eq in Ht.
  subst t. apply Qcmult_0_l.
Qed.

(** On a priced order row the commission is a quarter of the subtotal. *)
Lemma referralAmount_priced o sub d :
  o_subtotal o = Some sub ->
  o_total o = Some (sub - d) ->
  0 <= d -> d <= sub ->
  o_base_price o = None \/ o_base_price o = Some sub ->
  referralAmount o = sub * Num.frac 25 100.
Proof.
  intros Hsub Htot Hd0 Hds Hbase.
  destruct (Qc_eq_dec sub 0) as [Hz|Hne].
  - subst sub.
    assert (d = 0) by (apply Qcle_antisym; assumption). subst d.
    rewrite (referralAmount_free_order o Hsub).
    + symmetry. apply Qcmult_0_l.
    + destruct Hbase as [-> | ->]; reflexivity.
    + rewrite Htot. reflexivity.
  - unfold referralAmount.
    rewrite (baseAmount_subtotal _ _ Hsub Hne). reflexivity.
Qed.

(** C4: when the paying user has a referrer and exactly one order on
    record, with subtotal [sub], discount [d] (anything from 0 to [sub]) and
    total [sub - d], confirming the payment adds [0.25 * sub] to the
    referrer's referral earnings and overwrites the earnings of the pair's
    referral rows with [0.25 * sub]: the discount does not enter the amount.
    The order row is as the two creation handlers write it: [base_price] is
    either absent or the subtotal itself. *)
Theorem confirm_pays_quarter_of_subtotal id now s inv u rid r o sub d :
  invoice_by_id id s = Some inv ->
  user_by_id (i_user_id inv) s = Some u ->
  u_referred_by u = Some rid ->
  user_by_id rid s = Some r ->
  orders_of (i_user_id inv) s = [o] ->
  o_subtotal o = Some sub ->
  o_discount_amount o = Some d ->
  o_total o = Some (sub - d) ->
  0 <= d -> d <= sub ->
  o_base_price o = None \/ o_base_price o = Some sub ->
  let s' := run (confirm_invoice id now) s in
  option_map u_referral_earnings (user_by_id rid s')
  = Some (u_referral_earnings r + sub * Num.frac 25 100)
  /\ referrals s'
     = Sql.update (fun x => (r_referrer_id x =? rid)%Z
                            && (r_referred_id x =? i_user_id inv)%Z)
         (set_r_earnings (sub * Num.frac 25 100)) (referrals s).
Proof.
  intros Hi Hu Hr Hrid Ho Hsub Hdisc Htot Hd0 Hds Hbase s'.
  assert (Hquarter : referralAmount o = sub * Num.frac 25 100)
    by (eapply referralAmount_priced; eauto).
  unfold s', run. rewrite (confirm_invoice_found _ _ _ _ Hi). cbn [snd].
  destruct (before_referral_view id now inv s) as (Hby & Hearn & Href & Hord).
  set (uid := i_user_id inv) in *.
  set (s2 := run (updateUserLevel uid) (credited id now inv s)) in *.
  destruct (user_by_id uid s2) as [u2|] eqn:Hu2.
  2:{ specialize (Hby uid). rewrite Hu2, Hu in Hby. discriminate. }
  assert (Hr2 : u_referred_by u2 = Some rid).
  { specialize (Hby uid). rewrite Hu2, Hu in Hby. simpl in Hby. congruence. }
  specialize (Hord uid). rewrite Ho in Hord. cbn [Sql.update map] in Hord.
  set (o2 := if String.eqb (o_id o) (i_order_id inv)
             then set_o_status_tx "working" (i_tx_hash inv) o else o) in *.
  assert (Hamt : referralAmount o2 = sub * Num.frac 25 100).
  { rewrite <- Hquarter. unfold o2.
    destruct (String.eqb _ _); reflexivity. }
  destruct (processReferralPayment_pays uid s2 u2 rid o2 Hu2 Hr2 Hord)
    as (Husers & Hrefs & _).
  rewrite Hamt in Husers, Hrefs.
  split.
  - rewrite user_by_id_notified. unfold user_by_id at 1. rewrite Husers.
    rewrite (find_update_any u_id) by reflexivity.
    fold (user_by_id rid s2).
    specialize (Hearn rid). rewrite Hrid in Hearn.
    destruct (user_by_id rid s2) as [r2|] eqn:Hr2'; [|discriminate].
    simpl in Hearn. simpl.
    rewrite (user_by_id_key _ _ _ Hr2'), Z.eqb_refl. simpl. congruence.
  - change (referrals (with_notifications ?f ?x)) with (referrals x).
    rewrite Hrefs, Href. reflexivity.
Qed.

(** On Bob's order the older revision would have paid a quarter of the
    discounted total, 42.5, where the current one pays 50. *)
Lemma legacy_commission_follows_total :
  let o := Scenario.plain_order "ORD200" 2 200 30 170 10%N in
  Legacy.referralAmount o = Num.frac 85 2
  /\ referralAmount o = Num.ofZ 50.
Proof. split; qc_compute. Qed.

(** ** The three confirmation scenarios *)

(** The scenario of the 150 invoice: Alice, who has spent nothing so far,
    ends with 150 spent, level bronze and 7.5 more cashback. *)
Lemma confirm_credits_spent_cashback_and_level_witness :
  let s := Scenario.alice_owes_150 in
  let inv := Scenario.open_invoice "INV150" "ORD150" 1 150 0 in
  let s' := run (confirm_invoice "INV150" 20%N) s in
  invoice_by_id "INV150" s = Some inv
  /\ user_by_id 1 s = Some Scenario.alice
  /\ 0 < i_amount inv
  /\ u_level Scenario.alice = level_of_spent (u_total_spent Scenario.alice)
  /\ exists u', user_by_id 1 s' = Some u'
       /\ u_total_spent u' = Num.ofZ 150
       /\ u_cashback u' = u_cashback Scenario.alice + Num.frac 15 2
       /\ u_level u' = bronze.
Proof.
  intros s inv s'.
  assert (Hi : invoice_by_id "INV150" s = Some inv) by reflexivity.
  assert (Hu : user_by_id (i_user_id inv) s = Some Scenario.alice) by reflexivity.
  assert (Ha : 0 < i_amount inv) by reflexivity.
  assert (Hl : u_level Scenario.alice
               = level_of_spent (u_total_spent Scenario.alice)) by reflexivity.
  repeat split; try assumption.
  destruct (confirm_credits_spent_cashback_and_level
              "INV150" 20%N s inv Scenario.alice Hi Hu Ha Hl)
    as (_ & (u' & Hu' & Hts & Hcb & Hlv) & _).
  exists u'. split; [exact Hu'|].
  rewrite Hts, Hcb, Hlv. repeat split; qc_compute.
Defined.

(** Bob's first order (subtotal 200, discount 30, total 170) earns Alice
    50, a quarter of the subtotal. *)
Lemma confirm_pays_quarter_of_subtotal_witness :
  let s := Scenario.bob_first_order in
  let o := Scenario.plain_order "ORD200" 2 200 30 170 10%N in
  let s' := run (confirm_invoice "INV200" 20%N) s in
  invoice_by_id "INV200" s = Some (Scenario.open_invoice "INV200" "ORD200" 2 200 30)
  /\ user_by_id 2 s = Some Scenario.bob
  /\ u_referred_by Scenario.bob = Some 1%Z
  /\ user_by_id 1 s = Some Scenario.alice
  /\ orders_of 2 s = [o]
  /\ o_subtotal o = Some (Num.ofZ 200)
  /\ o_discount_amount o = Some (Num.ofZ 30)
  /\ o_total o = Some (Num.ofZ 200 - Num.ofZ 30)
  /\ 0 <= Num.ofZ 30 <= Num.ofZ 200
  /\ o_base_price o = Some (Num.ofZ 200)
  /\ option_map u_referral_earnings (user_by_id 1 s') = Some (Num.ofZ 50)
  /\ map r_earnings (referrals s') = [Num.ofZ 50].
Proof.
  intros s o s'.
  assert (Htot : o_total o = Some (Num.ofZ 200 - Num.ofZ 30))
    by (apply (f_equal Some); qc_compute).
  assert (Hd0 : 0 <= Num.ofZ 30) by discriminate.
  assert (Hds : Num.ofZ 30 <= Num.ofZ 200) by discriminate.
  destruct (confirm_pays_quarter_of_subtotal "INV200" 20%N s
              (Scenario.open_invoice "INV200" "ORD200" 2 200 30)
              Scenario.bob 1%Z Scenario.alice o (Num.ofZ 200) (Num.ofZ 30)
              eq_refl eq_refl eq_refl eq_refl eq_refl eq_refl eq_refl
              Htot Hd0 Hds (or_intror eq_refl))
    as (He & Hr).
  do 7 (split; [reflexivity|]).
  split; [exact Htot|].
  split; [split; assumption|].
  split; [reflexivity|].
  split.
  - unfold s'. rewrite He. apply f_equal. qc_compute.
  - unfold s'. rewrite Hr. simpl.
    apply (f_equal (fun q => [q])). qc_compute.
Defined.

(** Bob's second order: confirming its invoice leaves Alice's referral
    earnings at the 50 she got for the first one. *)
Lemma confirm_pays_no_commission_outside_first_order_witness :
  let s := Scenario.bob_second_order in
  let s' := run (confirm_invoice "INV080" 40%N) s in
  invoice_by_id "INV080" s = Some (Scenario.open_invoice "INV080" "ORD080" 2 80 0)
  /\ List.length (orders_of 2 s) = 2%nat
  /\ option_map u_referral_earnings (user_by_id 1 s')
     = option_map u_referral_earnings (user_by_id 1 s)
  /\ referrals s' = referrals s.
Proof.
  intros s s'.
  assert (Hi : invoice_by_id "INV080" s
               = Some (Scenario.open_invoice "INV080" "ORD080" 2 80 0))
    by (vm_compute; reflexivity).
  assert (Hn : List.length (orders_of 2 s) = 2%nat) by (vm_compute; reflexivity).
  split; [exact Hi|]. split; [exact Hn|].
  destruct (confirm_pays_no_commission_outside_first_order
              "INV080" 40%N s _ Hi) as (He & Hr).
  - left. cbn [i_user_id Scenario.open_invoice]. rewrite Hn. discriminate.
  - split; [apply He | exact Hr].
Defined.

(** ** Order creation *)

Lemma existsb_find_none {A} (p : A -> bool) (rows : list A) :
  find p rows = None -> existsb p rows = false.
Proof.
  induction rows as [|a rows IH]; simpl; [reflexivity|].
  destruct (p a); [discriminate | exact IH].
Qed.

(** C8: an order request that redeems [c > 0] of cashback, from a known
    user and under a fresh order id, is accepted; it lowers the user's
    cashback balance by exactly [c], appends the single history row
    [(user, -c, "Оплата заказа #<id>")], and leaves the user's total spent
    and level, every user's referral earnings and the referral rows
    untouched: nothing is earned and no commission is paid at creation. *)
Theorem create_order_redeems_cashback tg order now s u c :
  user_by_telegram_id tg s = Some u ->
  user_by_id (u_id u) s = Some u ->
  order_by_id (orderId_of order now) s = None ->
  req_cashbackUsed order = Some c ->
  0 < c ->
  let orderId := orderId_of order now in
  let s' := run (create_order tg order now) s in
  result (create_order tg order now) s = Done (Json 200 (SuccessOrder orderId))
  /\ (exists u', user_by_id (u_id u) s' = Some u'
        /\ u_cashback u' = u_cashback u - c
        /\ u_total_spent u' = u_total_spent u
        /\ u_level u' = u_level u)
  /\ cashback_history s'
     = (cashback_history s
        ++ [mkEntry (u_id u) (- c) ("Оплата заказа #" ++ orderId) now])%list
  /\ (forall rid, option_map u_referral_earnings (user_by_id rid s')
                  = option_map u_referral_earnings (user_by_id rid s))
  /\ referrals s' = referrals s.
Proof.
  intros Htg Hu Hfresh Hc Hpos orderId s'.
  assert (Hex : existsb (fun o' => String.eqb (o_id o') orderId) (orders s)
                = false)
    by (apply existsb_find_none; exact Hfresh).
  apply NumFacts.ltb_lt in Hpos.
  unfold s', run, result, create_order, insert_order, update_user,
    insert_cashback_history, insert_notification, try_catch, bind, exec,
    query, ret.
  rewrite Htg. cbv beta iota. cbn [o_id]. fold orderId.
  rewrite Hex, Hc, Hpos. cbn [fst snd].
  split; [reflexivity|].
  split; [|split; [reflexivity|split; [|reflexivity]]].
  - exists (set_u_cashback (u_cashback u - c) u).
    unfold user_by_id in *. cbn [users with_notifications with_cashback_history
                                 with_users with_orders].
    rewrite (find_update_any u_id) by reflexivity.
    rewrite Hu. cbn [option_map]. rewrite Z.eqb_refl. repeat split.
  - intros rid.
    unfold user_by_id. cbn [users with_notifications with_cashback_history
                             with_users with_orders].
    rewrite (find_update_any u_id) by reflexivity.
    destruct (find _ (users s)) as [x|]; [|reflexivity].
    cbn [option_map]. destruct (u_id x =? u_id u)%Z; reflexivity.
Qed.

(** Bob redeems 5 of his 20: balance 15, one history row of -5. *)
Lemma create_order_redeems_cashback_witness :
  let s := Scenario.bob_first_order in
  let order := Scenario.redeeming "ORD777" 40 5 in
  let s' := run (create_order "1002" order 30%N) s in
  user_by_telegram_id "1002" s = Some Scenario.bob
  /\ user_by_id 2 s = Some Scenario.bob
  /\ order_by_id "ORD777" s = None
  /\ req_cashbackUsed order = Some (Num.ofZ 5)
  /\ 0 < Num.ofZ 5
  /\ (exists u', user_by_id 2 s' = Some u'
        /\ u_cashback u' = Num.ofZ 15
        /\ u_total_spent u' = 0
        /\ u_level u' = none)
  /\ cashback_history s'
     = [mkEntry 2 (- Num.ofZ 5) "Оплата заказа #ORD777" 30%N].
Proof.
  intros s order s'.
  destruct (create_order_redeems_cashback "1002" order 30%N s Scenario.bob
              (Num.ofZ 5) eq_refl eq_refl eq_refl eq_refl eq_refl)
    as (_ & (u' & Hu' & Hcb & Hts & Hlv) & Hh & _).
  do 5 (split; [reflexivity|]).
  split.
  - exists u'. split; [exact Hu'|].
    rewrite Hcb, Hts, Hlv. split; [qc_compute | split; reflexivity].
  - exact Hh.
Defined.

(** ** Withdrawal completion clamps *)

Lemma in_update {A} (p : A -> bool) (f : A -> A) (rows : list A) (y : A) :
  In y (Sql.update p f rows) -> exists x, In x rows /\ (y = x \/ y = f x).
Proof.
  unfold Sql.update. intros H. apply in_map_iff in H.
  destruct H as (x & Hy & Hx). exists x. split; [exact Hx|].
  destruct (p x); auto.
Qed.

(** X1: Completing a withdrawal never produces a negative balance: the debit
    is [Math.max(0, balance - amount)]. *)
Lemma process_withdrawal_keeps_balances_nonnegative id tx now s :
  (forall u, In u (users s) -> 0 <= u_cashback u /\ 0 <= u_referral_earnings u) ->
  forall u, In u (users (run (process_withdrawal id tx now) s)) ->
            0 <= u_cashback u /\ 0 <= u_referral_earnings u.
Proof.
  intros Hinv u.
  unfold run, process_withdrawal, update_user, insert_cashback_history,
    insert_notification, throw, try_catch, bind, exec, query, ret.
  destruct (withdrawal_by_id id s) as [w|]; [|exact (Hinv u)].
  destruct (negb (String.eqb (w_status w) "pending")); [exact (Hinv u)|].
  cbv beta iota.
  match goal with
  | |- context [user_by_id ?i ?st] => destruct (user_by_id i st) as [x|]
  end;
  [ destruct (String.eqb (w_type w) "cashback");
    [|destruct (String.eqb (w_type w) "referral")] |];
  cbn [snd fst users with_users with_notifications with_cashback_history
       with_withdrawals]; try exact (Hinv u).
  - intros H. apply in_update in H. destruct H as (y & Hy & [->| ->]).
    + now apply Hinv.
    + split; [apply NumFacts.max_lower | exact (proj2 (Hinv y Hy))].
  - intros H. apply in_update in H. destruct H as (y & Hy & [->| ->]).
    + now apply Hinv.
    + split; [exact (proj1 (Hinv y Hy)) | apply NumFacts.max_lower].
Qed.

(** ** What redemption and manual credit do on any store *)

(** Redemption succeeds for every active code, whatever its counter, limit
    or expiry: it increments the counter and records the use. *)
Lemma apply_promo_on_active_code code user_id order_id s promo :
  active_promo_by_code (Text.toUpperCase code) s = Some promo ->
  apply_promo code user_id order_id s
  = (Done (Json 200 (SuccessDiscount (p_discount_percent promo))),
     with_promo_uses (Sql.insert (mkPromoUse (p_id promo) user_id order_id))
       (with_promo_codes
          (Sql.update (fun p => (p_id p =? p_id promo)%Z)
             (fun p => set_p_current_uses (p_current_uses p + 1)%Z p))
          s)).
Proof.
  intros Hp. unfold apply_promo, try_catch, bind, exec, query, ret.
  rewrite Hp. reflexivity.
Qed.

(** The manual adjustment adds the amount to the balance of the user and
    writes nothing else. *)
Lemma admin_cashback_writes_balance_only userId amount s :
  admin_cashback userId (Some amount) s
  = (Done (Json 200 Success),
     with_users
       (Sql.update (fun u => (u_id u =? userId)%Z)
          (fun u => set_u_cashback (u_cashback u + amount) u))
       s).
Proof. reflexivity. Qed.

(** ** Re-confirmation, overdrawn redemption, exhausted promo, manual credit *)

(** C1: the handler has no guard on the invoice status.  Bob's invoice
    [INV200] is confirmed (status [paid], cashback 20 -> 30, total spent
    200, Alice's referral earnings 50) and then confirmed again: the second
    call answers success too, stamps [paid_at] anew, and credits cashback
    (40), total spent (400) and Alice's commission (100) a second time. *)
Theorem reconfirming_a_paid_invoice_credits_again :
  let s1 := run (confirm_invoice "INV200" 20%N) Scenario.bob_first_order in
  let s2 := run (confirm_invoice "INV200" 30%N) s1 in
  option_map i_status (invoice_by_id "INV200" s1) = Some "paid"
  /\ balances 2 s1 = Some (30, 200, 0)%Q
  /\ balances 1 s1 = Some (0, 0, 50)%Q
  /\ result (confirm_invoice "INV200" 30%N) s1 = Done (Json 200 Success)
  /\ option_map i_paid_at (invoice_by_id "INV200" s2) = Some (Some 30%N)
  /\ balances 2 s2 = Some (40, 400, 0)%Q
  /\ balances 1 s2 = Some (0, 0, 100)%Q
  /\ List.length (cashback_history s2) = 2%nat.
Proof. vm_compute. repeat split. Qed.

(** C5: the commission is not paid at most once per referred user.  The
    gate of [processReferralPayment] counts the orders on record, not the
    payments made: Dana, referred by Alice, has one order of 300.  Its
    invoice is confirmed and Alice earns 75; Dana still has exactly one
    order, so confirming the same invoice again pays Alice another 75.
    Alice has 150 and two bonus notices for the one user she referred,
    while the referral row, overwritten each time, records 75. *)
Theorem commission_is_paid_twice_for_one_referred_user :
  let s0 := Sample.dana_first_order in
  let s1 := run (confirm_invoice "INV300" 20%N) s0 in
  let s2 := run (confirm_invoice "INV300" 30%N) s1 in
  let earned s := option_map (fun u => this (u_referral_earnings u))
                    (user_by_id 1 s) in
  option_map u_referred_by (user_by_id 3 s0) = Some (Some 1%Z)
  /\ List.length (orders_of 3 s0) = 1%nat
  /\ earned s0 = Some 0%Q
  /\ result (confirm_invoice "INV300" 20%N) s0 = Done (Json 200 Success)
  /\ earned s1 = Some 75%Q
  /\ List.length (orders_of 3 s1) = 1%nat
  /\ result (confirm_invoice "INV300" 30%N) s1 = Done (Json 200 Success)
  /\ earned s2 = Some 150%Q
  /\ List.length (Sample.bonus_notices 1 s2) = 2%nat
  /\ map (fun r => (r_referrer_id r, r_referred_id r, this (r_earnings r)))
         (referrals s2)
     = [(1%Z, 3%Z, 75%Q)].
Proof. vm_compute. repeat split. Qed.

(** C2: order creation subtracts the redeemed cashback without looking at
    the balance.  Alice holds no cashback; an order that redeems 5 is
    accepted and leaves her balance at -5. *)
Theorem redeeming_beyond_the_balance_goes_negative :
  let s := Scenario.alice_owes_150 in
  let order := Scenario.redeeming "ORD900" 40 5 in
  let s' := run (create_order "1001" order 30%N) s in
  balances 1 s = Some (0, 0, 0)%Q
  /\ result (create_order "1001" order 30%N) s
     = Done (Json 200 (SuccessOrder "ORD900"))
  /\ balances 1 s' = Some (-5, 0, 0)%Q
  /\ (exists u, user_by_id 1 s' = Some u /\ u_cashback u < 0).
Proof.
  vm_compute. repeat split.
  eexists. split; [reflexivity | reflexivity].
Qed.

(** C3: redemption looks the code up and increments, nothing else.  With
    [SAVE10] limited to one use, the first redemption sets the counter to 1
    and the validity check then reports the code exhausted; a second
    redemption is accepted all the same, sets the counter to 2 and records
    a second use. *)
Theorem applying_an_exhausted_promo_still_redeems :
  let s1 := run (apply_promo "save10" 2 "ORD1") Scenario.save10 in
  let s2 := run (apply_promo "SAVE10" 1 "ORD2") s1 in
  result (apply_promo "save10" 2 "ORD1") Scenario.save10
  = Done (Json 200 (SuccessDiscount 10))
  /\ map p_current_uses (promo_codes s1) = [1%Z]
  /\ result (check_promo "SAVE10" 50%N) s1
     = Done (Json 200 (PromoInvalid "Промокод исчерпан"))
  /\ result (apply_promo "SAVE10" 1 "ORD2") s1
     = Done (Json 200 (SuccessDiscount 10))
  /\ map p_current_uses (promo_codes s2) = [2%Z]
  /\ map p_max_uses (promo_codes s2) = [Some 1%Z]
  /\ promo_uses s2 = [mkPromoUse 1 2 "ORD1"; mkPromoUse 1 1 "ORD2"].
Proof. vm_compute. repeat split. Qed.

(** C9: the manual adjustment writes the balance only.  Crediting Alice 10
    raises her cashback balance to 10 while her cashback history stays
    empty, so the running total of her history is 0. *)
Theorem manual_credit_leaves_no_ledger_row :
  let s := Scenario.alice_owes_150 in
  let s' := run (admin_cashback 1 (Some (Num.ofZ 10))) s in
  result (admin_cashback 1 (Some (Num.ofZ 10))) s = Done (Json 200 Success)
  /\ balances 1 s = Some (0, 0, 0)%Q
  /\ history_total 1 s = 0
  /\ balances 1 s' = Some (10, 0, 0)%Q
  /\ cashback_history s' = []
  /\ history_total 1 s' = 0.
Proof. vm_compute. repeat split. Qed.

(** ** The transaction verifier *)

Section VerifierFacts.

Import Tronscan.

Variable parseInt : string -> option Z.

Lemma truthy_nonempty (x : string) : x <> "" -> Text.truthy (Some x) = true.
Proof. destruct x; [congruence | reflexivity]. Qed.

Lemma not_found_code (tx : tx_data) :
  code tx <> Some "NOT_FOUND" ->
  match code tx with
  | Some c => String.eqb c "NOT_FOUND"
  | None => false
  end = false.
Proof.
  intros H. destruct (code tx) as [c|]; [|reflexivity].
  destruct (String.eqb c "NOT_FOUND") eqn:E; [|reflexivity].
  apply String.eqb_eq in E. congruence.
Qed.

(** The verdict once the request is well-formed and the indexer returned a
    confirmed transaction: amount test first, then the recipient tests. *)
Lemma verify_confirmed (req : request) (h rcp : string) (tx : tx_data) :
  txHash req = Some h -> h <> "" ->
  recipientAddress req = Some rcp -> rcp <> "" ->
  code tx <> Some "NOT_FOUND" ->
  confirmed tx = true ->
  verify parseInt req (HttpOk (Some tx))
  = match amount_rejected (expectedAmount req) (fst (extract parseInt tx)) with
    | Some (expected, found) => Rejected 200 (AmountMismatch expected found)
    | None =>
        match snd (extract parseInt tx) with
        | Some (String c r) =>
            if negb (String.eqb (Text.toLowerCase (String c r))
                                (Text.toLowerCase rcp))
            then Rejected 200 (RecipientMismatch rcp (String c r))
            else Verified (fst (extract parseInt tx)) (String c r) true
                          (timestamp_of tx)
        | _ => Rejected 200 RecipientUnknown
        end
    end.
Proof.
  intros Hh Hhne Hr Hrne Hc Hconf.
  unfold verify. rewrite Hh, (truthy_nonempty _ Hhne), Hr.
  destruct rcp as [|c r]; [congruence|].
  cbn [negb]. rewrite (not_found_code _ Hc), Hconf. cbn [negb].
  destruct (extract parseInt tx) as [ta to]. reflexivity.
Qed.


Lemma amount_not_rejected_at_zero (expectedAmount : option Qc) :
  amount_rejected expectedAmount (Fin 0) = None.
Proof.
  unfold amount_rejected, positive.
  replace (Num.ltb 0 0) with false by reflexivity.
  rewrite andb_false_r. reflexivity.
Qed.


(** C10: when the payload yields no amount ([transferAmount] stays 0) but
    does yield a recipient that matches, the transaction is verified with
    amount 0 whatever expected amount the request carries: the tolerance
    test is never reached. *)
Theorem verify_accepts_amountless_payload
  (req : request) (h rcp to : string) (tx : tx_data) :
  txHash req = Some h -> h <> "" ->
  recipientAddress req = Some rcp -> rcp <> "" ->
  code tx <> Some "NOT_FOUND" ->
  confirmed tx = true ->
  extract parseInt tx = (Fin 0, Some to) -> to <> "" ->
  Text.toLowerCase to = Text.toLowerCase rcp ->
  amount_rejected (expectedAmount req) (Fin 0) = None
  /\ verify parseInt req (HttpOk (Some tx))
     = Verified (Fin 0) to true (timestamp_of tx).
Proof.
  intros Hh Hhne Hr Hrne Hc Hconf Hex Hne Hlow.
  split; [apply amount_not_rejected_at_zero|].
  rewrite (verify_confirmed req h rcp tx Hh Hhne Hr Hrne Hc Hconf).
  rewrite Hex. cbn [fst snd]. rewrite amount_not_rejected_at_zero.
  destruct to as [|c r]; [congruence|].
  apply String.eqb_eq in Hlow. rewrite Hlow. reflexivity.
Qed.

End VerifierFacts.


(** A payload without any amount, sent for an invoice of 100: verified,
    amount 0. *)
Lemma verify_accepts_amountless_payload_witness :
  let req := Scenario.ask 100 in
  let tx := Scenario.amountless "taxtuqh2zjhks5yzq2zzvdefexs7ktoyuv" in
  Tronscan.expectedAmount req = Some (Num.ofZ 100)
  /\ Tronscan.extract Scenario.parseInt tx
     = (Tronscan.Fin 0, Some "taxtuqh2zjhks5yzq2zzvdefexs7ktoyuv")
  /\ Tronscan.verify Scenario.parseInt req (Tronscan.HttpOk (Some tx))
     = Tronscan.Verified (Tronscan.Fin 0) "taxtuqh2zjhks5yzq2zzvdefexs7ktoyuv"
         true (Some 1700000000000%N).
Proof.
  intros req tx.
  assert (Hh : "9f2c41d0" <> "") by discriminate.
  assert (Hw : Scenario.wallet <> "") by discriminate.
  assert (Ht : "taxtuqh2zjhks5yzq2zzvdefexs7ktoyuv" <> "") by discriminate.
  assert (Hc : Tronscan.code tx <> Some "NOT_FOUND") by discriminate.
  do 2 (split; [reflexivity|]).
  exact (proj2 (verify_accepts_amountless_payload
                  Scenario.parseInt req "9f2c41d0" Scenario.wallet
                  "taxtuqh2zjhks5yzq2zzvdefexs7ktoyuv" tx
                  eq_refl Hh eq_refl Hw Hc eq_refl eq_refl Ht eq_refl)).
Defined.

(** * Further facts *)

(** ** Lookups through updates *)

Lemma find_update_pred {A} (q p : A -> bool) (f : A -> A) (rows : list A) :
  (forall a, q (f a) = q a) ->
  find q (Sql.update p f rows)
  = option_map (fun a => if p a then f a else a) (find q rows).
Proof.
  intros Hq. induction rows as [|a rows IH]; simpl; [reflexivity|].
  destruct (p a) eqn:Ep.
  - rewrite Hq. destruct (q a); simpl; [rewrite Ep; reflexivity | exact IH].
  - destruct (q a); simpl; [rewrite Ep; reflexivity | exact IH].
Qed.

Lemma find_insert_absent {A} (q : A -> bool) (r : A) (rows : list A) :
  find q rows = None ->
  find q (Sql.insert r rows) = if q r then Some r else None.
Proof.
  unfold Sql.insert. induction rows as [|a rows IH]; simpl.
  - intros _. reflexivity.
  - destruct (q a); [discriminate | exact IH].
Qed.


(** ** The level ladder is monotone *)

Lemma leb_mono (t x y : Qc) :
  x <= y -> Num.leb t x = true -> Num.leb t y = true.
Proof.
  intros Hxy H. apply NumFacts.leb_le in H. apply NumFacts.leb_le.
  eapply Qcle_trans; eassumption.
Qed.

(** X2: Spending more never yields a lower level. *)
Theorem level_of_spent_monotone (x y : Qc) :
  x <= y ->
  (level_rank (level_of_spent x) <= level_rank (level_of_spent y))%nat.
Proof.
  intros Hxy. unfold level_of_spent.
  destruct (Num.leb (Num.ofZ 10000) x) eqn:E4.
  { rewrite (leb_mono _ _ _ Hxy E4). simpl. lia. }
  destruct (Num.leb (Num.ofZ 1000) x) eqn:E3.
  { rewrite (leb_mono _ _ _ Hxy E3).
    destruct (Num.leb (Num.ofZ 10000) y); simpl; lia. }
  destruct (Num.leb (Num.ofZ 500) x) eqn:E2.
  { rewrite (leb_mono _ _ _ Hxy E2).
    destruct (Num.leb (Num.ofZ 10000) y), (Num.leb (Num.ofZ 1000) y);
      simpl; lia. }
  destruct (Num.leb (Num.ofZ 100) x) eqn:E1.
  { rewrite (leb_mono _ _ _ Hxy E1).
    destruct (Num.leb (Num.ofZ 10000) y), (Num.leb (Num.ofZ 1000) y),
      (Num.leb (Num.ofZ 500) y); simpl; lia. }
  simpl. lia.
Qed.

Lemma level_of_spent_monotone_witness :
  Num.ofZ 450 <= Num.ofZ 1200
  /\ (level_rank (level_of_spent (Num.ofZ 450))
      <= level_rank (level_of_spent (Num.ofZ 1200)))%nat.
Proof.
  assert (H : Num.ofZ 450 <= Num.ofZ 1200) by discriminate.
  split; [exact H | exact (level_of_spent_monotone _ _ H)].
Defined.

(** ** Level promotion happens once *)

Lemma updateUserLevel_settled uid s u :
  user_by_id uid s = Some u ->
  level_after u = u_level u ->
  run (updateUserLevel uid) s = s.
Proof.
  intros Hu Hl.
  unfold run, updateUserLevel, try_catch, bind, query, ret. rewrite Hu.
  unfold level_after in Hl.
  destruct (negb _ && negb _) eqn:E; [|reflexivity].
  exfalso. apply andb_true_iff in E. destruct E as [E _].
  apply negb_true_iff in E.
  rewrite Hl, (proj2 (level_eqb_eq _ _) eq_refl) in E. discriminate.
Qed.

(** X3: Running the level check a second time changes nothing: the level is
    already written and no second notification is inserted. *)
Theorem updateUserLevel_idempotent uid s :
  run (updateUserLevel uid) (run (updateUserLevel uid) s)
  = run (updateUserLevel uid) s.
Proof.
  destruct (user_by_id uid s) as [u|] eqn:Hu.
  - apply (updateUserLevel_settled uid _ (set_u_level (level_after u) u)).
    + now apply updateUserLevel_self.
    + unfold level_after. cbn [u_total_spent u_level set_u_level].
      fold (level_after u).
      set (nl := level_of_spent (u_total_spent u)).
      unfold level_after. fold nl.
      destruct (level_eqb nl (u_level u)) eqn:E1; cbn [negb andb].
      * apply level_eqb_eq in E1. rewrite <- E1.
        rewrite (proj2 (level_eqb_eq nl nl) eq_refl). reflexivity.
      * destruct (level_eqb nl none) eqn:E2; cbn [negb andb].
        -- rewrite E1. reflexivity.
        -- rewrite (proj2 (level_eqb_eq nl nl) eq_refl). reflexivity.
  - rewrite (updateUserLevel_absent _ _ Hu).
    apply (updateUserLevel_absent _ _ Hu).
Qed.

(** ** What each request can touch *)

(** X4: Total spent and level of every user are written by payment
    confirmation only: any other request leaves both as they were. *)
Theorem only_confirmation_writes_spent_and_level (r : request) (s : store)
  (uid : Z) :
  is_confirmation r = false ->
  option_map u_total_spent (user_by_id uid (handle r s))
  = option_map u_total_spent (user_by_id uid s)
  /\ option_map u_level (user_by_id uid (handle r s))
     = option_map u_level (user_by_id uid s).
Proof.
  intros Hr. destruct r; try discriminate Hr; clear Hr;
    unfold_handlers; split_tests; unfold user_by_id; store_fields;
    rewrite ?(find_update_any u_id) by reflexivity;
    try (split; reflexivity);
    destruct (find _ (users s)) as [x|]; cbn [option_map];
    try (split; reflexivity);
    match goal with
    | |- context [if ?c then _ else _] => destruct c
    end; split; reflexivity.
Qed.

Lemma only_confirmation_writes_spent_and_level_witness :
  let r := AdminCashback 2 (Some (Num.ofZ 10)) in
  let s := Scenario.bob_first_order in
  is_confirmation r = false
  /\ option_map u_total_spent (user_by_id 2 (handle r s))
     = option_map u_total_spent (user_by_id 2 s)
  /\ option_map u_level (user_by_id 2 (handle r s))
     = option_map u_level (user_by_id 2 s).
Proof.
  intros r s. split; [reflexivity|].
  exact (only_confirmation_writes_spent_and_level r s 2 eq_refl).
Defined.

(** ** Balance and history move together *)

Lemma total_insert uid e l :
  fold_right Qcplus 0
    (map ch_amount
       (filter (fun x => (ch_user_id x =? uid)%Z) (Sql.insert e l)))
  = fold_right Qcplus 0
      (map ch_amount (filter (fun x => (ch_user_id x =? uid)%Z) l))
    + (if (ch_user_id e =? uid)%Z then ch_amount e else 0).
Proof.
  unfold Sql.insert. induction l as [|a l IH]; simpl.
  - destruct (ch_user_id e =? uid)%Z; simpl; ring.
  - destruct (ch_user_id a =? uid)%Z; simpl; rewrite IH; ring.
Qed.

Lemma history_total_insert uid e s :
  history_total uid (with_cashback_history (Sql.insert e) s)
  = history_total uid s
    + (if (ch_user_id e =? uid)%Z then ch_amount e else 0).
Proof. unfold history_total. store_fields. apply total_insert. Qed.

Lemma history_total_same uid s s' :
  cashback_history s' = cashback_history s ->
  history_total uid s' = history_total uid s.
Proof. unfold history_total. intros ->. reflexivity. Qed.


Lemma confirm_keeps_ledger id now s uid u :
  user_by_id uid s = Some u ->
  exists u',
    user_by_id uid (run (confirm_invoice id now) s) = Some u'
    /\ u_cashback u' - history_total uid (run (confirm_invoice id now) s)
       = u_cashback u - history_total uid s.
Proof.
  intros Hu.
  destruct (invoice_by_id id s) as [inv|] eqn:Hi.
  2:{ unfold run. rewrite (confirm_invoice_missing _ _ _ Hi). cbn [snd].
      exists u. split; [exact Hu | reflexivity]. }
  unfold run at 1 2. rewrite (confirm_invoice_found _ _ _ _ Hi). cbn [snd].
  set (s1 := credited id now inv s).
  set (s2 := run (updateUserLevel (i_user_id inv)) s1).
  set (u1 := if (u_id u =? i_user_id inv)%Z then credit inv u else u).
  assert (H1 : user_by_id uid s1 = Some u1).
  { unfold s1. rewrite credited_user, Hu. reflexivity. }
  assert (H2 : exists u2, user_by_id uid s2 = Some u2
                          /\ u_cashback u2 = u_cashback u1).
  { unfold s2. destruct (Z.eq_dec uid (i_user_id inv)) as [E|E].
    - subst uid. rewrite (updateUserLevel_self _ _ _ H1).
      eexists. split; reflexivity.
    - rewrite (updateUserLevel_other _ _ _ E). exists u1. auto. }
  destruct H2 as (u2 & H2 & Hc2).
  destruct (processReferralPayment_user (i_user_id inv) s2)
    as (g & Hg & Hlook & Hhist).
  exists (g u2). split.
  - rewrite user_by_id_notified, Hlook, H2. reflexivity.
  - destruct (Hg u2) as (_ & _ & _ & Hcb). rewrite Hcb, Hc2.
    rewrite (history_total_same uid
               (run (processReferralPayment (i_user_id inv)) s2))
      by reflexivity.
    rewrite (history_total_same uid s2 _ Hhist).
    rewrite (history_total_same uid s1 s2)
      by (unfold s2;
          exact (proj1 (proj2 (updateUserLevel_frame (i_user_id inv) s1)))).
    unfold s1, credited. rewrite history_total_insert.
    rewrite (history_total_same uid s
               (with_users _ (with_orders _ (with_invoices _ s))))
      by reflexivity.
    cbn [ch_user_id ch_amount]. unfold u1.
    rewrite (user_by_id_key _ _ _ Hu), (Z.eqb_sym (i_user_id inv) uid).
    destruct (uid =? i_user_id inv)%Z; cbn [credit u_cashback set_u_total_spent
                                            set_u_cashback]; ring.
Qed.

(** Except for the manual adjustment and the withdrawal debit, every
    request moves a user's cashback balance and the running total of the
    user's cashback history by the same amount. *)
Lemma booked_request_keeps_balance_and_history_in_step
  (r : request) (s : store) (uid : Z) (u : user) :
  books_cashback r = true ->
  user_by_id uid s = Some u ->
  exists u',
    user_by_id uid (handle r s) = Some u'
    /\ u_cashback u' - history_total uid (handle r s)
       = u_cashback u - history_total uid s.
Proof.
  intros Hr Hu.
  assert (Hid := user_by_id_key _ _ _ Hu).
  destruct r; try discriminate Hr; clear Hr;
    try (apply confirm_keeps_ledger; exact Hu);
    unfold_handlers; split_tests;
    unfold history_total, user_by_id in *; store_fields;
    rewrite ?total_insert;
    rewrite ?(find_update_any u_id) by reflexivity;
    rewrite ?Hu; cbn [option_map ch_user_id ch_amount];
    eexists; (split; [reflexivity|]);
    rewrite ?Hid;
    repeat match goal with
           | |- context [(?a =? uid)%Z] => rewrite (Z.eqb_sym a uid)
           end;
    repeat match goal with
           | |- context [if ?c then _ else _] => destruct c
           end;
    cbn [u_cashback set_u_cashback set_u_referred_by]; ring.
Qed.

Lemma booked_requests_keep_diff (rs : list request) :
  forall (s : store) (uid : Z) (u : user),
    forallb books_cashback rs = true ->
    user_by_id uid s = Some u ->
    exists u',
      user_by_id uid (handle_all rs s) = Some u'
      /\ u_cashback u' - history_total uid (handle_all rs s)
         = u_cashback u - history_total uid s.
Proof.
  induction rs as [|r rs IH]; intros s uid u Hall Hu.
  - exists u. split; [exact Hu | reflexivity].
  - cbn [forallb] in Hall. apply andb_true_iff in Hall.
    destruct Hall as [Hr Hrs].
    destruct (booked_request_keeps_balance_and_history_in_step r s uid u Hr Hu)
      as (u1 & Hu1 & Hd1).
    destruct (IH (handle r s) uid u1 Hrs Hu1) as (u' & Hu' & Hd).
    exists u'. split; [exact Hu'|].
    cbn [handle_all fold_left]. fold (handle_all rs (handle r s)).
    rewrite Hd. exact Hd1.
Qed.

(** X5: A user whose cashback balance equals the running total of the user's
    history keeps that equality through any sequence of requests that
    contains neither a manual adjustment nor a withdrawal completion. *)
Theorem reconciled_balance_survives_booked_requests
  (rs : list request) (s : store) (uid : Z) (u : user) :
  forallb books_cashback rs = true ->
  user_by_id uid s = Some u ->
  u_cashback u = history_total uid s ->
  exists u',
    user_by_id uid (handle_all rs s) = Some u'
    /\ u_cashback u' = history_total uid (handle_all rs s).
Proof.
  intros Hall Hu Heq.
  destruct (booked_requests_keep_diff rs s uid u Hall Hu) as (u' & Hu' & Hd).
  exists u'. split; [exact Hu'|].
  rewrite Heq in Hd.
  assert (Hz : u_cashback u' - history_total uid (handle_all rs s) = 0)
    by (rewrite Hd; ring).
  rewrite <- (Qcplus_0_l (history_total uid (handle_all rs s))), <- Hz.
  ring.
Qed.

Lemma reconciled_balance_survives_booked_requests_witness :
  let s := Scenario.alice_owes_150 in
  let rs := [ConfirmInvoice "INV150" 20%N;
             SubmitReview "1001" "ORD150" 30%N;
             CreateOrder "1001" (Scenario.redeeming "ORD151" 40 5) 40%N] in
  forallb books_cashback rs = true
  /\ user_by_id 1 s = Some Scenario.alice
  /\ u_cashback Scenario.alice = history_total 1 s
  /\ exists u', user_by_id 1 (handle_all rs s) = Some u'
                /\ u_cashback u' = history_total 1 (handle_all rs s).
Proof.
  intros s rs.
  do 3 (split; [reflexivity|]).
  exact (reconciled_balance_survives_booked_requests rs s 1 Scenario.alice
           eq_refl eq_refl eq_refl).
Defined.

(** ** Referral linking *)

Lemma apply_referral_refused tg code s :
  result (apply_referral tg code) s <> Done (Json 200 (SuccessDiscount 15)) ->
  run (apply_referral tg code) s = s.
Proof.
  unfold_handlers. split_tests; try reflexivity.
  all: intros H; exfalso; apply H; congruence.
Qed.

(** X6: A referral request that is not answered with success (unknown code,
    unknown caller, caller already referred, own code) has written
    nothing. *)
Theorem apply_referral_rejects_without_writing tg code s :
  result (apply_referral tg code) s <> Done (Json 200 (SuccessDiscount 15)) ->
  run (apply_referral tg code) s = s.
Proof.
  unfold_handlers. split_tests; try reflexivity.
  all: intros H; exfalso; apply H; congruence.
Qed.

Lemma apply_referral_rejects_without_writing_witness :
  let s := Scenario.bob_first_order in
  result (apply_referral "1002" "ALICQ7ZK") s
  = Done (Json 400 (Error "Already referred"))
  /\ run (apply_referral "1002" "ALICQ7ZK") s = s.
Proof.
  intros s. split; [reflexivity|].
  apply apply_referral_rejects_without_writing. discriminate.
Defined.

(** X7: A successful link names the owner of the code as the caller's referrer,
    adds one referral row with earnings 0, and is final: whatever code the
    same caller presents afterwards is refused and changes nothing. *)
Theorem apply_referral_links_once tg code s :
  result (apply_referral tg code) s = Done (Json 200 (SuccessDiscount 15)) ->
  let s1 := run (apply_referral tg code) s in
  exists referrer user,
    user_by_referral_code code s = Some referrer
    /\ user_by_telegram_id tg s = Some user
    /\ u_referred_by user = None
    /\ u_telegram_id referrer <> u_telegram_id user
    /\ user_by_telegram_id tg s1
       = Some (set_u_referred_by (Some (u_id referrer)) user)
    /\ referrals s1
       = (referrals s ++ [mkReferral (u_id referrer) (u_id user) 0])%list
    /\ forall code',
         result (apply_referral tg code') s1
         <> Done (Json 200 (SuccessDiscount 15))
         /\ run (apply_referral tg code') s1 = s1.
Proof.
  intros Hok s1.
  assert (Hshape :
    exists referrer user,
      user_by_referral_code code s = Some referrer
      /\ user_by_telegram_id tg s = Some user
      /\ u_referred_by user = None
      /\ String.eqb (u_telegram_id referrer) (u_telegram_id user) = false
      /\ s1 = with_referrals
                (Sql.insert (mkReferral (u_id referrer) (u_id user) 0))
                (with_users
                   (Sql.update (fun u => (u_id u =? u_id user)%Z)
                      (set_u_referred_by (Some (u_id referrer)))) s)).
  { revert Hok. unfold s1. unfold_handlers. split_tests; try discriminate.
    intros _. eexists _, _. repeat split; eauto. }
  destruct Hshape as (referrer & user & Hr & Hu & Hnone & Hne & Hs1).
  exists referrer, user.
  assert (Hu1 : user_by_telegram_id tg s1
                = Some (set_u_referred_by (Some (u_id referrer)) user)).
  { rewrite Hs1. unfold user_by_telegram_id in *. store_fields.
    rewrite find_update_pred by (intros; reflexivity).
    rewrite Hu. cbn [option_map]. rewrite Z.eqb_refl. reflexivity. }
  assert (Hrefuse : forall code',
            result (apply_referral tg code') s1
            <> Done (Json 200 (SuccessDiscount 15))).
  { intros code'. unfold_handlers.
    destruct (user_by_referral_code code' s1); [|discriminate].
    cbv beta iota. rewrite Hu1. discriminate. }
  do 4 (split; [first [assumption | now apply String.eqb_neq]|]).
  split; [exact Hu1|].
  split; [rewrite Hs1; reflexivity|].
  intros code'. split; [apply Hrefuse|].
  apply apply_referral_refused, Hrefuse.
Qed.

Lemma apply_referral_links_once_witness :
  let s := Scenario.save10 in
  let s1 := run (apply_referral "1001" "BOBXM4TD") s in
  result (apply_referral "1001" "BOBXM4TD") s
  = Done (Json 200 (SuccessDiscount 15))
  /\ option_map u_referred_by (user_by_telegram_id "1001" s1) = Some (Some 2%Z)
  /\ run (apply_referral "1001" "BOBXM4TD") s1 = s1.
Proof.
  intros s s1.
  destruct (apply_referral_links_once "1001" "BOBXM4TD" s eq_refl)
    as (referrer & user & _ & _ & _ & _ & _ & _ & Hagain).
  split; [reflexivity|]. split; [reflexivity|].
  exact (proj2 (Hagain "BOBXM4TD")).
Defined.

Lemma in_update_cases {A} (p : A -> bool) (f : A -> A) (rows : list A) (y : A) :
  In y (Sql.update p f rows) ->
  exists x, In x rows /\ y = if p x then f x else x.
Proof.
  unfold Sql.update. intros H. apply in_map_iff in H.
  destruct H as (x & Hy & Hx). exists x. auto.
Qed.

Lemma NoDup_key_inj {A} (key : A -> Z) (rows : list A) (a b : A) :
  NoDup (map key rows) -> In a rows -> In b rows -> key a = key b -> a = b.
Proof.
  induction rows as [|r rows IH]; simpl; [tauto|].
  intros Hnd Ha Hb Hk. inversion Hnd as [|? ? Hnotin Hnd']; subst.
  destruct Ha as [->|Ha], Hb as [->|Hb]; auto.
  - exfalso. apply Hnotin. rewrite Hk. now apply in_map.
  - exfalso. apply Hnotin. rewrite <- Hk. now apply in_map.
Qed.

(** X8: In a store whose user ids are distinct and where nobody is their own
    referrer, linking keeps it so: the handler never makes a user their own
    referrer. *)
Theorem apply_referral_never_links_to_self tg code s :
  NoDup (map u_id (users s)) ->
  (forall u, In u (users s) -> u_referred_by u <> Some (u_id u)) ->
  forall u, In u (users (run (apply_referral tg code) s)) ->
            u_referred_by u <> Some (u_id u).
Proof.
  intros Hnd Hinv u.
  unfold_handlers.
  destruct (user_by_referral_code code s) as [referrer|] eqn:Hr;
    [|exact (Hinv u)].
  cbv beta iota.
  destruct (user_by_telegram_id tg s) as [user|] eqn:Hu; [|exact (Hinv u)].
  destruct (u_referred_by user); [exact (Hinv u)|].
  destruct (String.eqb (u_telegram_id referrer) (u_telegram_id user)) eqn:Ht;
    [exact (Hinv u)|].
  cbv beta iota. cbn [fst snd]. store_fields.
  intros Hin. apply in_update_cases in Hin.
  destruct Hin as (x & Hx & ->).
  destruct (u_id x =? u_id user)%Z eqn:E; [|now apply Hinv].
  cbn [u_referred_by u_id set_u_referred_by].
  intros Hself. injection Hself as Hself.
  apply Z.eqb_eq in E.
  apply find_some in Hr, Hu. destruct Hr as [Hrin _], Hu as [Huin _].
  assert (referrer = user)
    by (apply (NoDup_key_inj u_id (users s)); congruence).
  subst referrer. rewrite String.eqb_refl in Ht. discriminate.
Qed.

Lemma apply_referral_never_links_to_self_witness :
  let s := Scenario.save10 in
  NoDup (map u_id (users s))
  /\ (forall u, In u (users s) -> u_referred_by u <> Some (u_id u))
  /\ forall u, In u (users (run (apply_referral "1001" "ALICQ7ZK") s)) ->
               u_referred_by u <> Some (u_id u).
Proof.
  intros s.
  assert (Hnd : NoDup (map u_id (users s))).
  { repeat constructor; simpl; intuition discriminate. }
  assert (Hinv : forall u, In u (users s) -> u_referred_by u <> Some (u_id u)).
  { intros u [<-|[<-|[]]]; discriminate. }
  split; [exact Hnd|]. split; [exact Hinv|].
  exact (apply_referral_never_links_to_self "1001" "ALICQ7ZK" s Hnd Hinv).
Defined.

(** ** Withdrawals *)

Lemma withdrawal_ids_below_next (s : store) (w : withdrawal) :
  In w (withdrawals s) -> (w_id w < next_withdrawal_id s)%Z.
Proof.
  unfold next_withdrawal_id.
  induction (withdrawals s) as [|a l IH]; cbn [In map fold_right]; [tauto|].
  intros [->|H]; [lia|]. specialize (IH H). lia.
Qed.

Lemma next_withdrawal_id_fresh (s : store) :
  withdrawal_by_id (next_withdrawal_id s) s = None.
Proof.
  unfold withdrawal_by_id.
  destruct (find _ (withdrawals s)) as [w|] eqn:E; [|reflexivity].
  apply find_some in E. destruct E as [Hin Heq].
  apply Z.eqb_eq in Heq. apply withdrawal_ids_below_next in Hin. lia.
Qed.

(** X9: A withdrawal request never debits: the users table and the cashback
    history are the same after it, whatever the answer; and an answer other
    than success means nothing at all was written. *)
Theorem request_withdrawal_reserves_nothing tg type amount s :
  let s' := run (request_withdrawal tg type amount) s in
  users s' = users s
  /\ cashback_history s' = cashback_history s
  /\ ((forall id, result (request_withdrawal tg type amount) s
                  <> Done (Json 200 (SuccessWithdrawal id))) ->
      s' = s).
Proof.
  unfold_handlers. split_tests; repeat split; try reflexivity.
  all: intros H; exfalso; eapply H; reflexivity.
Qed.

Lemma request_withdrawal_reserves_nothing_witness :
  let s := Scenario.bob_first_order in
  let ask := request_withdrawal "1002" "cashback" (Some (Num.ofZ 50)) in
  (forall id, result ask s <> Done (Json 200 (SuccessWithdrawal id)))
  /\ run ask s = s.
Proof.
  intros s ask.
  assert (H : forall id, result ask s <> Done (Json 200 (SuccessWithdrawal id)))
    by (intros id; vm_compute; discriminate).
  split; [exact H|].
  exact (proj2 (proj2 (request_withdrawal_reserves_nothing
                         "1002" "cashback" (Some (Num.ofZ 50)) s)) H).
Defined.

(** X10: A request for a positive amount that the named balance covers, from a
    user with a payout wallet, is queued as a pending withdrawal under an
    id no other withdrawal carries. *)
Theorem request_withdrawal_queues_covered_amount tg type amount s u wallet :
  user_by_telegram_id tg s = Some u ->
  u_trc20_wallet u = Some wallet ->
  wallet <> "" ->
  0 < amount ->
  (type = "cashback" /\ amount <= u_cashback u)
  \/ (type = "referral" /\ amount <= u_referral_earnings u) ->
  let id := next_withdrawal_id s in
  result (request_withdrawal tg type (Some amount)) s
  = Done (Json 200 (SuccessWithdrawal id))
  /\ withdrawal_by_id id s = None
  /\ withdrawals (run (request_withdrawal tg type (Some amount)) s)
     = (withdrawals s
        ++ [mkWithdrawal id (u_id u) amount wallet type "pending" None None])%list.
Proof.
  intros Hu Hw Hne Hpos Hcov id.
  assert (Hz : Num.eqb amount 0 = false).
  { apply NumFacts.eqb_neq. intros ->. revert Hpos. discriminate. }
  assert (Hl : Num.leb amount 0 = false).
  { apply NumFacts.leb_gt. exact Hpos. }
  unfold_handlers. rewrite Hu. cbv beta iota. rewrite Hw.
  destruct wallet as [|c r]; [congruence|].
  rewrite Hz, Hl. cbn [orb].
  destruct Hcov as [[-> Hc]|[-> Hc]];
    apply NumFacts.ltb_ge in Hc; cbn [String.eqb Ascii.eqb Bool.eqb andb];
    rewrite Hc; cbv beta iota; cbn [fst snd]; store_fields;
    (split; [reflexivity | split; [apply next_withdrawal_id_fresh | reflexivity]]).
Qed.

Lemma request_withdrawal_queues_covered_amount_witness :
  let s := Scenario.bob_first_order in
  user_by_telegram_id "1002" s = Some Scenario.bob
  /\ u_trc20_wallet Scenario.bob = Some "TBobWalletAddress"
  /\ 0 < Num.ofZ 15
  /\ Num.ofZ 15 <= u_cashback Scenario.bob
  /\ result (request_withdrawal "1002" "cashback" (Some (Num.ofZ 15))) s
     = Done (Json 200 (SuccessWithdrawal 1))
  /\ List.length
       (withdrawals
          (run (request_withdrawal "1002" "cashback" (Some (Num.ofZ 15))) s))
     = 1%nat.
Proof.
  intros s.
  assert (Hpos : 0 < Num.ofZ 15) by reflexivity.
  assert (Hcov : Num.ofZ 15 <= u_cashback Scenario.bob) by discriminate.
  assert (Hne : "TBobWalletAddress" <> "") by discriminate.
  destruct (request_withdrawal_queues_covered_amount
              "1002" "cashback" (Num.ofZ 15) s Scenario.bob "TBobWalletAddress"
              eq_refl eq_refl Hne Hpos (or_introl (conj eq_refl Hcov)))
    as (Hres & _ & Hrows).
  do 2 (split; [reflexivity|]).
  split; [exact Hpos|]. split; [exact Hcov|].
  split; [exact Hres|].
  rewrite Hrows. reflexivity.
Defined.

Lemma withdrawal_by_id_update id f s :
  (forall w, w_id (f w) = w_id w) ->
  withdrawal_by_id id
    (with_withdrawals (Sql.update (fun w => (w_id w =? id)%Z) f) s)
  = option_map f (withdrawal_by_id id s).
Proof.
  intros Hf. unfold withdrawal_by_id. store_fields.
  rewrite (find_update_any w_id) by exact Hf.
  destruct (find _ (withdrawals s)) as [w|] eqn:E; [|reflexivity].
  apply find_some in E. destruct E as [_ E]. cbn [option_map].
  rewrite E. reflexivity.
Qed.

Lemma process_withdrawal_marks id tx now s w :
  withdrawal_by_id id s = Some w ->
  w_status w = "pending" ->
  withdrawals (run (process_withdrawal id tx now) s)
  = Sql.update (fun w => (w_id w =? id)%Z)
      (set_w_completed (or_null tx) now) (withdrawals s).
Proof.
  intros Hw Hp. unfold_handlers. rewrite Hw. cbv beta iota. rewrite Hp.
  cbn [String.eqb Ascii.eqb Bool.eqb andb negb].
  split_tests; reflexivity.
Qed.

Lemma cancel_withdrawal_marks id reason now s w :
  withdrawal_by_id id s = Some w ->
  w_status w = "pending" ->
  withdrawals (run (cancel_withdrawal id reason now) s)
  = Sql.update (fun w => (w_id w =? id)%Z) (set_w_cancelled now)
      (withdrawals s).
Proof.
  intros Hw Hp. unfold_handlers. rewrite Hw. cbv beta iota. rewrite Hp.
  cbn [String.eqb Ascii.eqb Bool.eqb andb negb].
  split_tests; reflexivity.
Qed.

Lemma settled_withdrawal_is_refused id s w :
  withdrawal_by_id id s = Some w ->
  w_status w <> "pending" ->
  (forall tx now,
      result (process_withdrawal id tx now) s
      = Done (Json 400 (Error "Withdrawal already processed"))
      /\ run (process_withdrawal id tx now) s = s)
  /\ (forall reason now,
        result (cancel_withdrawal id reason now) s
        = Done (Json 400 (Error "Withdrawal already processed"))
        /\ run (cancel_withdrawal id reason now) s = s).
Proof.
  intros Hw Hp. apply String.eqb_neq in Hp.
  split; intros; unfold_handlers; rewrite Hw; cbv beta iota; rewrite Hp;
    split; reflexivity.
Qed.

(** X11: A pending withdrawal is settled exactly once.  After it has been
    completed or cancelled (even by a call that ended in an error), every
    further attempt to complete or cancel it is refused and writes
    nothing. *)
Theorem withdrawal_is_settled_once id s w tx reason now :
  withdrawal_by_id id s = Some w ->
  w_status w = "pending" ->
  forall s1,
    s1 = run (process_withdrawal id tx now) s
    \/ s1 = run (cancel_withdrawal id reason now) s ->
    (forall tx' now',
        result (process_withdrawal id tx' now') s1
        = Done (Json 400 (Error "Withdrawal already processed"))
        /\ run (process_withdrawal id tx' now') s1 = s1)
    /\ (forall reason' now',
          result (cancel_withdrawal id reason' now') s1
          = Done (Json 400 (Error "Withdrawal already processed"))
          /\ run (cancel_withdrawal id reason' now') s1 = s1).
Proof.
  intros Hw Hp s1 Hs1.
  assert (H1 : exists w1, withdrawal_by_id id s1 = Some w1
                          /\ w_status w1 <> "pending").
  { destruct Hs1 as [-> | ->].
    - exists (set_w_completed (or_null tx) now w). split; [|discriminate].
      unfold withdrawal_by_id at 1.
      rewrite (process_withdrawal_marks id tx now s w Hw Hp).
      change (withdrawal_by_id id
                (with_withdrawals
                   (Sql.update (fun w => (w_id w =? id)%Z)
                      (set_w_completed (or_null tx) now)) s)
              = Some (set_w_completed (or_null tx) now w)).
      rewrite withdrawal_by_id_update by reflexivity. rewrite Hw. reflexivity.
    - exists (set_w_cancelled now w). split; [|discriminate].
      unfold withdrawal_by_id at 1.
      rewrite (cancel_withdrawal_marks id reason now s w Hw Hp).
      change (withdrawal_by_id id
                (with_withdrawals
                   (Sql.update (fun w => (w_id w =? id)%Z)
                      (set_w_cancelled now)) s)
              = Some (set_w_cancelled now w)).
      rewrite withdrawal_by_id_update by reflexivity. rewrite Hw. reflexivity. }
  destruct H1 as (w1 & Hw1 & Hp1).
  exact (settled_withdrawal_is_refused id s1 w1 Hw1 Hp1).
Qed.

Lemma withdrawal_is_settled_once_witness :
  let s := Sample.bob_awaits_15 in
  let s1 := run (process_withdrawal 1 (Some "0xpaid") 50%N) s in
  option_map w_status (withdrawal_by_id 1 s) = Some "pending"
  /\ option_map w_status (withdrawal_by_id 1 s1) = Some "completed"
  /\ result (cancel_withdrawal 1 None 60%N) s1
     = Done (Json 400 (Error "Withdrawal already processed"))
  /\ run (process_withdrawal 1 (Some "0xagain") 70%N) s1 = s1.
Proof.
  intros s s1.
  destruct (withdrawal_is_settled_once 1 s
              (mkWithdrawal 1 2 (Num.ofZ 15) "TBobWalletAddress" "cashback"
                 "pending" None None)
              (Some "0xpaid") None 50%N eq_refl eq_refl s1 (or_introl eq_refl))
    as (Hp & Hc).
  do 2 (split; [reflexivity|]).
  split; [exact (proj1 (Hc None 60%N)) | exact (proj2 (Hp (Some "0xagain") 70%N))].
Defined.

(** X12: Completing a pending withdrawal that the balance covers answers
    success, marks it completed with the payout hash and time, and debits
    exactly the withdrawn amount: from the cashback balance, with a history
    row of minus the amount, for type [cashback]; from the referral
    earnings, with no history row, for type [referral]. *)
Theorem process_withdrawal_debits_covered_amount id tx now s w u :
  withdrawal_by_id id s = Some w ->
  w_status w = "pending" ->
  user_by_id (w_user_id w) s = Some u ->
  let s' := run (process_withdrawal id tx now) s in
  (w_type w = "cashback" -> w_amount w <= u_cashback u ->
   result (process_withdrawal id tx now) s = Done (Json 200 Success)
   /\ withdrawal_by_id id s' = Some (set_w_completed (or_null tx) now w)
   /\ user_by_id (w_user_id w) s'
      = Some (set_u_cashback (u_cashback u - w_amount w) u)
   /\ cashback_history s'
      = (cashback_history s
         ++ [mkEntry (u_id u) (- w_amount w) ("Выплата #" ++ Text.of_Z id)
               now])%list)
  /\ (w_type w = "referral" -> w_amount w <= u_referral_earnings u ->
      result (process_withdrawal id tx now) s = Done (Json 200 Success)
      /\ withdrawal_by_id id s' = Some (set_w_completed (or_null tx) now w)
      /\ user_by_id (w_user_id w) s'
         = Some (set_u_referral_earnings
                   (u_referral_earnings u - w_amount w) u)
      /\ cashback_history s' = cashback_history s).
Proof.
  intros Hw Hp Hu s'.
  assert (Hmax : forall b a, a <= b -> Num.max 0 (b - a) = b - a).
  { intros b a Hab. unfold Num.max.
    destruct (Num.leb 0 (b - a)) eqn:E; [reflexivity|].
    apply NumFacts.leb_gt in E. exfalso. qc_arith. }
  assert (Hrow : withdrawal_by_id id s'
                 = Some (set_w_completed (or_null tx) now w)).
  { unfold withdrawal_by_id, s'.
    rewrite (process_withdrawal_marks id tx now s w Hw Hp).
    change (withdrawal_by_id id
              (with_withdrawals
                 (Sql.update (fun w => (w_id w =? id)%Z)
                    (set_w_completed (or_null tx) now)) s)
            = Some (set_w_completed (or_null tx) now w)).
    rewrite withdrawal_by_id_update by reflexivity. rewrite Hw. reflexivity. }
  assert (Hkey := user_by_id_key _ _ _ Hu).
  split; intros Ht Hcov; (split; [|split; [exact Hrow|]]);
    unfold s'; unfold_handlers; rewrite Hw; cbv beta iota; rewrite Hp, Ht;
    cbn [String.eqb Ascii.eqb Bool.eqb andb negb];
    cbv beta iota; cbn [fst snd];
    change (user_by_id (w_user_id w)
              (with_withdrawals
                 (Sql.update (fun w0 => (w_id w0 =? id)%Z)
                    (set_w_completed (or_null tx) now)) s))
      with (user_by_id (w_user_id w) s);
    rewrite Hu; cbv beta iota; cbn [fst snd]; try reflexivity;
    (split; [|reflexivity]);
    unfold user_by_id; store_fields;
    rewrite (find_update_any u_id) by reflexivity;
    fold (user_by_id (w_user_id w) s); rewrite Hu; cbn [option_map];
    rewrite Hkey, Z.eqb_refl, (Hmax _ _ Hcov); reflexivity.
Qed.

Lemma process_withdrawal_debits_covered_amount_witness :
  let s := Sample.bob_awaits_15 in
  let s' := run (process_withdrawal 1 (Some "0xpaid") 50%N) s in
  option_map w_status (withdrawal_by_id 1 s) = Some "pending"
  /\ user_by_id 2 s = Some Scenario.bob
  /\ Num.ofZ 15 <= u_cashback Scenario.bob
  /\ option_map u_cashback (user_by_id 2 s') = Some (Num.ofZ 5)
  /\ option_map w_status (withdrawal_by_id 1 s') = Some "completed".
Proof.
  intros s s'.
  assert (Hcov : Num.ofZ 15 <= u_cashback Scenario.bob) by discriminate.
  destruct (process_withdrawal_debits_covered_amount 1 (Some "0xpaid") 50%N s
              (mkWithdrawal 1 2 (Num.ofZ 15) "TBobWalletAddress" "cashback"
                 "pending" None None)
              Scenario.bob eq_refl eq_refl eq_refl)
    as (Hcash & _).
  destruct (Hcash eq_refl Hcov) as (_ & Hrow & Hu & _).
  cbn [w_user_id w_amount] in Hu.
  do 2 (split; [reflexivity|]). split; [exact Hcov|].
  split.
  - unfold s'. rewrite Hu. apply (f_equal Some). qc_compute.
  - unfold s'. rewrite Hrow. reflexivity.
Defined.

(** X13: Cancelling moves no money, whatever the input: users and cashback
    history are untouched.  For a pending withdrawal of an existing user it
    answers success and marks the withdrawal cancelled. *)
Theorem cancel_withdrawal_moves_no_money id reason now s :
  let s' := run (cancel_withdrawal id reason now) s in
  users s' = users s
  /\ cashback_history s' = cashback_history s
  /\ forall w u,
       withdrawal_by_id id s = Some w ->
       w_status w = "pending" ->
       user_by_id (w_user_id w) s = Some u ->
       result (cancel_withdrawal id reason now) s = Done (Json 200 Success)
       /\ withdrawal_by_id id s' = Some (set_w_cancelled now w).
Proof.
  intros s'. split; [|split].
  - unfold s'. unfold_handlers. split_tests; reflexivity.
  - unfold s'. unfold_handlers. split_tests; reflexivity.
  - intros w u Hw Hp Hu. split.
    + unfold_handlers. rewrite Hw. cbv beta iota. rewrite Hp.
      cbn [String.eqb Ascii.eqb Bool.eqb andb negb].
      cbv beta iota; cbn [fst snd].
      match goal with
      | |- context [user_by_id (w_user_id w) ?x] =>
          change (user_by_id (w_user_id w) x) with (user_by_id (w_user_id w) s)
      end.
      rewrite Hu. reflexivity.
    + unfold withdrawal_by_id, s'.
      rewrite (cancel_withdrawal_marks id reason now s w Hw Hp).
      change (withdrawal_by_id id
                (with_withdrawals
                   (Sql.update (fun w => (w_id w =? id)%Z)
                      (set_w_cancelled now)) s)
              = Some (set_w_cancelled now w)).
      rewrite withdrawal_by_id_update by reflexivity. rewrite Hw. reflexivity.
Qed.

Lemma process_withdrawal_keeps_balances_nonnegative_witness :
  let s := Sample.bob_awaits_15 in
  (forall u, In u (users s) ->
             0 <= u_cashback u /\ 0 <= u_referral_earnings u)
  /\ forall u, In u (users (run (process_withdrawal 1 None 50%N) s)) ->
               0 <= u_cashback u /\ 0 <= u_referral_earnings u.
Proof.
  intros s.
  assert (H : forall u, In u (users s) ->
                        0 <= u_cashback u /\ 0 <= u_referral_earnings u).
  { intros u [<-|[<-|[]]]; split; discriminate. }
  split; [exact H|].
  exact (process_withdrawal_keeps_balances_nonnegative 1 None 50%N s H).
Defined.

Lemma cancel_withdrawal_moves_no_money_witness :
  let s := Sample.bob_awaits_15 in
  let s' := run (cancel_withdrawal 1 (Some "duplicate") 50%N) s in
  users s' = users s
  /\ cashback_history s' = cashback_history s
  /\ result (cancel_withdrawal 1 (Some "duplicate") 50%N) s
     = Done (Json 200 Success)
  /\ option_map w_status (withdrawal_by_id 1 s') = Some "cancelled".
Proof.
  intros s s'.
  destruct (cancel_withdrawal_moves_no_money 1 (Some "duplicate") 50%N s)
    as (Hu & Hh & Hok).
  destruct (Hok (mkWithdrawal 1 2 (Num.ofZ 15) "TBobWalletAddress" "cashback"
                   "pending" None None)
                Scenario.bob eq_refl eq_refl eq_refl) as (Hres & Hrow).
  split; [exact Hu|]. split; [exact Hh|]. split; [exact Hres|].
  unfold s'. rewrite Hrow. reflexivity.
Defined.

(** ** Invoices *)

Lemma existsb_orb {A} (p q : A -> bool) (rows : list A) :
  existsb (fun a => p a || q a) rows = existsb p rows || existsb q rows.
Proof.
  induction rows as [|a rows IH]; simpl; [reflexivity|].
  rewrite IH. destruct (p a), (q a), (existsb p rows), (existsb q rows);
    reflexivity.
Qed.

Lemma insert_invoice_fresh i s :
  invoice_by_id (i_id i) s = None ->
  invoice_of_order (i_order_id i) s = None ->
  insert_invoice i s = (Done tt, with_invoices (Sql.insert i) s).
Proof.
  intros Hid Hord. unfold insert_invoice.
  rewrite existsb_orb.
  rewrite (existsb_find_none _ _ Hid), (existsb_find_none _ _ Hord).
  reflexivity.
Qed.

Lemma insert_invoice_taken i s i' :
  invoice_of_order (i_order_id i) s = Some i' ->
  insert_invoice i s = (Thrown, s).
Proof.
  intros Hord. unfold insert_invoice. rewrite existsb_orb.
  apply find_some in Hord. destruct Hord as [Hin Heq].
  replace (existsb (fun a => String.eqb (i_order_id a) (i_order_id i))
             (invoices s)) with true.
  - rewrite orb_true_r. reflexivity.
  - symmetry. apply existsb_exists. eauto.
Qed.

Lemma create_invoice_writes req env now s amount :
  ireq_amount req = Some amount ->
  invoice_by_id (invoiceId_of now) s = None ->
  invoice_of_order (ireq_order_id req) s = None ->
  let written :=
    with_orders
      (Sql.update (fun o => String.eqb (o_id o) (ireq_order_id req))
         (set_o_status "awaiting_payment"))
      (with_invoices (Sql.insert (issued req amount env now)) s) in
  invoice_by_id (invoiceId_of now) written = Some (issued req amount env now)
  /\ create_invoice req env now s
     = match user_by_id (ireq_user_id req) s with
       | None => (Done (InvoiceError 404 "User not found"), written)
       | Some user =>
           let notified :=
             with_notifications
               (Sql.insert
                  (mkNotification (ireq_user_id req) "💳 Счет выставлен"
                     [Text.Txt ("Счет #" ++ invoiceId_of now ++ " на сумму $");
                      Text.Fixed2 (i_final_amount (issued req amount env now));
                      Text.Txt ". Перейдите в приложение для оплаты."]))
               written in
           if Text.truthy (Some (u_telegram_id user))
              && Text.truthy (ireq_promo_code req)
              && match ireq_discount_amount req with
                 | None => true
                 | Some _ => false
                 end
           then (Done (InvoiceError 500 "Failed to create invoice"), notified)
           else (Done (InvoiceRow (Some (issued req amount env now))), notified)
       end.
Proof.
  intros Ha Hid Hord written.
  assert (Hrow : invoice_by_id (invoiceId_of now) written
                 = Some (issued req amount env now)).
  { unfold invoice_by_id, written. store_fields.
    rewrite (find_insert_absent _ _ _ Hid). cbn [i_id issued].
    rewrite String.eqb_refl. reflexivity. }
  split; [exact Hrow|].
  unfold create_invoice, try_catch. cbv zeta. rewrite Ha.
  cbn [Num.coerce]. fold (issued req amount env now).
  unfold insert_notification, throw, bind, exec, query, ret.
  rewrite (insert_invoice_fresh (issued req amount env now) s Hid Hord).
  cbv beta iota. fold written.
  change (user_by_id (ireq_user_id req) written)
    with (user_by_id (ireq_user_id req) s).
  destruct (user_by_id (ireq_user_id req) s) as [user|]; [|reflexivity].
  cbv beta iota zeta.
  destruct (Text.truthy (Some (u_telegram_id user))
            && Text.truthy (ireq_promo_code req)) eqn:E; cbn [andb].
  - destruct (ireq_discount_amount req) eqn:Ed; cbv beta iota.
    + change (invoice_by_id (invoiceId_of now) (with_notifications ?f written))
        with (invoice_by_id (invoiceId_of now) written).
      rewrite Hrow. unfold issued. cbn [i_final_amount]. rewrite Ed.
      reflexivity.
    + unfold issued. cbn [i_final_amount]. rewrite Ed. reflexivity.
  - cbv beta iota.
    change (invoice_by_id (invoiceId_of now) (with_notifications ?f written))
      with (invoice_by_id (invoiceId_of now) written).
    rewrite Hrow. reflexivity.
Qed.

Lemma create_invoice_tables req env now s amount :
  ireq_amount req = Some amount ->
  invoice_by_id (invoiceId_of now) s = None ->
  invoice_of_order (ireq_order_id req) s = None ->
  let s' := run (create_invoice req env now) s in
  invoices s' = (invoices s ++ [issued req amount env now])%list
  /\ orders s'
     = Sql.update (fun o => String.eqb (o_id o) (ireq_order_id req))
         (set_o_status "awaiting_payment") (orders s)
  /\ users s' = users s
  /\ cashback_history s' = cashback_history s.
Proof.
  intros Ha Hid Hord s'.
  destruct (create_invoice_writes req env now s amount Ha Hid Hord)
    as (_ & Hrun).
  unfold s', run. rewrite Hrun.
  destruct (user_by_id (ireq_user_id req) s) as [user|];
    [cbv zeta;
     destruct (Text.truthy (Some (u_telegram_id user))
               && Text.truthy (ireq_promo_code req)
               && match ireq_discount_amount req with
                  | None => true
                  | Some _ => false
                  end)|];
    cbn [snd]; repeat split.
Qed.

(** X14: Issuing an invoice for a known user and a known order, under a fresh
    invoice id and for an order without invoice, on a request that gives a
    discount amount whenever it names a promo code, answers with the new
    row: final amount = amount - discount (without promo code a missing
    discount counts 0), status [awaiting_payment], no hash, the configured
    payment address.  The row is appended, the order's status mirrors it,
    and no balance moves.  A promo code without discount amount is the
    failing request of the next theorem. *)
Theorem create_invoice_issues req env now s amount u o :
  ireq_amount req = Some amount ->
  invoice_by_id (invoiceId_of now) s = None ->
  invoice_of_order (ireq_order_id req) s = None ->
  user_by_id (ireq_user_id req) s = Some u ->
  order_by_id (ireq_order_id req) s = Some o ->
  (Text.truthy (ireq_promo_code req) = true ->
   ireq_discount_amount req <> None) ->
  let row := issued req amount env now in
  let s' := run (create_invoice req env now) s in
  result (create_invoice req env now) s = Done (InvoiceRow (Some row))
  /\ i_final_amount row = i_amount row - i_discount_amount row
  /\ invoices s' = (invoices s ++ [row])%list
  /\ orders s'
     = Sql.update (fun o => String.eqb (o_id o) (ireq_order_id req))
         (set_o_status "awaiting_payment") (orders s)
  /\ order_by_id (ireq_order_id req) s'
     = Some (set_o_status "awaiting_payment" o)
  /\ users s' = users s
  /\ cashback_history s' = cashback_history s.
Proof.
  intros Ha Hid Hord Hu Ho Hpromo row s'.
  destruct (create_invoice_writes req env now s amount Ha Hid Hord)
    as (_ & Hrun).
  unfold s', run, result. rewrite Hrun, Hu.
  assert (E : Text.truthy (Some (u_telegram_id u))
              && Text.truthy (ireq_promo_code req)
              && match ireq_discount_amount req with
                 | None => true
                 | Some _ => false
                 end = false).
  { destruct (ireq_discount_amount req) as [d|] eqn:Ed; [apply andb_false_r|].
    destruct (Text.truthy (ireq_promo_code req)) eqn:Ep.
    - exfalso. exact (Hpromo eq_refl eq_refl).
    - rewrite andb_false_r. reflexivity. }
  cbv zeta. rewrite E. cbn [fst snd].
  do 4 (split; [reflexivity|]).
  split; [|split; reflexivity].
  unfold order_by_id in *. store_fields.
  rewrite find_update_pred by (intros; reflexivity).
  rewrite Ho. cbn [option_map].
  assert (Hk : String.eqb (o_id o) (ireq_order_id req) = true).
  { apply find_some in Ho. exact (proj2 Ho). }
  rewrite Hk. reflexivity.
Qed.

Lemma create_invoice_issues_witness :
  let s := Sample.alice_ordered_150 in
  let req := Sample.invoice_for_150 in
  let s' := run (create_invoice req None 20%N) s in
  ireq_amount req = Some (Num.ofZ 150)
  /\ invoice_by_id (invoiceId_of 20%N) s = None
  /\ invoice_of_order (ireq_order_id req) s = None
  /\ user_by_id (ireq_user_id req) s = Some Scenario.alice
  /\ option_map o_status (order_by_id (ireq_order_id req) s)
     = Some "awaiting_manager"
  /\ option_map i_final_amount (invoice_by_id (invoiceId_of 20%N) s')
     = Some (Num.ofZ 150)
  /\ option_map o_status (order_by_id (ireq_order_id req) s')
     = Some "awaiting_payment".
Proof.
  intros s req s'.
  destruct (create_invoice_issues req None 20%N s
              (Num.ofZ 150) Scenario.alice _ eq_refl eq_refl eq_refl eq_refl
              eq_refl)
    as (_ & _ & Hinv & _ & Hord & _).
  { discriminate. }
  do 5 (split; [reflexivity|]).
  split.
  - unfold invoice_by_id, s'. rewrite Hinv. cbn. apply (f_equal Some).
    qc_compute.
  - unfold s'. rewrite Hord. reflexivity.
Defined.



(** X16: An order has at most one invoice: a request for an order that already
    has one fails on the [UNIQUE] column and writes nothing; so does a
    request without amount. *)
Theorem create_invoice_refuses_second_invoice req env now s :
  (exists i, invoice_of_order (ireq_order_id req) s = Some i)
  \/ ireq_amount req = None ->
  result (create_invoice req env now) s
  = Done (InvoiceError 500 "Failed to create invoice")
  /\ run (create_invoice req env now) s = s.
Proof.
  intros [[i Hi]|Ha].
  - unfold run, result, create_invoice, try_catch. cbv zeta.
    destruct (ireq_amount req) as [amount|]; [|split; reflexivity].
    unfold bind. cbv beta.
    match goal with
    | |- context [insert_invoice ?row s] =>
        rewrite (insert_invoice_taken row s i Hi)
    end.
    split; reflexivity.
  - unfold run, result, create_invoice, try_catch. cbv zeta. rewrite Ha.
    split; reflexivity.
Qed.

Lemma create_invoice_refuses_second_invoice_witness :
  let s := Scenario.alice_owes_150 in
  let req := Sample.invoice_for_150 in
  (exists i, invoice_of_order (ireq_order_id req) s = Some i)
  /\ result (create_invoice req None 99%N) s
     = Done (InvoiceError 500 "Failed to create invoice")
  /\ run (create_invoice req None 99%N) s = s.
Proof.
  intros s req.
  assert (H : exists i, invoice_of_order (ireq_order_id req) s = Some i)
    by (eexists; reflexivity).
  split; [exact H|].
  exact (create_invoice_refuses_second_invoice req None 99%N s (or_introl H)).
Defined.

Lemma processReferralPayment_frame uid s :
  let s' := run (processReferralPayment uid) s in
  orders s' = orders s /\ invoices s' = invoices s.
Proof.
  unfold run, processReferralPayment, update_user, insert_notification,
    try_catch, bind, exec, query, ret.
  split_tests; split; reflexivity.
Qed.

(** After a confirmation the invoice and order tables are those the
    handler's own two updates produce. *)
Lemma confirm_invoice_tables id now s inv :
  invoice_by_id id s = Some inv ->
  let s' := run (confirm_invoice id now) s in
  invoices s'
  = Sql.update (fun i => String.eqb (i_id i) id) (set_i_paid "paid" now)
      (invoices s)
  /\ orders s'
     = Sql.update (fun o => String.eqb (o_id o) (i_order_id inv))
         (set_o_status_tx "working" (i_tx_hash inv)) (orders s).
Proof.
  intros Hi s'. unfold s', run. rewrite (confirm_invoice_found _ _ _ _ Hi).
  cbn [snd]. store_fields.
  destruct (processReferralPayment_frame (i_user_id inv)
              (run (updateUserLevel (i_user_id inv)) (credited id now inv s)))
    as (Ho & Hv).
  destruct (updateUserLevel_frame (i_user_id inv) (credited id now inv s))
    as (Ho' & _ & _ & Hv').
  rewrite Ho, Hv, Ho', Hv'. split; reflexivity.
Qed.

(** X17: The payment path end to end: an invoice is issued for an order, the
    client submits a transaction hash, the payment is confirmed.  The
    invoice ends [paid] with that hash and the confirmation time, and the
    order ends [working] carrying the same hash. *)
Theorem issued_invoice_is_paid_with_the_submitted_hash
  req env now s amount u o tx now' :
  ireq_amount req = Some amount ->
  invoice_by_id (invoiceId_of now) s = None ->
  invoice_of_order (ireq_order_id req) s = None ->
  user_by_id (ireq_user_id req) s = Some u ->
  order_by_id (ireq_order_id req) s = Some o ->
  let id := invoiceId_of now in
  let s3 :=
    run (confirm_invoice id now')
      (run (submit_tx_hash id (Some tx))
         (run (create_invoice req env now) s)) in
  invoice_by_id id s3
  = Some (set_i_paid "paid" now'
            (set_i_tx_hash (Some tx) (issued req amount env now)))
  /\ order_by_id (ireq_order_id req) s3
     = Some (set_o_status_tx "working" (Some tx) o).
Proof.
  intros Ha Hid Hord Hu Ho id s3.
  destruct (create_invoice_tables req env now s amount Ha Hid Hord)
    as (Hinv1 & Hord1 & _).
  set (s1 := run (create_invoice req env now) s) in *.
  set (row := issued req amount env now) in *.
  assert (Hrow1 : invoice_by_id id s1 = Some row).
  { unfold invoice_by_id. rewrite Hinv1.
    fold (Sql.insert row (invoices s)).
    rewrite (find_insert_absent _ _ _ Hid). cbn [i_id row issued].
    unfold id. rewrite String.eqb_refl. reflexivity. }
  set (s2 := run (submit_tx_hash id (Some tx)) s1) in *.
  assert (Hs2 : s2 = with_invoices
                       (Sql.update (fun i => String.eqb (i_id i) id)
                          (set_i_tx_hash (Some tx))) s1).
  { unfold s2, run, submit_tx_hash, try_catch, bind, exec, query, ret.
    rewrite Hrow1. reflexivity. }
  assert (Hrow2 : invoice_by_id id s2 = Some (set_i_tx_hash (Some tx) row)).
  { rewrite Hs2. unfold invoice_by_id in *. store_fields.
    rewrite find_update_pred by (intros; reflexivity).
    rewrite Hrow1. cbn [option_map]. cbn [i_id row issued].
    unfold id. rewrite String.eqb_refl. reflexivity. }
  destruct (confirm_invoice_tables id now' s2 _ Hrow2) as (Hinv3 & Hord3).
  fold s3 in Hinv3, Hord3.
  split.
  - unfold invoice_by_id in *. rewrite Hinv3.
    rewrite find_update_pred by (intros; reflexivity).
    rewrite Hrow2. cbn [option_map i_id set_i_tx_hash row issued].
    unfold id. rewrite String.eqb_refl. reflexivity.
  - unfold order_by_id in *. rewrite Hord3.
    rewrite find_update_pred by (intros; reflexivity).
    rewrite Hs2. store_fields. rewrite Hord1.
    rewrite find_update_pred by (intros; reflexivity).
    rewrite Ho. cbn [option_map].
    assert (Hk : String.eqb (o_id o) (ireq_order_id req) = true).
    { apply find_some in Ho. exact (proj2 Ho). }
    rewrite Hk. cbn [o_id set_o_status set_o_status_tx i_order_id
                       set_i_tx_hash row issued i_tx_hash].
    rewrite Hk. reflexivity.
Qed.

Lemma issued_invoice_is_paid_with_the_submitted_hash_witness :
  let s := Sample.alice_ordered_150 in
  let req := Sample.invoice_for_150 in
  let id := invoiceId_of 20%N in
  let s3 :=
    run (confirm_invoice id 40%N)
      (run (submit_tx_hash id (Some "9f2c41d0"))
         (run (create_invoice req None 20%N) s)) in
  invoice_by_id id s = None
  /\ invoice_of_order (ireq_order_id req) s = None
  /\ user_by_id (ireq_user_id req) s = Some Scenario.alice
  /\ option_map o_status (order_by_id (ireq_order_id req) s)
     = Some "awaiting_manager"
  /\ option_map (fun i => (i_status i, i_tx_hash i, i_paid_at i))
       (invoice_by_id id s3)
     = Some ("paid", Some "9f2c41d0", Some 40%N)
  /\ option_map (fun o => (o_status o, o_tx_hash o))
       (order_by_id (ireq_order_id req) s3)
     = Some ("working", Some "9f2c41d0").
Proof.
  intros s req id s3.
  destruct (issued_invoice_is_paid_with_the_submitted_hash
              req None 20%N s (Num.ofZ 150) Scenario.alice
              _ "9f2c41d0" 40%N eq_refl eq_refl eq_refl eq_refl eq_refl)
    as (Hi & Ho).
  do 4 (split; [reflexivity|]).
  split.
  - unfold s3, id. rewrite Hi. reflexivity.
  - unfold s3, id. rewrite Ho. reflexivity.
Defined.

(** ** Order status and cart orders *)

(** X18: The admin status endpoint stores whatever status text it is given on
    a known order and answers 200; on an unknown order it answers 404 and
    leaves the store as it was.  In neither case does it touch a user
    row, the cashback history, the referrals or the invoices: moving an
    order to [working] here credits nothing, unlike a confirmed payment. *)
Theorem update_order_status_stores_status_only orderId status s :
  let s' := run (update_order_status orderId status) s in
  users s' = users s
  /\ cashback_history s' = cashback_history s
  /\ referrals s' = referrals s
  /\ invoices s' = invoices s
  /\ (order_by_id orderId s = None ->
      result (update_order_status orderId status) s
      = Done (Json 404 (Error "Order not found"))
      /\ s' = s)
  /\ (forall o,
        order_by_id orderId s = Some o ->
        result (update_order_status orderId status) s = Done (Json 200 Success)
        /\ order_by_id orderId s' = Some (set_o_status status o)).
Proof.
  intros s'. unfold s', run, result, update_order_status, notifyOrderStatus,
    insert_notification, try_catch, bind, exec, query, ret.
  destruct (order_by_id orderId s) as [o|] eqn:Ho; cbv beta iota zeta.
  - change (user_by_id (o_user_id o) (with_orders ?f s))
      with (user_by_id (o_user_id o) s).
    assert (Hrow : order_by_id orderId
                     (with_orders
                        (Sql.update (fun o => String.eqb (o_id o) orderId)
                           (set_o_status status)) s)
                   = Some (set_o_status status o)).
    { unfold order_by_id in *. store_fields.
      rewrite find_update_pred by (intros; reflexivity).
      rewrite Ho. cbn [option_map].
      apply find_some in Ho. rewrite (proj2 Ho). reflexivity. }
    destruct (user_by_id (o_user_id o) s); cbv beta iota; cbn [fst snd];
      (do 4 (split; [reflexivity|]));
      (split; [discriminate|]);
      intros o' Ho'; injection Ho' as <-; (split; [reflexivity|]);
      exact Hrow.
  - cbn [fst snd]. do 4 (split; [reflexivity|]).
    split; [intros _; split; reflexivity | discriminate].
Qed.

Lemma update_order_status_stores_status_only_witness :
  let s := Sample.alice_ordered_150 in
  let s' := run (update_order_status "ORD150" "completed") s in
  option_map o_status (order_by_id "ORD150" s) = Some "awaiting_manager"
  /\ option_map o_status (order_by_id "ORD150" s') = Some "completed"
  /\ users s' = users s
  /\ cashback_history s' = cashback_history s.
Proof.
  intros s s'.
  destruct (update_order_status_stores_status_only "ORD150" "completed" s)
    as (Hu & Hh & _ & _ & _ & Hok).
  destruct (Hok _ eq_refl) as (_ & Hrow).
  split; [reflexivity|].
  split; [unfold s'; rewrite Hrow; reflexivity|].
  split; [exact Hu | exact Hh].
Defined.

(** X19: A cart order of a known user under an unused order id is stored for
    that user with status [awaiting_manager], the request's total, and
    [subtotal || total] as subtotal.  Nothing is charged: no user row and
    no cashback history row changes.  A request without item list is
    answered 500 although its order row has been written. *)
Theorem create_cart_order_stores_without_charging
  telegram_id orderData now s u total :
  user_by_telegram_id telegram_id s = Some u ->
  cart_total orderData = Some total ->
  order_by_id (cart_orderId_of orderData now) s = None ->
  let id := cart_orderId_of orderData now in
  let s' := run (create_cart_order telegram_id orderData now) s in
  (exists o,
     order_by_id id s' = Some o
     /\ o_user_id o = u_id u
     /\ o_status o = "awaiting_manager"
     /\ o_total o = Some total
     /\ o_subtotal o = Num.or (cart_subtotal orderData) (Some total)
     /\ o_cashback_used o = None)
  /\ users s' = users s
  /\ cashback_history s' = cashback_history s
  /\ result (create_cart_order telegram_id orderData now) s
     = match cart_items orderData with
       | Some _ => Done (Json 200 (SuccessOrder id))
       | None => Done (Json 500 (Error "Server error"))
       end.
Proof.
  intros Hu Ht Hfresh id s'.
  unfold s', run, result, create_cart_order, insert_order,
    insert_notification, throw, try_catch, bind, exec, query, ret.
  rewrite Hu. cbv beta iota zeta. cbn [o_id].
  fold id. unfold order_by_id in Hfresh. fold id in Hfresh.
  rewrite (existsb_find_none _ _ Hfresh). cbv beta iota.
  assert (Hrow : forall f g,
             find (fun o => String.eqb (o_id o) id)
               (orders (with_notifications f (with_orders (Sql.insert g) s)))
             = if String.eqb (o_id g) id then Some g else None).
  { intros f g. store_fields. exact (find_insert_absent _ g _ Hfresh). }
  destruct (cart_items orderData); cbv beta iota; cbn [fst snd];
    (split;
     [eexists; split;
      [unfold order_by_id; rewrite Hrow; cbn [o_id];
       rewrite String.eqb_refl; reflexivity
      |cbn [o_user_id o_status o_total o_subtotal o_cashback_used];
       rewrite Ht; repeat split]
     |repeat split]).
Qed.

Lemma create_cart_order_stores_without_charging_witness :
  let s := Sample.alice_ordered_150 in
  let cart :=
    mkCartRequest (Some "CART7") None None None None None
      (Some (Num.ofZ 90)) in
  let s' := run (create_cart_order "1001" cart 30%N) s in
  user_by_telegram_id "1001" s = Some Scenario.alice
  /\ order_by_id "CART7" s = None
  /\ result (create_cart_order "1001" cart 30%N) s
     = Done (Json 500 (Error "Server error"))
  /\ option_map o_status (order_by_id "CART7" s') = Some "awaiting_manager"
  /\ users s' = users s.
Proof.
  intros s cart s'.
  destruct (create_cart_order_stores_without_charging "1001" cart 30%N s
              Scenario.alice (Num.ofZ 90) eq_refl eq_refl eq_refl)
    as ((o & Ho & _ & Hst & _) & Husers & _ & Hres).
  do 2 (split; [reflexivity|]).
  split; [exact Hres|].
  split; [|exact Husers].
  change "CART7" with (cart_orderId_of cart 30%N).
  unfold s'. rewrite Ho. cbn [option_map]. rewrite Hst. reflexivity.
Defined.

(** ** Review bonus *)

Lemma ofZ_succ (n : nat) :
  Num.ofZ (Z.of_nat (S n)) = Num.ofZ (Z.of_nat n) + 1.
Proof.
  rewrite Nat2Z.inj_succ. unfold Z.succ, Num.ofZ.
  apply Qc_is_canon. unfold Qcplus. cbn [this Q2Qc].
  rewrite !Qred_correct, inject_Z_plus. reflexivity.
Qed.

Lemma submit_review_credits telegram_id orderId now s u :
  user_by_telegram_id telegram_id s = Some u ->
  result (submit_review telegram_id orderId now) s
  = Done (Json 200 (SuccessBonus reviewBonus))
  /\ user_by_telegram_id telegram_id
       (run (submit_review telegram_id orderId now) s)
     = Some (set_u_cashback (u_cashback u + reviewBonus) u).
Proof.
  intros Hu.
  unfold run, result, submit_review, update_user, insert_cashback_history,
    try_catch, bind, exec, query, ret.
  rewrite Hu. cbv beta iota. cbn [fst snd]. split; [reflexivity|].
  unfold user_by_telegram_id in *. store_fields.
  rewrite find_update_pred by (intros; reflexivity).
  rewrite Hu. cbn [option_map]. rewrite Z.eqb_refl. reflexivity.
Qed.

(** X20: The review bonus has no guard: every call by a known user answers
    with the bonus of 2 and adds it to the balance, whichever order id
    the call names (an order of somebody else, one reviewed before, or
    none at all).  After [n] calls the balance is up by [2 * n]. *)
Theorem review_bonus_is_paid_on_every_call telegram_id
  (reviews : list (string * timestamp)) s u :
  user_by_telegram_id telegram_id s = Some u ->
  let requests :=
    map (fun r => SubmitReview telegram_id (fst r) (snd r)) reviews in
  user_by_telegram_id telegram_id (handle_all requests s)
  = Some (set_u_cashback
            (u_cashback u
             + reviewBonus * Num.ofZ (Z.of_nat (List.length reviews))) u).
Proof.
  revert s u. induction reviews as [|[orderId now] reviews IH]; intros s u Hu.
  - cbn [map handle_all fold_left List.length Z.of_nat]. rewrite Hu.
    apply f_equal. destruct u. unfold set_u_cashback. cbn.
    apply (f_equal (fun q => mkUser _ _ _ _ _ _ q _ _ _ _)).
    change (Num.ofZ 0) with 0. ring.
  - cbn [map fst snd]. unfold handle_all. cbn [fold_left handle].
    destruct (submit_review_credits telegram_id orderId now s u Hu)
      as (_ & Hstep).
    specialize (IH _ _ Hstep). unfold handle_all in IH. cbv zeta in IH.
    rewrite IH. apply f_equal.
    cbn [List.length]. rewrite ofZ_succ.
    destruct u. unfold set_u_cashback. cbn.
    apply (f_equal (fun q => mkUser _ _ _ _ _ _ q _ _ _ _)). ring.
Qed.

Lemma review_bonus_is_paid_on_every_call_witness :
  let s := Scenario.bob_first_order in
  let requests :=
    [SubmitReview "1002" "NO-SUCH-ORDER" 60%N;
     SubmitReview "1002" "NO-SUCH-ORDER" 61%N;
     SubmitReview "1002" "NO-SUCH-ORDER" 62%N] in
  user_by_telegram_id "1002" s = Some Scenario.bob
  /\ order_by_id "NO-SUCH-ORDER" s = None
  /\ option_map u_cashback (user_by_telegram_id "1002" (handle_all requests s))
     = Some (Num.ofZ 26).
Proof.
  intros s requests.
  pose proof (review_bonus_is_paid_on_every_call "1002"
                [("NO-SUCH-ORDER", 60%N); ("NO-SUCH-ORDER", 61%N);
                 ("NO-SUCH-ORDER", 62%N)] s Scenario.bob eq_refl) as H.
  cbv zeta in H. cbn [map fst snd] in H.
  do 2 (split; [reflexivity|]).
  unfold requests. rewrite H. cbn [option_map u_cashback set_u_cashback].
  apply f_equal. qc_compute.
Defined.

(** ** Promo codes *)

Lemma find_conj_none {A} (q a : A -> bool) (rows : list A) :
  existsb q rows = false -> find (fun p => q p && a p) rows = None.
Proof.
  induction rows as [|p rows IH]; cbn [existsb find]; [reflexivity|].
  destruct (q p); cbn [orb andb]; [discriminate | exact IH].
Qed.

Lemma create_promo_fresh req rowid s c r d :
  preq_code req = Some (String c r) ->
  preq_discount_percent req = Some d ->
  (1 <= d <= 100)%Z ->
  existsb (fun p => String.eqb (p_code p) (Text.toUpperCase (String c r)))
          (promo_codes s) = false ->
  create_promo req rowid s
  = (Done (PromoCreated rowid (Text.toUpperCase (String c r))),
     with_promo_codes
       (Sql.insert (mkPromo rowid (Text.toUpperCase (String c r)) d
                      (or_nullZ (preq_max_uses req)) 0
                      (preq_expires_at req) true))
       s).
Proof.
  intros Hc Hd Hrange Hfresh. unfold create_promo. rewrite Hc, Hd.
  replace (d =? 0)%Z with false by (symmetry; apply Z.eqb_neq; lia).
  replace (d <? 1)%Z with false by (symmetry; apply Z.ltb_ge; lia).
  replace (100 <? d)%Z with false by (symmetry; apply Z.ltb_ge; lia).
  cbn [orb]. rewrite Hfresh. reflexivity.
Qed.

(** X21: A promo code created with a percentage between 1 and 100 under a code
    not yet in the table is found valid by the public check, under any
    spelling of the code that upper-cases to the same text, with the
    percentage it was created with: provided it has not expired and its
    limit is not negative (a negative limit makes the new code exhausted
    at once; a limit of 0 is stored as no limit). *)
Theorem created_promo_is_found_valid req rowid s code d lookup now :
  preq_code req = Some code -> code <> "" ->
  preq_discount_percent req = Some d ->
  (1 <= d <= 100)%Z ->
  existsb (fun p => String.eqb (p_code p) (Text.toUpperCase code))
          (promo_codes s) = false ->
  (forall m, preq_max_uses req = Some m -> (0 <= m)%Z) ->
  (forall t, preq_expires_at req = Some t -> (now <= t)%N) ->
  Text.toUpperCase lookup = Text.toUpperCase code ->
  result (create_promo req rowid) s
  = Done (PromoCreated rowid (Text.toUpperCase code))
  /\ result (check_promo lookup now) (run (create_promo req rowid) s)
     = Done (Json 200 (PromoValid (Text.toUpperCase code) d)).
Proof.
  intros Hc Hne Hd Hrange Hfresh Hmax Hexp Hlookup.
  destruct code as [|c r]; [congruence|].
  unfold run, result.
  rewrite (create_promo_fresh req rowid s c r d Hc Hd Hrange Hfresh).
  cbn [fst snd]. split; [reflexivity|].
  unfold check_promo, try_catch, bind, query, ret. cbv zeta.
  rewrite Hlookup. unfold active_promo_by_code. store_fields.
  rewrite (find_insert_absent _ _ _ (find_conj_none _ _ _ Hfresh)).
  cbn [p_code p_is_active]. rewrite String.eqb_refl. cbn [andb].
  cbv beta iota.
  assert (Hx : expired (mkPromo rowid (Text.toUpperCase (String c r)) d
                          (or_nullZ (preq_max_uses req)) 0
                          (preq_expires_at req) true) now = false).
  { unfold expired. cbn [p_expires_at].
    destruct (preq_expires_at req) as [t|] eqn:Et; [|reflexivity].
    apply N.ltb_ge. now apply Hexp. }
  assert (Hu : exhausted (mkPromo rowid (Text.toUpperCase (String c r)) d
                            (or_nullZ (preq_max_uses req)) 0
                            (preq_expires_at req) true) = false).
  { unfold exhausted. cbn [p_max_uses p_current_uses].
    destruct (preq_max_uses req) as [m|] eqn:Em; [|reflexivity].
    specialize (Hmax m eq_refl).
    destruct m as [|m|m]; cbn [or_nullZ]; [reflexivity|reflexivity|lia]. }
  rewrite Hx, Hu. reflexivity.
Qed.

Lemma created_promo_is_found_valid_witness :
  let req := mkPromoRequest (Some "Spring15") (Some 15%Z) (Some 0%Z) None in
  let s := Scenario.save10 in
  existsb (fun p => String.eqb (p_code p) (Text.toUpperCase "Spring15"))
          (promo_codes s) = false
  /\ Text.toUpperCase "spring15" = Text.toUpperCase "Spring15"
  /\ result (create_promo req 2) s = Done (PromoCreated 2 "SPRING15")
  /\ result (check_promo "spring15" 99%N) (run (create_promo req 2) s)
     = Done (Json 200 (PromoValid "SPRING15" 15)).
Proof.
  intros req s.
  assert (Hne : "Spring15" <> "") by discriminate.
  assert (Hr : (1 <= 15 <= 100)%Z) by lia.
  assert (Hm : forall m, preq_max_uses req = Some m -> (0 <= m)%Z).
  { intros m H. injection H as <-. lia. }
  assert (Ht : forall t, preq_expires_at req = Some t -> (99 <= t)%N)
    by discriminate.
  do 2 (split; [reflexivity|]).
  exact (created_promo_is_found_valid req 2 s "Spring15" 15 "spring15" 99%N
           eq_refl Hne eq_refl Hr eq_refl Hm Ht eq_refl).
Defined.

(** X22: The create endpoint never stores what it rejects: a request answered
    with an error leaves the table as it was, and a code already in the
    table, in whatever case it is sent, is answered 400. *)
Theorem create_promo_rejections_store_nothing req rowid s :
  (forall status error,
     result (create_promo req rowid) s = Done (PromoError status error) ->
     status = 400%N /\ run (create_promo req rowid) s = s)
  /\ (forall code p,
        preq_code req = Some code ->
        In p (promo_codes s) ->
        p_code p = Text.toUpperCase code ->
        exists error,
          result (create_promo req rowid) s = Done (PromoError 400 error)).
Proof.
  split.
  - intros status error. unfold run, result, create_promo, ret.
    destruct (preq_code req) as [[|c r]|];
      destruct (preq_discount_percent req) as [d|]; cbn [fst snd];
      try (intros H; injection H as <- _; split; reflexivity).
    destruct (d =? 0)%Z; cbn [fst snd];
      [intros H; injection H as <- _; split; reflexivity|].
    destruct ((d <? 1)%Z || (100 <? d)%Z); cbn [fst snd];
      [intros H; injection H as <- _; split; reflexivity|].
    destruct (existsb _ (promo_codes s)); cbn [fst snd];
      [intros H; injection H as <- _; split; reflexivity | discriminate].
  - intros code p Hc Hin Hp. unfold result, create_promo, ret. rewrite Hc.
    destruct code as [|c r];
      [destruct (preq_discount_percent req); eexists; reflexivity|].
    destruct (preq_discount_percent req) as [d|]; [|eexists; reflexivity].
    destruct (d =? 0)%Z; [eexists; reflexivity|].
    destruct ((d <? 1)%Z || (100 <? d)%Z); [eexists; reflexivity|].
    replace (existsb _ (promo_codes s)) with true; [eexists; reflexivity|].
    symmetry. apply existsb_exists. exists p. split; [exact Hin|].
    rewrite Hp. apply String.eqb_refl.
Qed.

Lemma create_promo_rejections_store_nothing_witness :
  let req := mkPromoRequest (Some "save10") (Some 30%Z) None None in
  let s := Scenario.save10 in
  (exists p, In p (promo_codes s) /\ p_code p = Text.toUpperCase "save10")
  /\ (exists error,
        result (create_promo req 2) s = Done (PromoError 400 error))
  /\ run (create_promo req 2) s = s.
Proof.
  intros req s.
  destruct (create_promo_rejections_store_nothing req 2 s) as (Hkeep & Hdup).
  assert (Hp : exists p, In p (promo_codes s)
                         /\ p_code p = Text.toUpperCase "save10").
  { eexists. split; [left; reflexivity | reflexivity]. }
  split; [exact Hp|].
  destruct Hp as (p & Hin & Hcode).
  destruct (Hdup "save10" p eq_refl Hin Hcode) as (error & Herr).
  split; [exists error; exact Herr|].
  exact (proj2 (Hkeep _ _ Herr)).
Defined.

Lemma confirm_invoice_keeps_promos id now s :
  promo_codes (run (confirm_invoice id now) s) = promo_codes s.
Proof.
  unfold run. destruct (invoice_by_id id s) as [inv|] eqn:Hi.
  - rewrite (confirm_invoice_found _ _ _ _ Hi). cbn [snd]. store_fields.
    unfold run, processReferralPayment, updateUserLevel, update_user,
      insert_notification, try_catch, bind, exec, query, ret.
    split_tests; reflexivity.
  - rewrite (confirm_invoice_missing _ _ _ Hi). reflexivity.
Qed.

Lemma handle_keeps_promo_range r s :
  Forall (fun p => (1 <= p_discount_percent p <= 100)%Z) (promo_codes s) ->
  Forall (fun p => (1 <= p_discount_percent p <= 100)%Z)
         (promo_codes (handle r s)).
Proof.
  intros H.
  destruct r;
    try (cbn [handle]; rewrite confirm_invoice_keeps_promos; exact H);
    unfold_handlers; split_tests; store_fields; try exact H.
  - (* apply *)
    unfold Sql.update. apply Forall_map.
    revert H. apply Forall_impl. intros q Hq.
    match goal with
    | |- context [if ?c then _ else _] => destruct c
    end; exact Hq.
  - (* create *)
    unfold Sql.insert. apply Forall_app. split; [exact H|].
    constructor; [|constructor]. cbn [p_discount_percent].
    match goal with
    | H1 : (_ =? 0)%Z = false, H2 : (_ <? 1)%Z || (100 <? _)%Z = false |- _ =>
        apply orb_false_iff in H2; destruct H2 as (Hlo & Hhi);
        apply Z.ltb_ge in Hlo, Hhi
    end.
    lia.
  - (* delete *)
    apply Forall_forall. intros q Hq. apply filter_In in Hq.
    exact (proj1 (Forall_forall _ _) H q (proj1 Hq)).
Qed.

(** X23: Every percentage the promo endpoints hand out lies between 1 and 100:
    the bound enforced on creation survives every request, so from a table
    that respects it the check and the redemption never answer with a
    discount outside it. *)
Theorem promo_discounts_stay_in_range (rs : list request) (s : store) :
  Forall (fun p => (1 <= p_discount_percent p <= 100)%Z) (promo_codes s) ->
  let s' := handle_all rs s in
  Forall (fun p => (1 <= p_discount_percent p <= 100)%Z) (promo_codes s')
  /\ (forall code now c d,
        result (check_promo code now) s' = Done (Json 200 (PromoValid c d)) ->
        (1 <= d <= 100)%Z)
  /\ (forall code user_id order_id d,
        result (apply_promo code user_id order_id) s'
        = Done (Json 200 (SuccessDiscount d)) ->
        (1 <= d <= 100)%Z).
Proof.
  intros H s'.
  assert (H' : Forall (fun p => (1 <= p_discount_percent p <= 100)%Z)
                      (promo_codes s')).
  { unfold s', handle_all. clear s'. revert s H.
    induction rs as [|r rs IH]; intros s H; cbn [fold_left]; [exact H|].
    apply IH. now apply handle_keeps_promo_range. }
  split; [exact H'|].
  assert (Hfound : forall code p,
             active_promo_by_code code s' = Some p ->
             (1 <= p_discount_percent p <= 100)%Z).
  { intros code p Hp. unfold active_promo_by_code in Hp.
    apply find_some in Hp.
    exact (proj1 (Forall_forall _ _) H' p (proj1 Hp)). }
  split.
  - intros code now c d.
    unfold result, check_promo, try_catch, bind, query, ret. cbv zeta.
    destruct (active_promo_by_code (Text.toUpperCase code) s') as [p|] eqn:Hp;
      cbv beta iota; cbn [fst]; [|discriminate].
    destruct (expired p now); cbn [fst]; [discriminate|].
    destruct (exhausted p); cbn [fst]; [discriminate|].
    intros E. injection E as _ <-. exact (Hfound _ _ Hp).
  - intros code user_id order_id d.
    unfold result, apply_promo, try_catch, bind, exec, query, ret. cbv zeta.
    destruct (active_promo_by_code (Text.toUpperCase code) s') as [p|] eqn:Hp;
      cbv beta iota; cbn [fst]; [|discriminate].
    intros E. injection E as <-. exact (Hfound _ _ Hp).
Qed.

Lemma promo_discounts_stay_in_range_witness :
  let rs :=
    [CreatePromo (mkPromoRequest (Some "big") (Some 250%Z) None None) 2;
     CreatePromo (mkPromoRequest (Some "half") (Some 50%Z) None None) 3;
     ApplyPromo "save10" 2 "ORD1"] in
  let s' := handle_all rs Scenario.save10 in
  Forall (fun p => (1 <= p_discount_percent p <= 100)%Z)
         (promo_codes Scenario.save10)
  /\ map p_code (promo_codes s') = ["SAVE10"; "HALF"]
  /\ Forall (fun p => (1 <= p_discount_percent p <= 100)%Z) (promo_codes s').
Proof.
  intros rs s'.
  assert (H : Forall (fun p => (1 <= p_discount_percent p <= 100)%Z)
                     (promo_codes Scenario.save10)).
  { constructor; [cbn; lia | constructor]. }
  split; [exact H|]. split; [reflexivity|].
  exact (proj1 (promo_discounts_stay_in_range rs Scenario.save10 H)).
Defined.

(** ** What a positive verification guarantees *)

Section VerifierSoundness.

Import Tronscan.

Variable parseInt : string -> option Z.

(** X24: The verifier answers [verified: true] only for a request that names a
    hash and a recipient, on a payload the indexer returned as confirmed
    and not as [NOT_FOUND], whose extracted recipient is non-empty and
    equals the requested one up to letter case; the reported amount,
    recipient and timestamp are the payload's.  If the request carries a
    non-zero expected amount and the extracted amount is positive, the two
    differ by at most 1% of the expected amount. *)
Theorem verified_only_if_confirmed_and_addressed
  (req : request) (answer : fetched) (a : jsnum) (to : string) (c : bool)
  (ts : option N) :
  verify parseInt req answer = Verified a to c ts ->
  exists h rcp tx,
    txHash req = Some h /\ h <> ""
    /\ recipientAddress req = Some rcp /\ rcp <> ""
    /\ answer = HttpOk (Some tx)
    /\ code tx <> Some "NOT_FOUND"
    /\ confirmed tx = true /\ c = true
    /\ ts = timestamp_of tx
    /\ extract parseInt tx = (a, Some to)
    /\ to <> ""
    /\ Text.toLowerCase to = Text.toLowerCase rcp
    /\ (forall e f,
          expectedAmount req = Some e -> e <> 0 -> a = Fin f -> 0 < f ->
          Num.abs (f - e) <= e * Num.frac 1 100).
Proof.
  unfold verify.
  destruct (txHash req) as [[|hc hr]|] eqn:Hh; cbn [Text.truthy negb];
    try discriminate.
  destruct (recipientAddress req) as [[|rc rr]|] eqn:Hr; try discriminate.
  destruct answer as [| st |[tx|]]; try discriminate.
  destruct (match code tx with
            | Some c0 => String.eqb c0 "NOT_FOUND"
            | None => false
            end) eqn:Hc; [discriminate|].
  destruct (confirmed tx) eqn:Hconf; cbn [negb]; [|discriminate].
  destruct (extract parseInt tx) as [ta tto] eqn:Hex.
  destruct (amount_rejected (expectedAmount req) ta) as [[e0 f0]|] eqn:Ham;
    [discriminate|].
  destruct tto as [[|tc tr]|]; try discriminate.
  destruct (String.eqb (Text.toLowerCase (String tc tr))
                       (Text.toLowerCase (String rc rr))) eqn:Hlow;
    cbn [negb]; [|discriminate].
  intros E. injection E as <- <- <- <-.
  exists (String hc hr), (String rc rr), tx.
  split; [reflexivity|]. split; [discriminate|].
  split; [reflexivity|]. split; [discriminate|].
  split; [reflexivity|].
  split.
  { intros Hcode. rewrite Hcode in Hc. discriminate. }
  split; [exact Hconf|]. split; [reflexivity|]. split; [reflexivity|].
  split; [exact Hex|]. split; [discriminate|].
  split; [now apply String.eqb_eq|].
  intros e f He Hne -> Hf.
  unfold amount_rejected, positive in Ham. rewrite He in Ham.
  rewrite (NumFacts.truthy_some _ Hne) in Ham.
  rewrite (proj2 (NumFacts.ltb_lt _ _) Hf) in Ham. cbn [andb] in Ham.
  destruct (Num.ltb (e * Num.frac 1 100) (Num.abs (f - e))) eqn:Htol;
    [discriminate|].
  apply NumFacts.ltb_ge. exact Htol.
Qed.

End VerifierSoundness.

Lemma verified_only_if_confirmed_and_addressed_witness :
  let req := Scenario.ask 100 in
  let tx := Scenario.amountless "taxtuqh2zjhks5yzq2zzvdefexs7ktoyuv" in
  Tronscan.verify Scenario.parseInt req (Tronscan.HttpOk (Some tx))
  = Tronscan.Verified (Tronscan.Fin 0) "taxtuqh2zjhks5yzq2zzvdefexs7ktoyuv"
      true (Some 1700000000000%N)
  /\ exists rcp,
       Tronscan.recipientAddress req = Some rcp
       /\ Text.toLowerCase "taxtuqh2zjhks5yzq2zzvdefexs7ktoyuv"
          = Text.toLowerCase rcp.
Proof.
  intros req tx.
  assert (Hv : Tronscan.verify Scenario.parseInt req
                 (Tronscan.HttpOk (Some tx))
               = Tronscan.Verified (Tronscan.Fin 0)
                   "taxtuqh2zjhks5yzq2zzvdefexs7ktoyuv" true
                   (Some 1700000000000%N)) by reflexivity.
  split; [exact Hv|].
  destruct (verified_only_if_confirmed_and_addressed Scenario.parseInt
              req _ _ _ _ _ Hv)
    as (h & rcp & tx' & _ & _ & Hr & _ & _ & _ & _ & _ & _ & _ & _ & Hlow & _).
  exists rcp. split; [exact Hr | exact Hlow].
Defined.

(** ** Referral links *)






